(** * aireo_lib: index arithmetic and catalog handling

    A shallow embedding of the parts of [aireo_lib] (and of the two pilot
    dataset implementations) that decide how a flat example index is
    resolved, how tiles are laid out over a raster, and how a STAC catalog
    is loaded, rated and written.

    Python integers are [Z]; a Python exception is a value of [exn] carried
    by [result]; a numpy array or a Python list indexed by position is a
    [list] read and updated through stdpp's lookup and insert, with the
    range checks of the source written out; a [dict] keyed by strings is a
    [gmap string _], a [set] of strings a [gset string]. *)

From Stdlib Require Import ZArith QArith String Ascii List Lia.
From stdpp Require Import base option list strings gmap sets.

Close Scope Q_scope.
Local Open Scope Z_scope.

(** ** Python values and exceptions *)

Module Py.

(** The exceptions the modelled code can raise. [Exception_] is the plain
    [Exception(msg)] of a [raise] statement, [SystemExit] what [sys.exit]
    raises. *)
Inductive exn : Type :=
| IndexError
| TypeError
| ValueError
| KeyError (key : string)
| ZeroDivisionError
| OverflowError
| AssertionError
| AttributeError (name : string)
| FileExistsError (path : string)
| FileNotFoundError (path : string)
| IsADirectoryError (path : string)
| NotADirectoryError (path : string)
| SystemExit (msg : string)
| SyntaxError
| Exception_ (msg : string).

Inductive result (A : Type) : Type :=
| Ok (a : A)
| Raise (e : exn).
Arguments Ok {A} a.
Arguments Raise {A} e.

Definition is_ok {A} (r : result A) : bool :=
  match r with Ok _ => true | Raise _ => false end.

#[global] Instance result_ret : MRet result := fun A a => Ok a.
#[global] Instance result_bind : MBind result := fun A B f r =>
  match r with
  | Ok a => f a
  | Raise e => Raise e
  end.

(** [assert cond] *)
Definition py_assert (cond : bool) : result unit :=
  if cond then Ok tt else Raise AssertionError.

(** Position addressed by index [i] in a sequence of [n] items, the way
    Python lists and numpy arrays index: [-n <= i < 0] counts from the
    end, anything outside [-n, n) raises [IndexError]. *)
Definition seq_index (n : nat) (i : Z) : result nat :=
  if (0 <=? i) && (i <? Z.of_nat n) then Ok (Z.to_nat i)
  else if (- Z.of_nat n <=? i) && (i <? 0) then Ok (Z.to_nat (Z.of_nat n + i))
  else Raise IndexError.

(** [a[i]] *)
Definition getitem {A} (a : list A) (i : Z) : result A :=
  k ← seq_index (length a) i;
  match a !! k with
  | Some x => Ok x
  | None => Raise IndexError
  end.

(** [a[i] = x] *)
Definition setitem {A} (a : list A) (i : Z) (x : A) : result (list A) :=
  k ← seq_index (length a) i;
  Ok (<[k := x]> a).

(** A Python int stored into a cell of a numpy array of [dtype=int]
    (64 bits, signed): numpy refuses a value that does not fit. *)
Definition to_int64 (v : Z) : result Z :=
  if (- 2 ^ 63 <=? v) && (v <? 2 ^ 63) then Ok v else Raise OverflowError.

(** [np.arange(start, stop)]: empty when [stop <= start]. *)
Definition np_arange (start stop : Z) : list Z := seqZ start (stop - start).

(** The integer nearest to [n / d], a tie going to the even one, for
    [0 <= n] and [0 < d]. *)
Definition round_half_even (n d : Z) : Z :=
  let q := n / d in
  let r := n mod d in
  if 2 * r <? d then q
  else if d <? 2 * r then q + 1
  else if Z.even q then q else q + 1.

(** [n / (d * 2^e)] as a fraction of two integers. *)
Definition scale2 (n d e : Z) : Z * Z :=
  if 0 <=? e then (n, d * 2 ^ e) else (n * 2 ^ (- e), d).

(** The double nearest to [a / b] for [0 < a] and [0 < b], as a mantissa
    [m] and an exponent [e]: its value is [m * 2^e], with
    [2^52 <= m <= 2^53]. The exponent is not bounded here: the caller
    checks the upper end, and below [2^-1022], where doubles lose
    precision, every value truncates to 0 as it does here. *)
Definition nearest_double (a b : Z) : Z * Z :=
  let t := Z.log2 a - Z.log2 b in
  let '(n, d) := scale2 a b (t - 52) in
  let e := if 2 ^ 52 * d <=? n then t - 52 else t - 53 in
  let '(n, d) := scale2 a b e in
  (round_half_even n d, e).

(** [int(x)] for the double [m * 2^e], [0 <= m]. *)
Definition int_of_double (m e : Z) : Z :=
  if 0 <=? e then m * 2 ^ e else m / 2 ^ (- e).

(** [int(a / b)] on integers. A [ZeroDivisionError] for [b = 0];
    otherwise Python computes [a / b] as the double nearest to the
    quotient (ties to even), raises [OverflowError] when that is beyond
    the largest double, and [int] truncates the double toward zero. For
    [|a| < 2^53] the double lies on the same side of every integer as the
    quotient does and truncates to [Z.quot a b]: a quotient that is not
    an integer is [1 / |b|] or more below the next one, which is more
    than half the gap between doubles there. From [2^53] on the double
    is computed. *)
Definition int_truediv (a b : Z) : result Z :=
  if b =? 0 then Raise ZeroDivisionError
  else if Z.abs a <? 2 ^ 53 then Ok (Z.quot a b)
  else
    let '(m, e) := nearest_double (Z.abs a) (Z.abs b) in
    if (0 <=? e) && (2 ^ 1024 <=? m * 2 ^ e) then Raise OverflowError
    else Ok (Z.sgn a * Z.sgn b * int_of_double m e).

(** [a % b] on integers: the sign follows the divisor. *)
Definition py_mod (a b : Z) : result Z :=
  if b =? 0 then Raise ZeroDivisionError else Ok (a mod b).

(** [a / b] on two lengths: the quotient as a rational (Python rounds it
    to the nearest double). *)
Definition len_truediv (a b : nat) : result Q :=
  if (b =? 0)%nat then Raise ZeroDivisionError
  else Ok (Qmake (Z.of_nat a) (Pos.of_nat b)).

(** [s.split(sep)] for a one-character separator: every occurrence
    splits, empty tokens are kept. *)
Fixpoint str_split (sep : ascii) (s : string) : list string :=
  match s with
  | EmptyString => [EmptyString]
  | String c rest =>
      if Ascii.eqb c sep then EmptyString :: str_split sep rest
      else match str_split sep rest with
           | tok :: toks => String c tok :: toks
           | [] => [String c EmptyString]
           end
  end.

(** [s.startswith(p)] *)
Definition startswith (s p : string) : bool := String.prefix p s.


(** A loop whose body may raise: the first exception ends it. *)
Fixpoint foldM {A B} (f : A → B → result A) (a : A) (l : list B) : result A :=
  match l with
  | [] => Ok a
  | b :: rest => a' ← f a b; foldM f a' rest
  end.

Fixpoint mapM {A B} (f : A → result B) (l : list A) : result (list B) :=
  match l with
  | [] => Ok []
  | a :: rest => b ← f a; bs ← mapM f rest; Ok (b :: bs)
  end.

End Py.
Import Py.

(** ** [aireo_lib.core]: the training dataset facade *)

Module Core.

(** [TDSExIdx2AOIIndexMap] *)
Record TDSExIdx2AOIIndexMap : Type := mkIdxMap {
  aoi_idx : Z;
  aoi_ex_idx : Z
}.

Section Facade.
(** What an example is (an [xarray.Dataset] in the source) is left to
    the AOI dataset. *)
Context {Example : Type}.

(** The abstract [AOIDataset]: its two mandatory methods. *)
Record AOIDataset : Type := mkAOIDataset {
  get_length : Z;
  aoi_getitem : Z → result Example
}.

Record EOTrainingDataset : Type := mkTDS {
  aoi_ds_l : list AOIDataset;
  n_exs : Z;
  (* a numpy array of [dtype=object]: [None] until a cell is assigned *)
  tds_ex_idx_2_aoi_ex_idx : list (option TDSExIdx2AOIIndexMap)
}.

(** First loop of [__compute_ds_length]: the first global index given
    to each AOI, and the running total. *)
Fixpoint start_idx_loop (ds : list AOIDataset) (aoi_idx : Z)
    (aoi_2_tds_start_idx : list Z) (n_exs : Z) : result (list Z * Z) :=
  match ds with
  | [] => Ok (aoi_2_tds_start_idx, n_exs)
  | aoi_ds :: rest =>
      v ← to_int64 n_exs;
      starts ← setitem aoi_2_tds_start_idx aoi_idx v;
      start_idx_loop rest (aoi_idx + 1) starts (n_exs + get_length aoi_ds)
  end.

(** Inner loop: one cell per global index of the AOI. *)
Fixpoint fill_aoi (tds_ex_idxs : list Z) (aoi_idx aoi_tds_ex_idx_start : Z)
    (tbl : list (option TDSExIdx2AOIIndexMap))
    : result (list (option TDSExIdx2AOIIndexMap)) :=
  match tds_ex_idxs with
  | [] => Ok tbl
  | tds_ex_idx :: rest =>
      let aoi_ex_idx := tds_ex_idx - aoi_tds_ex_idx_start in
      let ex_idx_map := mkIdxMap aoi_idx aoi_ex_idx in
      tbl' ← setitem tbl tds_ex_idx (Some ex_idx_map);
      fill_aoi rest aoi_idx aoi_tds_ex_idx_start tbl'
  end.

(** Second loop, over [range(len(self.aoi_ds_l))]. *)
Fixpoint fill_loop (aoi_idxs : list Z) (aoi_2_tds_start_idx : list Z)
    (tbl : list (option TDSExIdx2AOIIndexMap))
    : result (list (option TDSExIdx2AOIIndexMap)) :=
  match aoi_idxs with
  | [] => Ok tbl
  | aoi_idx :: rest =>
      aoi_tds_ex_idx_start ← getitem aoi_2_tds_start_idx aoi_idx;
      aoi_tds_ex_idx_end ← getitem aoi_2_tds_start_idx (aoi_idx + 1);
      tbl' ← fill_aoi (np_arange aoi_tds_ex_idx_start aoi_tds_ex_idx_end)
               aoi_idx aoi_tds_ex_idx_start tbl;
      fill_loop rest aoi_2_tds_start_idx tbl'
  end.

(** [np.empty(n, dtype=object)] *)
Definition np_empty_object (n : Z) : result (list (option TDSExIdx2AOIIndexMap)) :=
  if n <? 0 then Raise ValueError else Ok (replicate (Z.to_nat n) None).

(** [__compute_ds_length]: returns the total and the table it stores in
    [self.tds_ex_idx_2_aoi_ex_idx]. *)
Definition compute_ds_length (ds : list AOIDataset)
    : result (Z * list (option TDSExIdx2AOIIndexMap)) :=
  let n_aoi := Z.of_nat (length ds) in
  '(starts, n_exs) ← start_idx_loop ds 0 (replicate (S (length ds)) 0) 0;
  v ← to_int64 n_exs;
  starts ← setitem starts n_aoi v;
  tbl ← np_empty_object n_exs;
  tbl ← fill_loop (seqZ 0 n_aoi) starts tbl;
  Ok (n_exs, tbl).

(** [__init__], from the list of AOI datasets on ([pre_process] does
    nothing in the base class). *)
Definition init (ds : list AOIDataset) : result EOTrainingDataset :=
  '(n, tbl) ← compute_ds_length ds;
  Ok (mkTDS ds n tbl).

(** [__getitem__] *)
Definition tds_getitem (self : EOTrainingDataset) (ex_index : Z) : result Example :=
  cell ← getitem (tds_ex_idx_2_aoi_ex_idx self) ex_index;
  match cell with
  | None => Raise TypeError (* unpacking [None] *)
  | Some m =>
      aoi_ds ← getitem (aoi_ds_l self) (aoi_idx m);
      aoi_getitem aoi_ds (aoi_ex_idx m)
  end.

(** [__len__] *)
Definition tds_len (self : EOTrainingDataset) : Z := n_exs self.

(** [get_example] *)
Definition get_example (self : EOTrainingDataset) (index : Z) : result Example :=
  tds_getitem self index.

(** [get_subset] *)
Fixpoint get_subset (self : EOTrainingDataset) (index_arr : list Z)
    : result (list Example) :=
  match index_arr with
  | [] => Ok []
  | ex_idx :: rest =>
      e ← get_example self ex_idx;
      es ← get_subset self rest;
      Ok (e :: es)
  end.

(** The local counts, and the offset table they induce:
    [offset 0 = 0], [offset (k+1) = offset k + c_k]. *)
Definition counts (ds : list AOIDataset) : list Z := get_length <$> ds.

Fixpoint sum_counts (cs : list Z) : Z :=
  match cs with
  | [] => 0
  | c :: rest => c + sum_counts rest
  end.

Definition offset (ds : list AOIDataset) (k : nat) : Z :=
  sum_counts (take k (counts ds)).

(** No AOI dataset reports a negative length. *)
Definition nonneg_counts (ds : list AOIDataset) : Prop :=
  Forall (λ d, 0 <= get_length d) ds.

End Facade.
Arguments AOIDataset : clear implicits.
Arguments EOTrainingDataset : clear implicits.

End Core.

(** ** The pilot datasets: windows over a raster *)

(** What the pilot AOI datasets hand to [isel]: the pixel window, and for
    a stack of images the timestep. Reading the pixels is xarray's work. *)
Record Window : Type := mkWindow {
  w_timestep : option Z;
  w_x1 : Z;
  w_y1 : Z;
  w_x2 : Z;
  w_y2 : Z
}.

(** [pilot_datasets_implementation/CAP.py]: one image per AOI. *)
Module CAP.

Record AOIDatasetCAP : Type := mkCAP {
  (* [self.data.feature_data.shape]: (band, ., .) as rioxarray opens it *)
  feature_data_shape : list Z;
  (* [self.metadata['window_size']], [self.metadata['stride']] *)
  window_size : Z;
  stride : Z
}.

Definition along_x (self : AOIDatasetCAP) : result Z :=
  extent ← getitem (feature_data_shape self) 1;
  int_truediv (extent - window_size self) (stride self).

Definition along_y (self : AOIDatasetCAP) : result Z :=
  extent ← getitem (feature_data_shape self) (-1);
  int_truediv (extent - window_size self) (stride self).

(** [__getitem__] *)
Definition cap_getitem (self : AOIDatasetCAP) (index : Z) : result Window :=
  ax ← along_x self;
  ay ← along_y self;
  col ← py_mod index ax;
  let x1 := stride self * col in
  row ← int_truediv index ay;
  let y1 := stride self * row in
  let x2 := x1 + window_size self in
  let y2 := y1 + window_size self in
  Ok (mkWindow None x1 y1 x2 y2).

(** [__len__] *)
Definition cap_len (self : AOIDatasetCAP) : result Z :=
  ax ← along_x self;
  ay ← along_y self;
  Ok (ax * ay).

End CAP.

(** [pilot_datasets_implementation/SpaceNet7.py]: a stack of images, one
    per date. The record holds the attributes that [__len__] and
    [__getitem__] read from [self]. *)
Module SpaceNet7.

Record AOIDatasetSpaceNet : Type := mkSpaceNet {
  (* [self.timesteps]: the dates of the stack *)
  timesteps : list string;
  (* the shape of each image [self.feature_data[t]]: (band, ., .) *)
  image_shape : list Z;
  window_size : Z;
  stride : Z
}.

(** [self.feature_data[t].shape]: the stack has one image per date. *)
Definition feature_data_at (self : AOIDatasetSpaceNet) (t : Z) : result (list Z) :=
  _ ← seq_index (length (timesteps self)) t;
  Ok (image_shape self).

Definition x1_ceiling (self : AOIDatasetSpaceNet) (sample_image : list Z) : result Z :=
  extent ← getitem sample_image 1;
  q ← int_truediv (extent - window_size self) (stride self);
  Ok (q + 1).

Definition y1_ceiling (self : AOIDatasetSpaceNet) (sample_image : list Z) : result Z :=
  extent ← getitem sample_image 2;
  q ← int_truediv (extent - window_size self) (stride self);
  Ok (q + 1).

(** [__len__] *)
Definition spacenet_len (self : AOIDatasetSpaceNet) : result Z :=
  sample_image ← feature_data_at self 0;
  xc ← x1_ceiling self sample_image;
  yc ← y1_ceiling self sample_image;
  let single_image_examples := xc * yc in
  Ok (Z.of_nat (length (timesteps self)) * single_image_examples).

(** The builtin [len(self)]: refuses a negative [__len__], then one that
    does not fit an index. *)
Definition builtin_len (self : AOIDatasetSpaceNet) : result Z :=
  n ← spacenet_len self;
  if n <? 0 then Raise ValueError
  else if 2 ^ 63 <=? n then Raise OverflowError
  else Ok n.

(** [__getitem__] *)
Definition spacenet_getitem (self : AOIDatasetSpaceNet) (index : Z) : result Window :=
  n ← builtin_len self;
  if index >=? n then Raise (SystemExit "index out of range") else
  sample_image ← feature_data_at self 0;
  xc ← x1_ceiling self sample_image;
  yc ← y1_ceiling self sample_image;
  let single_image_examples := xc * yc in
  timestep ← int_truediv index single_image_examples;
  _ ← feature_data_at self timestep;
  let image_index := index - timestep * single_image_examples in
  col ← py_mod image_index xc;
  let x1 := stride self * col in
  row ← int_truediv image_index xc;
  let y1 := stride self * row in
  let x2 := x1 + window_size self in
  let y2 := y1 + window_size self in
  _ ← getitem (timesteps self) timestep;
  Ok (mkWindow (Some timestep) x1 y1 x2 y2).

End SpaceNet7.

(** ** [pathlib] paths and the file system *)

Module Pathlib.

(** A [pathlib.Path] (POSIX flavour): whether it starts at the root, and
    its components. The constructor drops empty and ["."] components. *)
Record Path : Type := mkPath {
  is_absolute : bool;
  parts : list string
}.

Definition Path_of (s : string) : Path :=
  mkPath (startswith s "/")
         (filter (λ c, c ≠ EmptyString ∧ c ≠ "."%string) (str_split "/" s)).

(** [a / b] *)
Definition joinpath (a b : Path) : Path :=
  if is_absolute b then b else mkPath (is_absolute a) (parts a ++ parts b).

(** [p.parent], [p.name] *)
Definition parent (p : Path) : Path := mkPath (is_absolute p) (removelast (parts p)).
Definition name (p : Path) : string := List.last (parts p) EmptyString.

(** [str(p)] *)
Definition path_str (p : Path) : string :=
  match is_absolute p, parts p with
  | true, ps => String "/" (String.concat "/" ps)
  | false, [] => "."
  | false, ps => String.concat "/" ps
  end.

(** What a path names on disk. *)
Inductive node (Doc : Type) : Type :=
| Dir
| JsonFile (d : Doc)
| RawFile (content : string).
Arguments Dir {Doc}.
Arguments JsonFile {Doc} d.
Arguments RawFile {Doc} content.

Section FileSystem.
Context {Doc : Type}.
(** The working directory of the process, as components from the
    root. The file system maps the components of an absolute path to
    what is there; [".."] and links are not resolved. *)
Variable cwd : list string.
Local Abbreviation FS := (gmap (list string) (node Doc)).

(** [p.absolute()] *)
Definition absolute (p : Path) : Path :=
  if is_absolute p then p else mkPath true (cwd ++ parts p).

Definition fs_key (p : Path) : list string := parts (absolute p).

(** [json.load(open(p))] *)
Definition open_json (fs : FS) (p : Path) : result Doc :=
  match fs !! fs_key p with
  | Some (JsonFile d) => Ok d
  | Some (RawFile _) => Raise ValueError (* [json.JSONDecodeError] *)
  | Some Dir => Raise (IsADirectoryError (path_str p))
  | None => Raise (FileNotFoundError (path_str p))
  end.

(** [p.is_file()] *)
Definition is_file (fs : FS) (p : Path) : bool :=
  match fs !! fs_key p with
  | Some (JsonFile _) | Some (RawFile _) => true
  | _ => false
  end.

(** [p.exists()] *)
Definition exists_ (fs : FS) (p : Path) : bool :=
  match fs !! fs_key p with Some _ => true | None => false end.

(** The proper ancestors of a directory, outermost first. *)
Definition ancestors (key : list string) : list (list string) :=
  (λ n, take n key) <$> seq 0 (length key).

Definition is_regular (fs : FS) (key : list string) : bool :=
  match fs !! key with
  | Some (JsonFile _) | Some (RawFile _) => true
  | _ => false
  end.

Definition make_dir (fs : FS) (key : list string) : FS :=
  match fs !! key with
  | None => <[key := Dir]> fs
  | Some _ => fs
  end.

(** [p.mkdir(parents=True)], without [exist_ok]: refuses a path that
    exists, creates missing ancestors, and cannot pass through a
    regular file. The file system comes back unchanged on failure. *)
Definition mkdir_parents (fs : FS) (p : Path) : FS * result unit :=
  let key := fs_key p in
  match fs !! key with
  | Some _ => (fs, Raise (FileExistsError (path_str p)))
  | None =>
      if existsb (is_regular fs) (ancestors key)
      then (fs, Raise (NotADirectoryError (path_str p)))
      else (<[key := Dir]> (foldl make_dir fs (ancestors key)), Ok tt)
  end.

End FileSystem.

End Pathlib.
Import Pathlib.

(** ** [aireo_lib.tds_stac_io]: the dataset catalog *)

Module TdsStacIo.

(** *** Documents *)

(** One entry of a document's ["links"] list. *)
Record Link : Type := mkLink {
  rel : string;
  href : string
}.

(** One entry of a profile's ["assets"] map. *)
Record AssetInfo : Type := mkAsset {
  asset_href : string
}.

Record FieldSchema : Type := mkFieldSchema {
  fs_features : gmap string (list string);
  fs_references : gmap string (list string)
}.

(** The values the modelled code looks at in a parsed JSON object;
    everything else is [VOther]. *)
Inductive value : Type :=
| VLinks (l : list Link)
| VFieldSchema (s : FieldSchema)
| VAssets (m : gmap string AssetInfo)
| VStr (s : string)
| VOther.

(** A parsed JSON object: a [dict] from keys to values. *)
Abbreviation doc := (gmap string value).
Abbreviation FS := (gmap (list string) (node doc)).

(** [MetadataRequirementInfo] *)
Record MetadataRequirementInfo : Type := mkReq {
  required_metadata_set : gset string;
  recommended_metadata_set : gset string;
  optional_metadata_set : gset string
}.

(** [FieldProfileInfo] *)
Record FieldProfileInfo : Type := mkFieldProfileInfo {
  fn_path : Path;
  metadata_d : doc;
  data_asset_w_path : option Path;
  data_asset_info_d : option AssetInfo
}.

(** [AllFieldMetadata] *)
Record AllFieldMetadata : Type := mkAllFieldMetadata {
  features : gmap string FieldProfileInfo;
  references : gmap string FieldProfileInfo
}.

(** [TDSRootCtlInfo] *)
Record TDSRootCtlInfo : Type := mkRootInfo {
  root_fn_path : Path;
  tds_root_metadata_d : doc;
  g_all_field_metadata : option AllFieldMetadata
}.

(** [AOICollectionInfo] *)
Record AOICollectionInfo : Type := mkAOIInfo {
  aoi_fn_path : Path;
  aoi_collection_metadata_d : doc;
  aoi_all_field_metadata : option AllFieldMetadata
}.

(** The attributes of a [DatasetSTACCatalog] object; [tds_ctl_root_info]
    and [field_schema] do not exist until they are first assigned. *)
Record DatasetSTACCatalog : Type := mkCatalog {
  valid_tds_root : bool;
  valid_tds : bool;
  valid_field_schema : bool;
  aoi_collection_info_l : list AOICollectionInfo;
  tds_ctl_root_info : option TDSRootCtlInfo;
  field_schema : option FieldSchema
}.

(** [DatasetSTACCatalog()] *)
Definition new_catalog : DatasetSTACCatalog :=
  mkCatalog false false false [] None None.

(** *** The requirement table, built when the module is imported *)

Definition tier_set (ext_metadata_req_d : gmap string string) (tier : string)
    : gset string :=
  dom (filter (λ kv, kv.2 = tier) ext_metadata_req_d).

(** [ext_to_metadata_req_info_d], from the parsed
    [data/metadata_requirement.yaml]. *)
Definition build_ext_to_metadata_req_info_d
    (all_metadata_requirement_d : gmap string (gmap string string))
    : gmap string MetadataRequirementInfo :=
  (λ ext_metadata_req_d,
     mkReq (tier_set ext_metadata_req_d "required")
           (tier_set ext_metadata_req_d "recommended")
           (tier_set ext_metadata_req_d "optional"))
  <$> all_metadata_requirement_d.

(** *** Reading a document *)

(** [d.get('links')], then iterated: anything but a list of links makes
    the loop raise. *)
Definition get_links (d : doc) : result (list Link) :=
  match d !! "links"%string with
  | Some (VLinks l) => Ok l
  | _ => Raise TypeError
  end.

(** [d['field_schema']] unpacked into a [FieldSchema]. *)
Definition get_field_schema (d : doc) : result FieldSchema :=
  match d !! "field_schema"%string with
  | Some (VFieldSchema s) => Ok s
  | Some _ => Raise TypeError
  | None => Raise (KeyError "field_schema")
  end.

(** [d['assets']], which has to be a JSON object. *)
Definition get_assets (d : doc) : result (gmap string AssetInfo) :=
  match d !! "assets"%string with
  | Some (VAssets m) => Ok m
  | Some _ => Raise TypeError
  | None => Raise (KeyError "assets")
  end.

(** [_, field_type, field_name = rel.split('/')] *)
Definition unpack_rel (rel : string) : result (string * string) :=
  match str_split "/" rel with
  | [_; field_type; field_name] => Ok (field_type, field_name)
  | _ => Raise ValueError
  end.

(** A field name that reads back as itself between the double quotes of
    the generated statement: no double quote, backslash, line break or
    NUL in it. *)
Definition plain_char (c : ascii) : bool :=
  negb (existsb (Nat.eqb (nat_of_ascii c)) [34; 92; 10; 13; 0]%nat).

Fixpoint plain_name (s : string) : bool :=
  match s with
  | EmptyString => true
  | String c rest => plain_char c && plain_name rest
  end.

(** [getattr(all_field_metadata, field_type).get(field_name)] for the two
    field types. *)
Definition lookup_field (all_field_metadata : AllFieldMetadata)
    (field_type field_name : string) : option FieldProfileInfo :=
  if String.eqb field_type "features" then features all_field_metadata !! field_name
  else if String.eqb field_type "references" then references all_field_metadata !! field_name
  else None.

(** The name that a metadata link carries is plain; a link that the
    loaders skip, or whose relation does not unpack, carries none. *)
Definition plain_link (link : Link) : bool :=
  if startswith (rel link) "metadata" then
    match unpack_rel (rel link) with
    | Ok (_, field_name) => plain_name field_name
    | Raise _ => true
    end
  else true.

(** One of the two fields of [AllFieldMetadata]. *)
Definition is_field (field_type : string) : Prop :=
  field_type = "features"%string ∨ field_type = "references"%string.


(** *** The running process *)

(** What the code takes from its surroundings: the working directory;
    which names are attributes of the class [FieldSchema] (its two
    fields, and whatever else a [NamedTuple] class of the running Python
    carries); and how the interpreter runs the statement that the
    loaders hand to [exec] where that is not an assignment into one of
    the two maps.

    [setitem_on_attribute t] is the item assignment
    [all_field_metadata.<t>[name] = field_profile_info] for an attribute
    [t] other than the two fields: it returns when the attribute is a
    dictionary of the class, like [_field_defaults], the entry going
    there and not into the maps; it raises [TypeError] on a method, a
    tuple or a string, and [AttributeError] on an attribute of the class
    that its instances lack.

    [exec_statement stmt] is the run of a statement whose name part is
    not plain: a double quote ends the literal early and the rest of the
    name is code, a backslash starts an escape, a line break or a NUL
    leaves no statement at all. What it raises, or what it leaves in
    the maps, is the interpreter's. *)
Class Runtime : Type := mkRuntime {
  cwd : list string;
  hasattr_FieldSchema : string → bool;
  hasattr_features : hasattr_FieldSchema "features" = true;
  hasattr_references : hasattr_FieldSchema "references" = true;
  setitem_on_attribute : string → result unit;
  exec_statement :
    string → AllFieldMetadata → FieldProfileInfo → result AllFieldMetadata
}.

Section Loader.
Context `{Runtime}.

(** [set_field_metadata_command], the text handed to [exec]. *)
Definition set_field_metadata_command (field_type field_name : string) : string :=
  "all_field_metadata." +:+ field_type +:+ "["
  +:+ String "034" (field_name +:+ String "034" "] = field_profile_info").

(** [exec(set_field_metadata_command)]. Between the double quotes a
    plain name is a literal that reads back as the name, and the
    statement is the item assignment
    [all_field_metadata.<field_type>[<field_name>] = field_profile_info]:
    into the map of the type for the two fields, and for another
    attribute, which [hasattr] has let through, into whatever that
    attribute holds. A name that is not plain makes the text another
    statement. *)
Definition exec_set_field_metadata (all_field_metadata : AllFieldMetadata)
    (field_type field_name : string) (field_profile_info : FieldProfileInfo)
    : result AllFieldMetadata :=
  if plain_name field_name then
    if String.eqb field_type "features" then
      Ok (mkAllFieldMetadata
            (<[field_name := field_profile_info]> (features all_field_metadata))
            (references all_field_metadata))
    else if String.eqb field_type "references" then
      Ok (mkAllFieldMetadata
            (features all_field_metadata)
            (<[field_name := field_profile_info]> (references all_field_metadata)))
    else
      _ ← setitem_on_attribute field_type;
      Ok all_field_metadata
  else
    exec_statement (set_field_metadata_command field_type field_name)
      all_field_metadata field_profile_info.


(** [__parse_root_tds_ctl_info] *)
Definition parse_root_tds_ctl_info (fs : FS) (tds_ctl_path : string)
    : result TDSRootCtlInfo :=
  tds_ctl_d ← open_json cwd fs (Path_of tds_ctl_path);
  let tds_ctl_full_path := absolute cwd (Path_of tds_ctl_path) in
  Ok (mkRootInfo tds_ctl_full_path tds_ctl_d None).

(** [Path(href)], made absolute against [folder] when it is relative. *)
Definition resolve_href (folder : Path) (href : string) : Path :=
  let p := Path_of href in
  if is_absolute p then p else joinpath folder p.

(** The body of the loop of [__parse_g_profile_info]. *)
Definition g_profile_step (fs : FS) (root_ctl_abs_folder : Path)
    (all_field_metadata : AllFieldMetadata) (link : Link)
    : result AllFieldMetadata :=
  if startswith (rel link) "metadata" then
    '(field_type, field_name) ← unpack_rel (rel link);
    let profile_path := resolve_href root_ctl_abs_folder (href link) in
    profile_metadata_d ← open_json cwd fs profile_path;
    if negb (hasattr_FieldSchema field_type) then
      Raise (Exception_ ("The type of field could only be 'features' or 'references',"
                         +:+ field_type +:+ " is not a valid one"))
    else
      let field_profile_info :=
        mkFieldProfileInfo profile_path profile_metadata_d None None in
      exec_set_field_metadata all_field_metadata field_type field_name
        field_profile_info
  else Ok all_field_metadata.

(** [__parse_g_profile_info] *)
Definition parse_g_profile_info (fs : FS) (tds_root_ctl_info : TDSRootCtlInfo)
    : result AllFieldMetadata :=
  let root_ctl_abs_folder := parent (absolute cwd (root_fn_path tds_root_ctl_info)) in
  _ ← get_field_schema (tds_root_metadata_d tds_root_ctl_info);
  links ← get_links (tds_root_metadata_d tds_root_ctl_info);
  foldM (g_profile_step fs root_ctl_abs_folder) (mkAllFieldMetadata ∅ ∅) links.

(** The asset part of the loop of [__parse_aoi_profile_info]: exactly
    one asset, and a relative asset path has to name a file. *)
Definition parse_asset (fs : FS) (aoi_collection_abs_folder profile_path : Path)
    (profile_metadata_d : doc) : result (Path * AssetInfo) :=
  assets ← get_assets profile_metadata_d;
  if negb (size assets =? 1)%nat then
    Raise (Exception_ ("Has different than 1 asset for file: " +:+ path_str profile_path))
  else
    match map_to_list assets with
    | [] => Raise IndexError
    | (data_asset_name, data_asset_info_d) :: _ =>
        let data_asset_path := Path_of (asset_href data_asset_info_d) in
        if is_absolute data_asset_path then Ok (data_asset_path, data_asset_info_d)
        else
          let data_asset_path := joinpath aoi_collection_abs_folder data_asset_path in
          if is_file cwd fs data_asset_path then Ok (data_asset_path, data_asset_info_d)
          else Raise (Exception_ (path_str data_asset_path +:+ " doesnt point to an asset file"))
    end.

(** The body of the loop of [__parse_aoi_profile_info]. *)
Definition aoi_profile_step (fs : FS) (aoi_collection_abs_folder : Path)
    (all_field_metadata : AllFieldMetadata) (link : Link)
    : result AllFieldMetadata :=
  if startswith (rel link) "metadata" then
    '(field_type, field_name) ← unpack_rel (rel link);
    let profile_path := resolve_href aoi_collection_abs_folder (href link) in
    profile_metadata_d ← open_json cwd fs profile_path;
    if negb (hasattr_FieldSchema field_type) then
      Raise (Exception_ ("The type of field could only be 'features' or 'references',"
                         +:+ field_type +:+ " is not a valid one"))
    else
      '(data_asset_path, data_asset_info_d) ←
        parse_asset fs aoi_collection_abs_folder profile_path profile_metadata_d;
      let field_profile_info :=
        mkFieldProfileInfo profile_path profile_metadata_d
          (Some data_asset_path) (Some data_asset_info_d) in
      exec_set_field_metadata all_field_metadata field_type field_name
        field_profile_info
  else Ok all_field_metadata.

(** [__parse_aoi_profile_info] *)
Definition parse_aoi_profile_info (fs : FS) (aoi_collection_info : AOICollectionInfo)
    (tds_root_ctl_info : TDSRootCtlInfo) : result AllFieldMetadata :=
  let aoi_collection_abs_folder :=
    parent (absolute cwd (aoi_fn_path aoi_collection_info)) in
  _ ← get_field_schema (tds_root_metadata_d tds_root_ctl_info);
  links ← get_links (aoi_collection_metadata_d aoi_collection_info);
  foldM (aoi_profile_step fs aoi_collection_abs_folder) (mkAllFieldMetadata ∅ ∅) links.

(** The body of the loop of [__parse_aoi_subcollection_info]. *)
Definition aoi_subcollection_step (fs : FS) (root_ctl_abs_folder : Path)
    (aoi_collection_info_l : list AOICollectionInfo) (link : Link)
    : result (list AOICollectionInfo) :=
  if String.eqb (rel link) "child" then
    let aoi_f_path := Path_of (href link) in
    aoi_f_path ←
      (if is_absolute aoi_f_path then Ok aoi_f_path
       else
         let aoi_f_path := joinpath root_ctl_abs_folder aoi_f_path in
         if is_file cwd fs aoi_f_path then Ok aoi_f_path
         else Raise (Exception_ (path_str aoi_f_path +:+ " is not an aoi json file")));
    aoi_collection_metadata_d ← open_json cwd fs aoi_f_path;
    Ok (aoi_collection_info_l ++ [mkAOIInfo aoi_f_path aoi_collection_metadata_d None])
  else Ok aoi_collection_info_l.

(** [__parse_aoi_subcollection_info] *)
Definition parse_aoi_subcollection_info (fs : FS) (tds_root_ctl_info : TDSRootCtlInfo)
    : result (list AOICollectionInfo) :=
  let root_ctl_abs_folder := parent (absolute cwd (root_fn_path tds_root_ctl_info)) in
  links ← get_links (tds_root_metadata_d tds_root_ctl_info);
  foldM (aoi_subcollection_step fs root_ctl_abs_folder) [] links.

(** [add_field_schema], on the value of [d.get('field_schema')]. *)
Definition add_field_schema (self : DatasetSTACCatalog) (field_schema_d : option value)
    : result DatasetSTACCatalog :=
  match field_schema_d with
  | Some (VFieldSchema s) =>
      Ok (mkCatalog (valid_tds_root self) (valid_tds self) true
            (aoi_collection_info_l self) (tds_ctl_root_info self) (Some s))
  | _ => Raise TypeError
  end.

(** [from_TDSCatalog] *)
Definition from_TDSCatalog (fs : FS) (tds_catalog_path : string)
    : result DatasetSTACCatalog :=
  root_info ← parse_root_tds_ctl_info fs tds_catalog_path;
  let tds_ctl_o := new_catalog in
  g ← parse_g_profile_info fs root_info;
  let root_info :=
    mkRootInfo (root_fn_path root_info) (tds_root_metadata_d root_info) (Some g) in
  let tds_ctl_o :=
    mkCatalog true (valid_tds tds_ctl_o) (valid_field_schema tds_ctl_o)
      (aoi_collection_info_l tds_ctl_o) (Some root_info)
      (field_schema tds_ctl_o) in
  let field_schema_d := tds_root_metadata_d root_info !! "field_schema"%string in
  tds_ctl_o ← add_field_schema tds_ctl_o field_schema_d;
  aois ← parse_aoi_subcollection_info fs root_info;
  aois ← mapM (λ aoi_collection_info,
                 m ← parse_aoi_profile_info fs aoi_collection_info root_info;
                 Ok (mkAOIInfo (aoi_fn_path aoi_collection_info)
                       (aoi_collection_metadata_d aoi_collection_info) (Some m)))
              aois;
  Ok (mkCatalog (valid_tds_root tds_ctl_o) true (valid_field_schema tds_ctl_o)
        aois (tds_ctl_root_info tds_ctl_o) (field_schema tds_ctl_o)).

(** What the global loader stores for a metadata link. *)
Definition g_gives (fs : FS) (folder : Path) (link : Link) (info : FieldProfileInfo) : Prop :=
  let p := resolve_href folder (href link) in
  ∃ d, open_json cwd fs p = Ok d ∧ info = mkFieldProfileInfo p d None None.

(** What the AOI loader stores for a metadata link. *)
Definition aoi_gives (fs : FS) (folder : Path) (link : Link) (info : FieldProfileInfo) : Prop :=
  let p := resolve_href folder (href link) in
  ∃ d asset_path asset_info,
    open_json cwd fs p = Ok d ∧
    parse_asset fs folder p d = Ok (asset_path, asset_info) ∧
    info = mkFieldProfileInfo p d (Some asset_path) (Some asset_info).

End Loader.

(** *** Compliance and completeness *)

(** [self.tds_ctl_root_info], an attribute that exists once assigned. *)
Definition get_tds_ctl_root_info (self : DatasetSTACCatalog) : result TDSRootCtlInfo :=
  match tds_ctl_root_info self with
  | Some r => Ok r
  | None => Raise (AttributeError "tds_ctl_root_info")
  end.

(** [ext_to_metadata_req_info_d['aireo_tds_core']] *)
Definition get_tds_core_req (ext_to_metadata_req_info_d : gmap string MetadataRequirementInfo)
    : result MetadataRequirementInfo :=
  match ext_to_metadata_req_info_d !! "aireo_tds_core"%string with
  | Some r => Ok r
  | None => Raise (KeyError "aireo_tds_core")
  end.

(** [compute_compliance_level] *)
Definition compute_compliance_level
    (ext_to_metadata_req_info_d : gmap string MetadataRequirementInfo)
    (self : DatasetSTACCatalog) : result Z :=
  _ ← py_assert (valid_tds self);
  root_info ← get_tds_ctl_root_info self;
  let root_metadata_d := tds_root_metadata_d root_info in
  let available_root_metadata : gset string := dom root_metadata_d in
  tds_core_metadata_req_info ← get_tds_core_req ext_to_metadata_req_info_d;
  let common_root_required_metadata :=
    available_root_metadata ∩ required_metadata_set tds_core_metadata_req_info in
  let common_root_recommended_metadata :=
    available_root_metadata ∩ recommended_metadata_set tds_core_metadata_req_info in
  let common_root_optional_metadata :=
    available_root_metadata ∩ optional_metadata_set tds_core_metadata_req_info in
  let tds_core_compliance_level := 1 in
  let tds_core_compliance_level :=
    if (size common_root_recommended_metadata
        =? size (recommended_metadata_set tds_core_metadata_req_info))%nat
    then 2 else tds_core_compliance_level in
  let tds_core_compliance_level :=
    if (tds_core_compliance_level =? 2)
       && (size common_root_optional_metadata
           =? size (optional_metadata_set tds_core_metadata_req_info))%nat
    then 3 else tds_core_compliance_level in
  Ok tds_core_compliance_level.

(** The entry ['tds_core_metadata'] of the completeness report. *)
Record MetadataCompleteness : Type := mkCompleteness {
  pct_required_metadata : Q;
  pct_recommended_metadata : Q;
  pct_optional_metadata : Q
}.

(** [report_metadata_completeness] *)
Definition report_metadata_completeness
    (ext_to_metadata_req_info_d : gmap string MetadataRequirementInfo)
    (self : DatasetSTACCatalog) : result MetadataCompleteness :=
  _ ← py_assert (valid_tds self);
  root_info ← get_tds_ctl_root_info self;
  let root_metadata_d := tds_root_metadata_d root_info in
  let available_root_metadata : gset string := dom root_metadata_d in
  tds_core_metadata_req_info ← get_tds_core_req ext_to_metadata_req_info_d;
  let common_root_required_metadata :=
    available_root_metadata ∩ required_metadata_set tds_core_metadata_req_info in
  let common_root_recommended_metadata :=
    available_root_metadata ∩ recommended_metadata_set tds_core_metadata_req_info in
  let common_root_optional_metadata :=
    available_root_metadata ∩ optional_metadata_set tds_core_metadata_req_info in
  pct_root_required_metadata ←
    len_truediv (size common_root_required_metadata)
      (size (required_metadata_set tds_core_metadata_req_info));
  pct_root_recommended_metadata ←
    len_truediv (size common_root_recommended_metadata)
      (size (recommended_metadata_set tds_core_metadata_req_info));
  pct_root_optional_metadata ←
    len_truediv (size common_root_optional_metadata)
      (size (optional_metadata_set tds_core_metadata_req_info));
  Ok (mkCompleteness pct_root_required_metadata pct_root_recommended_metadata
        pct_root_optional_metadata).

(** *** Writing the catalog *)

Section Writer.
Context `{Runtime}.

(** Everything [write_TDS_STAC_Catalog] does once the root directory is
    made: the datasheet, the profile documents, one directory per AOI
    with its documents and copied assets, the root document. It gets
    the catalog, the file system, the root directory and the name of
    the root document. *)
Variable write_documents :
  DatasetSTACCatalog → FS → Path → string → FS * result unit.

(** [write_TDS_STAC_Catalog], returning the file system it leaves. *)
Definition write_TDS_STAC_Catalog (self : DatasetSTACCatalog) (fs : FS)
    (catalog_fn_w_path : string) : FS * result unit :=
  match py_assert (valid_tds self) with
  | Raise e => (fs, Raise e)
  | Ok _ =>
      let catalog_fn_w_path := Path_of catalog_fn_w_path in
      let tds_catalog_root_folder := parent catalog_fn_w_path in
      let tds_catalog_root_fn := name catalog_fn_w_path in
      (* make root directory, needs to be a new directory *)
      match mkdir_parents cwd fs tds_catalog_root_folder with
      | (fs, Raise e) => (fs, Raise e)
      | (fs, Ok _) =>
          write_documents self fs tds_catalog_root_folder tds_catalog_root_fn
      end
  end.

End Writer.

End TdsStacIo.

(** ** The tile layout as the specification words it *)

Module Spec.

(** The window of local index [i], for window size [S], stride [St],
    [axisWindowsX] windows along the first axis and [perTimestepCount]
    windows per image:
    [timestep = floor(i / perTimestepCount)],
    [residual = i - timestep * perTimestepCount],
    [row = floor(residual / axisWindowsX)],
    [col = residual mod axisWindowsX],
    [x1 = St * col], [y1 = St * row], [x2 = x1 + S], [y2 = y1 + S]. *)
Definition window_of_index (S St axisWindowsX perTimestepCount i : Z) : Window :=
  let timestep := i / perTimestepCount in
  let residual := i - timestep * perTimestepCount in
  let row := residual / axisWindowsX in
  let col := residual mod axisWindowsX in
  let x1 := St * col in
  let y1 := St * row in
  mkWindow (Some timestep) x1 y1 (x1 + S) (y1 + S).

(** The pixel box of a window, without its timestep. *)
Definition box (w : Window) : Z * Z * Z * Z := (w_x1 w, w_y1 w, w_x2 w, w_y2 w).

End Spec.

(** ** Sample data *)

Module Sample.

(** Two AOIs, of three and of five examples; example [j] of AOI [k] is
    the number [100 k + j]. *)
Definition two_aois : list (Core.AOIDataset Z) :=
  [Core.mkAOIDataset 3 (λ j, Ok j); Core.mkAOIDataset 5 (λ j, Ok (100 + j))].

(** A CAP image of 356 by 356 pixels, tiled by windows of 256 at stride 26. *)
Definition cap_square (bands : Z) : CAP.AOIDatasetCAP :=
  CAP.mkCAP [bands; 356; 356] 256 26.

(** A CAP image that is not square: two windows along one axis, three
    along the other. *)
Definition cap_oblong : CAP.AOIDatasetCAP :=
  CAP.mkCAP [4; 308; 334] 256 26.

(** A SpaceNet stack of 356 by 356 images, one per date. *)
Definition spacenet_square (dates : list string) (bands : Z)
    : SpaceNet7.AOIDatasetSpaceNet :=
  SpaceNet7.mkSpaceNet dates [bands; 356; 356] 256 26.

(** The requirement table of the specification's example: [a], [b]
    required, [c] recommended, [d] optional. *)
Definition abcd_requirement_d : gmap string (gmap string string) :=
  {[ "aireo_tds_core" :=
       {[ "a" := "required"; "b" := "required";
          "c" := "recommended"; "d" := "optional" ]} ]}%string.

Definition abcd_req_info_d : gmap string TdsStacIo.MetadataRequirementInfo :=
  TdsStacIo.build_ext_to_metadata_req_info_d abcd_requirement_d.

(** A validated catalog whose root document has the keys in [keys]. *)
Definition catalog_with_keys (keys : list string) : TdsStacIo.DatasetSTACCatalog :=
  let root_metadata_d : gmap string TdsStacIo.value :=
    list_to_map ((λ k, (k, TdsStacIo.VOther)) <$> keys) in
  TdsStacIo.mkCatalog true true true []
    (Some (TdsStacIo.mkRootInfo (mkPath true ["tds"; "catalog.json"]%string)
             root_metadata_d None))
    None.

(** A requirement table with nothing recommended. *)
Definition no_recommended_req_info_d : gmap string TdsStacIo.MetadataRequirementInfo :=
  TdsStacIo.build_ext_to_metadata_req_info_d
    {[ "aireo_tds_core" := {[ "a" := "required"; "d" := "optional" ]} ]}%string.

(** A process in [/home/user], on a Python whose [NamedTuple] classes
    carry, besides their fields, the methods [count] and [index] and the
    dictionary [_field_defaults]; it is taken to refuse as a syntax error
    every statement that is not a plain item assignment, as Python does
    one with a line break in the name. *)
Definition sample_runtime : TdsStacIo.Runtime :=
  TdsStacIo.mkRuntime ["home"; "user"]%string
    (λ s, bool_decide
            (s ∈ ["features"; "references"; "count"; "index"; "_field_defaults"]%string))
    eq_refl eq_refl
    (λ t, if bool_decide (t = "_field_defaults"%string) then Ok tt else Raise TypeError)
    (λ _ _ _, Raise SyntaxError).

Definition profile_doc (title : string) : gmap string TdsStacIo.value :=
  {[ "title"%string := TdsStacIo.VStr title ]}.

(** A profile with the given assets, as pairs of a name and an href. *)
Definition aoi_profile_doc (title : string) (assets : list (string * string))
    : gmap string TdsStacIo.value :=
  {[ "title"%string := TdsStacIo.VStr title;
     "assets"%string :=
       TdsStacIo.VAssets (list_to_map ((λ a, (a.1, TdsStacIo.mkAsset a.2)) <$> assets)) ]}.

Definition linked_doc (links : list TdsStacIo.Link) : gmap string TdsStacIo.value :=
  {[ "field_schema"%string :=
       TdsStacIo.VFieldSchema
         (TdsStacIo.mkFieldSchema {[ "input1"%string := ["georeferenced_eo_image"%string] ]} ∅);
     "links"%string := TdsStacIo.VLinks links ]}.

(** A catalog tree under [/tds]: the root document with [root_links], two
    global profiles [a.json] and [b.json], one AOI [aoi0] whose document
    has [aoi_links], and in its directory a profile [p.json] with
    [assets] and an image. *)
Definition sample_fs (root_links aoi_links : list TdsStacIo.Link)
    (assets : list (string * string)) : gmap (list string) (node (gmap string TdsStacIo.value)) :=
  list_to_map
    [ ([], Dir);
      (["tds"], Dir);
      (["tds"; "catalog.json"], JsonFile (linked_doc root_links));
      (["tds"; "a.json"], JsonFile (profile_doc "A"));
      (["tds"; "b.json"], JsonFile (profile_doc "B"));
      (["tds"; "aoi0"], Dir);
      (["tds"; "aoi0"; "aoi0.json"], JsonFile (linked_doc aoi_links));
      (["tds"; "aoi0"; "p.json"], JsonFile (aoi_profile_doc "P" assets));
      (["tds"; "aoi0"; "img.tif"], RawFile "pixels") ]%string.

Definition child_link : TdsStacIo.Link :=
  TdsStacIo.mkLink "child" "./aoi0/aoi0.json".
Definition feature_link (href : string) : TdsStacIo.Link :=
  TdsStacIo.mkLink "metadata/features/input1" href.
Definition short_link : TdsStacIo.Link :=
  TdsStacIo.mkLink "metadata/input1" "./a.json".

Definition one_asset : list (string * string) := [("data", "./img.tif")]%string.

(** The tree with one global profile and one AOI profile with its asset. *)
Definition good_fs : gmap (list string) (node (gmap string TdsStacIo.value)) :=
  sample_fs [child_link; feature_link "./a.json"] [feature_link "./p.json"] one_asset.


(** The AOI of the tree, as the subcollection loader records it. *)
Definition aoi0_info : TdsStacIo.AOICollectionInfo :=
  TdsStacIo.mkAOIInfo (Path_of "/tds/aoi0/aoi0.json")
    (linked_doc [feature_link "./p.json"]) None.

(** A root document with the given links, as the root loader records it. *)
Definition root_info_with (links : list TdsStacIo.Link) : TdsStacIo.TDSRootCtlInfo :=
  TdsStacIo.mkRootInfo (Path_of "/tds/catalog.json") (linked_doc links) None.

(** Two links for the same feature, and the later one alone. *)
Definition colliding_links : list TdsStacIo.Link :=
  [feature_link "./a.json"; feature_link "./b.json"].
Definition later_link_alone : list TdsStacIo.Link := [feature_link "./b.json"].

(** A writer body that writes nothing. *)
Definition write_nothing (self : TdsStacIo.DatasetSTACCatalog)
    (fs : gmap (list string) (node (gmap string TdsStacIo.value)))
    (folder : Path) (fn : string)
    : gmap (list string) (node (gmap string TdsStacIo.value)) * result unit :=
  (fs, Ok tt).

End Sample.
Import Sample.

(** ** The facades of the pilot datasets *)

(** [pilot_datasets_implementation] has an [EOTrainingDataset] of its own
    beside each AOI class; both keep their AOI objects in
    [self.aoi_objs] and locate an example by comparing the index with
    running totals of [len(obj)]. *)
Module Pilot.

Section Objects.
Context {Example : Type}.

(** An AOI object as the facades use it: its [__len__] and its
    [__getitem__]. *)
Record AOIObject : Type := mkAOIObject {
  obj_len : result Z;
  obj_getitem : Z → result Example
}.

(** The builtin [len(o)] over the value of [o.__len__()]: a negative
    value is refused, then one that does not fit an index. *)
Definition py_len (dunder_len : result Z) : result Z :=
  n ← dunder_len;
  if n <? 0 then Raise ValueError
  else if 2 ^ 63 <=? n then Raise OverflowError
  else Ok n.

(** [EOTrainingDataset.__len__], the same in both files. *)
Definition facade_len (aoi_objs : list AOIObject) : result Z :=
  foldM (λ ctr obj, n ← py_len (obj_len obj); Ok (ctr + n)) 0 aoi_objs.

(** *** [SpaceNet7.py] *)

(** The [while] loop of [__getitem__], for at most [fuel] rounds: [None]
    when they are used up, otherwise what the method does, [Ok None]
    being the end of the body without a [return]. *)
Fixpoint scan (fuel : nat) (aoi_objs : list AOIObject) (index counter AOI_index : Z)
    : option (result (option Example)) :=
  match fuel with
  | O => None
  | S fuel =>
      match py_len (facade_len aoi_objs) with
      | Raise e => Some (Raise e)
      | Ok n =>
          if counter <? n then
            match getitem aoi_objs AOI_index with
            | Raise e => Some (Raise e)
            | Ok aoi =>
                match py_len (obj_len aoi) with
                | Raise e => Some (Raise e)
                | Ok len_aoi =>
                    if index <? len_aoi + counter then
                      Some (ex ← obj_getitem aoi (index - counter); Ok (Some ex))
                    else scan fuel aoi_objs index (counter + len_aoi) (AOI_index + 1)
                end
            end
          else Some (Ok None)
      end
  end.

(** [EOTrainingDataset.__getitem__] of [SpaceNet7.py]; one round more
    than there are AOI objects is allowed to the loop. *)
Definition spacenet_tds_getitem (aoi_objs : list AOIObject) (index : Z)
    : option (result (option Example)) :=
  match py_len (facade_len aoi_objs) with
  | Raise e => Some (Raise e)
  | Ok TDS_length =>
      if index >? TDS_length then Some (Raise (SystemExit "index out of range"))
      else scan (S (length aoi_objs)) aoi_objs index 0 0
  end.

(** *** [CAP.py] *)

Record EOTrainingDatasetCAP : Type := mkCAPFacade {
  aoi_objs : list AOIObject;
  lengths : list Z
}.

(** The second loop of [__init__]: the running totals. *)
Definition lengths_loop (objs : list AOIObject) : result (Z * list Z) :=
  foldM (λ '(ctr, lengths) obj,
           n ← py_len (obj_len obj);
           Ok (ctr + n, lengths ++ [ctr + n]))
        (0, []) objs.

(** [__init__], from the AOI objects on. *)
Definition cap_init (objs : list AOIObject) : result EOTrainingDatasetCAP :=
  '(_, lengths) ← lengths_loop objs;
  Ok (mkCAPFacade objs lengths).

(** [enumerate(l)] *)
Definition enumerate {A} (l : list A) : list (Z * A) :=
  imap (λ i x, (Z.of_nat i, x)) l.

(** One round of the loop of [__getitem__]: [found], and [loc] once it is
    bound. *)
Definition locate_step (index : Z) (st : bool * option Z) (item : Z * Z)
    : bool * option Z :=
  let '(found, loc) := st in
  let '(idx, length) := item in
  if (length >? index) && negb found && (idx =? 0) then (true, Some 0)
  else if (length >? index) && negb found then (true, Some (idx - 1))
  else if (length =? index) && negb found then (true, Some idx)
  else (found, loc).

(** What a call does: it returns or raises one of the exceptions of
    [exn], or reads a local variable that no statement has bound. *)
Inductive outcome (A : Type) : Type :=
| Returns (r : result A)
| UnboundLocalError (name : string).
Arguments Returns {A} r.
Arguments UnboundLocalError {A} name.

(** [EOTrainingDataset.__getitem__] of [CAP.py] *)
Definition cap_tds_getitem (self : EOTrainingDatasetCAP) (index : Z) : outcome Example :=
  let '(found, loc) :=
    foldl (locate_step index) (false, None) (enumerate (lengths self)) in
  match loc with
  | None => UnboundLocalError "loc"
  | Some loc =>
      Returns (aoi ← getitem (aoi_objs self) loc;
               zero_idx ← getitem (lengths self) loc;
               obj_getitem aoi (index - zero_idx))
  end.

(** The running totals of the counts [cs]: the sum of the first [k]. *)
Definition prefix_sum (cs : list Z) (k : nat) : Z := Core.sum_counts (take k cs).

(** The objects answer [len] with the counts [cs]. *)
Definition lens (objs : list AOIObject) (cs : list Z) : Prop :=
  Forall2 (λ o c, py_len (obj_len o) = Ok c) objs cs.

(** An AOI dataset of the library as an AOI object: [__len__] returns
    what [get_length] does. *)
Definition of_core (d : Core.AOIDataset Example) : AOIObject :=
  mkAOIObject (Ok (Core.get_length d)) (Core.aoi_getitem d).

End Objects.
Arguments AOIObject : clear implicits.
Arguments EOTrainingDatasetCAP : clear implicits.
Arguments Returns {A} r.
Arguments UnboundLocalError {A} name.

(** The AOI classes of the two files as AOI objects. *)
Definition of_cap (a : CAP.AOIDatasetCAP) : AOIObject Window :=
  mkAOIObject (CAP.cap_len a) (CAP.cap_getitem a).

Definition of_spacenet (a : SpaceNet7.AOIDatasetSpaceNet) : AOIObject Window :=
  mkAOIObject (SpaceNet7.spacenet_len a) (SpaceNet7.spacenet_getitem a).

End Pilot.

Module PilotSample.

(** Two SpaceNet stacks of 356 by 356 images, of two dates and of one:
    32 and 16 windows. *)
Definition spacenet_objs : list (Pilot.AOIObject Window) :=
  [Pilot.of_spacenet (spacenet_square ["2020-01"; "2020-02"]%string 4);
   Pilot.of_spacenet (spacenet_square ["2020-01"]%string 4)].

(** Two CAP images, of 9 and of 6 windows. *)
Definition cap_objs : list (Pilot.AOIObject Window) :=
  [Pilot.of_cap (cap_square 4); Pilot.of_cap cap_oblong].

End PilotSample.
Import PilotSample.

(** * Properties *)

(** ** Indexing sequences *)

Section SeqIndex.

Lemma seq_index_nonneg (n : nat) (i : Z) :
  0 <= i < Z.of_nat n → seq_index n i = Ok (Z.to_nat i).
Proof.
  intros Hi. unfold seq_index.
  destruct (Z.leb_spec 0 i), (Z.ltb_spec i (Z.of_nat n)); try lia. done.
Qed.

Lemma seq_index_neg (n : nat) (i : Z) :
  - Z.of_nat n <= i < 0 → seq_index n i = Ok (Z.to_nat (Z.of_nat n + i)).
Proof.
  intros Hi. unfold seq_index.
  destruct (Z.leb_spec 0 i); [lia|]. simpl.
  destruct (Z.leb_spec (- Z.of_nat n) i), (Z.ltb_spec i 0); try lia. done.
Qed.

Lemma seq_index_out (n : nat) (i : Z) :
  i < - Z.of_nat n ∨ Z.of_nat n <= i → seq_index n i = Raise IndexError.
Proof.
  intros Hi. unfold seq_index.
  destruct (Z.leb_spec 0 i), (Z.ltb_spec i (Z.of_nat n)),
    (Z.leb_spec (- Z.of_nat n) i), (Z.ltb_spec i 0); simpl; try lia; done.
Qed.

Lemma getitem_nonneg {A} (a : list A) (k : nat) (x : A) :
  a !! k = Some x → getitem a (Z.of_nat k) = Ok x.
Proof.
  intros Hk. unfold getitem.
  rewrite seq_index_nonneg by (apply lookup_lt_Some in Hk; lia).
  simpl. rewrite Nat2Z.id, Hk. done.
Qed.

Lemma getitem_wrap {A} (a : list A) (j : Z) :
  - Z.of_nat (length a) <= j < 0 →
  getitem a j = getitem a (Z.of_nat (length a) + j).
Proof.
  intros Hj. unfold getitem.
  rewrite seq_index_neg by done.
  rewrite seq_index_nonneg by lia. done.
Qed.

Lemma getitem_out {A} (a : list A) (j : Z) :
  j < - Z.of_nat (length a) ∨ Z.of_nat (length a) <= j →
  getitem a j = Raise IndexError.
Proof. intros Hj. unfold getitem. rewrite seq_index_out by done. done. Qed.

Lemma setitem_nonneg {A} (a : list A) (k : nat) (x : A) :
  (k < length a)%nat → setitem a (Z.of_nat k) x = Ok (<[k := x]> a).
Proof.
  intros Hk. unfold setitem. rewrite seq_index_nonneg by lia.
  simpl. rewrite Nat2Z.id. done.
Qed.

Lemma setitem_in_range {A} (a : list A) (i : Z) (x : A) :
  0 <= i < Z.of_nat (length a) → setitem a i x = Ok (<[Z.to_nat i := x]> a).
Proof. intros Hi. unfold setitem. rewrite seq_index_nonneg by lia. done. Qed.

Lemma to_int64_ok (v : Z) : - 2 ^ 63 <= v < 2 ^ 63 → to_int64 v = Ok v.
Proof.
  intros Hv. unfold to_int64.
  destruct (Z.leb_spec (- 2 ^ 63) v), (Z.ltb_spec v (2 ^ 63)); try lia. done.
Qed.

End SeqIndex.

(** ** The offset table and the index map of the facade *)

Section FacadeFacts.
Import Core.
Context {Example : Type}.
Local Abbreviation AOI := (AOIDataset Example).
Local Abbreviation cell := (option TDSExIdx2AOIIndexMap).

Lemma offset_0 (ds : list AOI) : offset ds 0 = 0.
Proof. done. Qed.

Lemma sum_counts_app (xs ys : list Z) :
  sum_counts (xs ++ ys) = sum_counts xs + sum_counts ys.
Proof. induction xs as [|x xs IH]; simpl; lia. Qed.

Lemma offset_S (ds : list AOI) (k : nat) (d : AOI) :
  ds !! k = Some d → offset ds (S k) = offset ds k + get_length d.
Proof.
  intros Hk. unfold offset, counts.
  erewrite take_S_r by (rewrite list_lookup_fmap, Hk; done).
  rewrite sum_counts_app. simpl. lia.
Qed.

Lemma offset_all (ds : list AOI) (k : nat) :
  (length ds <= k)%nat → offset ds k = sum_counts (counts ds).
Proof.
  intros Hk. unfold offset. rewrite take_ge; [done|].
  unfold counts. rewrite length_fmap. done.
Qed.

Lemma sum_counts_nonneg (cs : list Z) :
  Forall (λ c, 0 <= c) cs → 0 <= sum_counts cs.
Proof. induction 1; simpl; lia. Qed.

Lemma nonneg_counts_Forall (ds : list AOI) :
  nonneg_counts ds → Forall (λ c, 0 <= c) (counts ds).
Proof. unfold nonneg_counts, counts. rewrite Forall_fmap. done. Qed.

Lemma offset_mono (ds : list AOI) (k k' : nat) :
  nonneg_counts ds → (k <= k')%nat → offset ds k <= offset ds k'.
Proof.
  intros Hds Hk. unfold offset.
  replace k' with (k + (k' - k))%nat by lia.
  rewrite <- (take_drop k (take (k + (k' - k)) (counts ds))).
  rewrite take_take, Nat.min_l by lia. rewrite sum_counts_app.
  assert (0 <= sum_counts (drop k (take (k + (k' - k)) (counts ds)))); [|lia].
  apply sum_counts_nonneg, Forall_drop, Forall_take.
  by apply nonneg_counts_Forall.
Qed.

Lemma offset_nonneg (ds : list AOI) (k : nat) :
  nonneg_counts ds → 0 <= offset ds k.
Proof. intros Hds. rewrite <- (offset_0 ds). apply offset_mono; [done|lia]. Qed.

Lemma offset_le_total (ds : list AOI) (k : nat) :
  nonneg_counts ds → offset ds k <= sum_counts (counts ds).
Proof.
  intros Hds. rewrite <- (offset_all ds (k + length ds)) by lia.
  apply offset_mono; [done|lia].
Qed.

(** Every index below the total lies in the interval of some AOI. *)
Lemma offset_locate (ds : list AOI) (i : Z) :
  0 <= i < sum_counts (counts ds) →
  ∃ k, (k < length ds)%nat ∧ offset ds k <= i < offset ds (S k).
Proof.
  intros Hi. rewrite <- (offset_all ds (length ds)) in Hi by lia.
  induction (length ds) as [|n IH].
  - rewrite offset_0 in Hi. lia.
  - destruct (Z.lt_ge_cases i (offset ds n)) as [Hlt|Hge].
    + destruct IH as (k & Hk & Hik); [lia|]. exists k. split; [lia|done].
    + exists n. split; [lia|lia].
Qed.

(** ... and of one AOI only. *)
Lemma offset_unique (ds : list AOI) (i : Z) (k k' : nat) :
  nonneg_counts ds →
  offset ds k <= i < offset ds (S k) →
  offset ds k' <= i < offset ds (S k') →
  k' = k.
Proof.
  intros Hds Hk Hk'.
  destruct (Nat.lt_trichotomy k k') as [Hlt|[->|Hlt]]; [|done|].
  - pose proof (offset_mono ds (S k) k' Hds ltac:(lia)). lia.
  - pose proof (offset_mono ds (S k') k Hds ltac:(lia)). lia.
Qed.

End FacadeFacts.

Section FacadeLoops.
Import Core.
Context {Example : Type}.
Local Abbreviation AOI := (AOIDataset Example).
Local Abbreviation cell := (option TDSExIdx2AOIIndexMap).

(** The first loop writes [offset k] into cell [k] of the start table. *)
Lemma start_idx_loop_ok (ds : list AOI) :
  ∀ (j : nat) (starts : list Z) (n : Z),
    nonneg_counts ds → 0 <= n → n + sum_counts (counts ds) < 2 ^ 63 →
    (j + length ds <= length starts)%nat →
    ∃ starts',
      start_idx_loop ds (Z.of_nat j) starts n
        = Ok (starts', n + sum_counts (counts ds)) ∧
      length starts' = length starts ∧
      (∀ p, (p < length ds)%nat →
            starts' !! (j + p)%nat = Some (n + sum_counts (take p (counts ds)))) ∧
      (∀ q, (q < j ∨ j + length ds <= q)%nat → starts' !! q = starts !! q).
Proof.
  induction ds as [|d ds IH]; intros j starts n Hds Hn Hsum Hlen.
  - exists starts. simpl. rewrite Z.add_0_r. split_and!; [done|done|intros; lia|done].
  - apply Forall_cons in Hds as [Hd Hds]. simpl in Hsum, Hlen.
    pose proof (sum_counts_nonneg _ (nonneg_counts_Forall ds Hds)) as Hrest.
    simpl. rewrite to_int64_ok by lia. simpl.
    rewrite setitem_nonneg by lia. simpl.
    replace (Z.of_nat j + 1) with (Z.of_nat (S j)) by lia.
    destruct (IH (S j) (<[j := n]> starts) (n + get_length d))
      as (starts' & Hrun & Hlen' & Hin & Hout);
      [done|lia|lia|rewrite length_insert; lia|].
    exists starts'. rewrite Hrun. split; [f_equal; f_equal; lia|].
    split; [by rewrite Hlen', length_insert|]. split.
    + intros [|p] Hp.
      * rewrite Hout by lia. rewrite Nat.add_0_r.
        rewrite list_lookup_insert_eq by lia. simpl. f_equal. lia.
      * replace (j + S p)%nat with (S j + p)%nat by lia.
        rewrite Hin by (simpl in Hp; lia). simpl. f_equal. lia.
    + intros q Hq. rewrite Hout by (simpl in Hq; lia).
      apply list_lookup_insert_ne. simpl in Hq. lia.
Qed.

(** The inner loop fills the cells [s .. s+m-1], and no other. *)
Lemma fill_aoi_ok (m : nat) :
  ∀ (s : Z) (aoi s0 : Z) (tbl : list cell),
    0 <= s → s + Z.of_nat m <= Z.of_nat (length tbl) →
    ∃ tbl',
      fill_aoi (seqZ s (Z.of_nat m)) aoi s0 tbl = Ok tbl' ∧
      length tbl' = length tbl ∧
      (∀ i : nat, s <= Z.of_nat i < s + Z.of_nat m →
                  tbl' !! i = Some (Some (mkIdxMap aoi (Z.of_nat i - s0)))) ∧
      (∀ i : nat, ¬ (s <= Z.of_nat i < s + Z.of_nat m) → tbl' !! i = tbl !! i).
Proof.
  induction m as [|m IH]; intros s aoi s0 tbl Hs Hlen.
  - exists tbl. simpl. split_and!; [done|done|intros; lia|done].
  - rewrite seqZ_cons by lia. simpl fill_aoi.
    rewrite setitem_in_range by lia. simpl.
    replace (Z.pred (Z.of_nat (S m))) with (Z.of_nat m) by lia.
    destruct (IH (Z.succ s) aoi s0
                (<[Z.to_nat s := Some (mkIdxMap aoi (s - s0))]> tbl))
      as (tbl' & Hrun & Hlen' & Hin & Hout);
      [lia|rewrite length_insert; lia|].
    exists tbl'. split; [done|].
    split; [by rewrite Hlen', length_insert|]. split.
    + intros i Hi. destruct (decide (Z.of_nat i = s)) as [Heq|Hne].
      * rewrite Hout by lia. subst s. rewrite Nat2Z.id.
        by rewrite list_lookup_insert_eq by lia.
      * apply Hin. lia.
    + intros i Hi. rewrite Hout by lia.
      apply list_lookup_insert_ne. lia.
Qed.

(** The second loop gives every AOI the cells of its interval. *)
Lemma fill_loop_ok (ds : list AOI) (starts : list Z) :
  nonneg_counts ds →
  (∀ k, (k <= length ds)%nat → starts !! k = Some (offset ds k)) →
  ∀ (r k : nat) (tbl : list cell),
    (k + r = length ds)%nat →
    Z.of_nat (length tbl) = sum_counts (counts ds) →
    (∀ (k' i : nat), (k' < k)%nat →
       offset ds k' <= Z.of_nat i < offset ds (S k') →
       tbl !! i = Some (Some (mkIdxMap (Z.of_nat k') (Z.of_nat i - offset ds k')))) →
    ∃ tbl',
      fill_loop (seqZ (Z.of_nat k) (Z.of_nat r)) starts tbl = Ok tbl' ∧
      length tbl' = length tbl ∧
      (∀ (k' i : nat), (k' < length ds)%nat →
         offset ds k' <= Z.of_nat i < offset ds (S k') →
         tbl' !! i = Some (Some (mkIdxMap (Z.of_nat k') (Z.of_nat i - offset ds k')))).
Proof.
  intros Hds Hstarts. induction r as [|r IH]; intros k tbl Hk Hlen Hinv.
  - exists tbl. simpl. split_and!; [done|done|].
    intros k' i Hk'. apply Hinv. lia.
  - rewrite seqZ_cons by lia. simpl fill_loop.
    rewrite (getitem_nonneg starts k (offset ds k)) by (apply Hstarts; lia).
    simpl.
    replace (Z.of_nat k + 1) with (Z.of_nat (S k)) by lia.
    rewrite (getitem_nonneg starts (S k) (offset ds (S k))) by (apply Hstarts; lia).
    simpl. unfold np_arange.
    pose proof (offset_mono ds k (S k) Hds ltac:(lia)) as Hmono.
    pose proof (offset_nonneg ds k Hds) as Hnn.
    pose proof (offset_le_total ds (S k) Hds) as Hle.
    set (m := Z.to_nat (offset ds (S k) - offset ds k)).
    replace (offset ds (S k) - offset ds k) with (Z.of_nat m) by lia.
    destruct (fill_aoi_ok m (offset ds k) (Z.of_nat k) (offset ds k) tbl)
      as (tbl1 & Hrun1 & Hlen1 & Hin1 & Hout1); [lia|lia|].
    rewrite Hrun1. simpl.
    replace (Z.succ (Z.of_nat k)) with (Z.of_nat (S k)) by lia.
    replace (Z.pred (Z.of_nat (S r))) with (Z.of_nat r) by lia.
    destruct (IH (S k) tbl1) as (tbl' & Hrun & Hlen' & Hinv');
      [lia|lia| |].
    + intros k' i Hk' Hi. destruct (decide (k' = k)) as [->|Hne].
      * apply Hin1. lia.
      * pose proof (offset_mono ds (S k') k Hds ltac:(lia)).
        rewrite Hout1 by lia. apply Hinv; [lia|done].
    + exists tbl'. split_and!; [done|lia|done].
Qed.

(** [__compute_ds_length] returns the sum of the local counts and a
    table with one cell per global index, each holding the AOI whose
    interval the index lies in and the index local to that AOI. *)
Lemma compute_ds_length_ok (ds : list AOI) :
  nonneg_counts ds → sum_counts (counts ds) < 2 ^ 63 →
  ∃ tbl,
    compute_ds_length ds = Ok (sum_counts (counts ds), tbl) ∧
    Z.of_nat (length tbl) = sum_counts (counts ds) ∧
    (∀ (k i : nat), (k < length ds)%nat →
       offset ds k <= Z.of_nat i < offset ds (S k) →
       tbl !! i = Some (Some (mkIdxMap (Z.of_nat k) (Z.of_nat i - offset ds k)))).
Proof.
  intros Hds Hsum.
  pose proof (sum_counts_nonneg _ (nonneg_counts_Forall ds Hds)) as Htot.
  destruct (start_idx_loop_ok ds 0 (replicate (S (length ds)) 0) 0)
    as (starts & Hrun & Hlen & Hin & _);
    [done|lia|lia|rewrite length_replicate; lia|].
  change (Z.of_nat 0) with 0 in Hrun. rewrite Z.add_0_l in Hrun.
  rewrite length_replicate in Hlen.
  unfold compute_ds_length. rewrite Hrun. simpl.
  rewrite to_int64_ok by lia. simpl.
  rewrite setitem_nonneg by lia. simpl.
  unfold np_empty_object.
  destruct (Z.ltb_spec (sum_counts (counts ds)) 0) as [?|_]; [lia|]. simpl.
  set (starts' := <[length ds := sum_counts (counts ds)]> starts).
  assert (∀ k, (k <= length ds)%nat → starts' !! k = Some (offset ds k)) as Hstarts.
  { intros k Hk. unfold starts'. destruct (decide (k = length ds)) as [->|Hne].
    - rewrite list_lookup_insert_eq by lia. by rewrite offset_all.
    - rewrite list_lookup_insert_ne by done.
      specialize (Hin k ltac:(lia)). simpl in Hin. rewrite Hin.
      f_equal. }
  destruct (fill_loop_ok ds starts' Hds Hstarts (length ds) 0
              (replicate (Z.to_nat (sum_counts (counts ds))) None))
    as (tbl & Hfill & Hlen' & Htbl);
    [lia|rewrite length_replicate; lia|intros; lia|].
  change (Z.of_nat 0) with 0 in Hfill. rewrite Hfill. simpl.
  exists tbl. split_and!; [done| |done].
  rewrite Hlen', length_replicate. lia.
Qed.

End FacadeLoops.

Section FacadeTheorems.
Import Core.
Context {Example : Type}.
Local Abbreviation AOI := (AOIDataset Example).

(** What [__getitem__] does with an index inside the table: it hands
    the local index to the AOI dataset named by the cell. *)
Lemma tds_getitem_cell (ds : list AOI) (n : Z) (tbl : list (option TDSExIdx2AOIIndexMap))
    (i k : nat) (d : AOI) (j : Z) :
  tbl !! i = Some (Some (mkIdxMap (Z.of_nat k) j)) → ds !! k = Some d →
  tds_getitem (mkTDS ds n tbl) (Z.of_nat i) = aoi_getitem d j.
Proof.
  intros Hcell Hd. unfold tds_getitem. simpl.
  rewrite (getitem_nonneg tbl i _ Hcell). simpl.
  rewrite (getitem_nonneg ds k d Hd). done.
Qed.

(** C1. Over AOI datasets with local counts [c_0 .. c_{N-1}] (none
    negative, the total within a 64-bit cell) the facade is built, its
    length is the sum of the counts, and with [offset 0 = 0],
    [offset (k+1) = offset k + c_k], every global index [i] in
    [0, total) lies in the interval [offset k <= i < offset (k+1)] of
    exactly one AOI [k]; the index map built at construction holds
    [(k, i - offset k)] for [i], and [__getitem__] and [get_example]
    return what AOI dataset [k] returns for the local index
    [i - offset k]. *)
Theorem C1_global_index_resolves (ds : list AOI) :
  nonneg_counts ds →
  sum_counts (counts ds) < 2 ^ 63 →
  ∃ tds,
    init ds = Ok tds ∧
    tds_len tds = sum_counts (counts ds) ∧
    offset ds 0 = 0 ∧
    (∀ k d, ds !! k = Some d → offset ds (S k) = offset ds k + get_length d) ∧
    ∀ i, 0 <= i < sum_counts (counts ds) →
      ∃ k d,
        ds !! k = Some d ∧
        offset ds k <= i < offset ds (S k) ∧
        (∀ k', offset ds k' <= i < offset ds (S k') → k' = k) ∧
        tds_ex_idx_2_aoi_ex_idx tds !! Z.to_nat i
          = Some (Some (mkIdxMap (Z.of_nat k) (i - offset ds k))) ∧
        tds_getitem tds i = aoi_getitem d (i - offset ds k) ∧
        get_example tds i = aoi_getitem d (i - offset ds k).
Proof.
  intros Hds Hsum.
  destruct (compute_ds_length_ok ds Hds Hsum) as (tbl & Hrun & Hlen & Htbl).
  exists (mkTDS ds (sum_counts (counts ds)) tbl).
  split; [unfold init; by rewrite Hrun|].
  split; [done|]. split; [done|]. split; [apply offset_S|].
  intros i Hi.
  destruct (offset_locate ds i Hi) as (k & Hk & Hik).
  destruct (lookup_lt_is_Some_2 ds k Hk) as [d Hd].
  assert (tbl !! Z.to_nat i = Some (Some (mkIdxMap (Z.of_nat k) (i - offset ds k))))
    as Hcell.
  { rewrite (Htbl k (Z.to_nat i)) by (rewrite ?Z2Nat.id; lia).
    rewrite Z2Nat.id by lia. done. }
  assert (tds_getitem (mkTDS ds (sum_counts (counts ds)) tbl) i
          = aoi_getitem d (i - offset ds k)) as Hget.
  { rewrite <- (Z2Nat.id i) at 1 by lia. by apply tds_getitem_cell with k. }
  exists k, d. split_and!; try done; try lia.
  intros k' Hk'. by apply (offset_unique ds i k k').
Qed.

(** C10. On a facade with [n] examples, [__getitem__] and [get_example]
    take a negative index [j] with [-n <= j < 0] as the index [n + j];
    every index in [-n, n) is resolved and handed to an AOI dataset;
    the indices [j >= n] and [j < -n] are the ones refused with an
    [IndexError]. *)
Theorem C10_negative_index_wraps (ds : list AOI) :
  nonneg_counts ds →
  sum_counts (counts ds) < 2 ^ 63 →
  ∃ tds,
    init ds = Ok tds ∧
    tds_len tds = sum_counts (counts ds) ∧
    let n := tds_len tds in
    (∀ j, - n <= j < 0 →
       tds_getitem tds j = tds_getitem tds (n + j) ∧
       get_example tds j = get_example tds (n + j) ∧
       ∃ k d, ds !! k = Some d ∧
         offset ds k <= n + j < offset ds (S k) ∧
         tds_getitem tds j = aoi_getitem d (n + j - offset ds k)) ∧
    (∀ j, j < - n ∨ n <= j →
       tds_getitem tds j = Raise IndexError ∧
       get_example tds j = Raise IndexError).
Proof.
  intros Hds Hsum.
  destruct (compute_ds_length_ok ds Hds Hsum) as (tbl & Hrun & Hlen & Htbl).
  exists (mkTDS ds (sum_counts (counts ds)) tbl).
  split; [unfold init; by rewrite Hrun|].
  split; [done|]. simpl. split.
  - intros j Hj.
    assert (tds_getitem (mkTDS ds (sum_counts (counts ds)) tbl) j
            = tds_getitem (mkTDS ds (sum_counts (counts ds)) tbl)
                (sum_counts (counts ds) + j)) as Hwrap.
    { unfold tds_getitem. simpl. rewrite getitem_wrap by lia. by rewrite Hlen. }
    split; [done|]. split; [done|].
    destruct (offset_locate ds (sum_counts (counts ds) + j)) as (k & Hk & Hik); [lia|].
    destruct (lookup_lt_is_Some_2 ds k Hk) as [d Hd].
    exists k, d. split; [done|]. split; [done|].
    rewrite Hwrap.
    rewrite <- (Z2Nat.id (sum_counts (counts ds) + j)) at 1 by lia.
    apply tds_getitem_cell with k; [|done].
    rewrite (Htbl k) by (rewrite ?Z2Nat.id; lia).
    rewrite Z2Nat.id by lia. done.
  - intros j Hj.
    assert (tds_getitem (mkTDS ds (sum_counts (counts ds)) tbl) j = Raise IndexError);
      [|done].
    unfold tds_getitem. simpl. rewrite getitem_out by lia. done.
Qed.

End FacadeTheorems.

Lemma two_aois_nonneg : Core.nonneg_counts two_aois.
Proof. unfold Core.nonneg_counts, two_aois. repeat constructor; simpl; lia. Defined.

Lemma C1_global_index_resolves_witness :
  Core.nonneg_counts two_aois ∧
  Core.sum_counts (Core.counts two_aois) < 2 ^ 63 ∧
  ∃ tds, Core.init two_aois = Ok tds ∧ Core.tds_len tds = 8.
Proof.
  split; [exact two_aois_nonneg|]. split; [done|].
  destruct (C1_global_index_resolves two_aois two_aois_nonneg eq_refl)
    as (tds & Hinit & Hlen & _).
  exists tds. split; [exact Hinit|exact Hlen].
Defined.

Lemma C10_negative_index_wraps_witness :
  Core.nonneg_counts two_aois ∧
  Core.sum_counts (Core.counts two_aois) < 2 ^ 63 ∧
  ∃ tds, Core.init two_aois = Ok tds ∧
         Core.tds_getitem tds (-1) = Core.tds_getitem tds (Core.tds_len tds + -1).
Proof.
  split; [exact two_aois_nonneg|]. split; [done|].
  destruct (C10_negative_index_wraps two_aois two_aois_nonneg eq_refl)
    as (tds & Hinit & Hlen & Hwrap & _).
  exists tds. split; [exact Hinit|].
  apply (Hwrap (-1)). rewrite Hlen. done.
Defined.

(** ** Tiling a raster *)

Section Windows.

Lemma int_truediv_floor (a b : Z) :
  0 <= a < 2 ^ 53 → 0 < b → int_truediv a b = Ok (a / b).
Proof.
  intros Ha Hb. unfold int_truediv.
  destruct (Z.eqb_spec b 0) as [?|_]; [lia|].
  destruct (Z.ltb_spec (Z.abs a) (2 ^ 53)) as [_|?]; [|lia].
  by rewrite Z.quot_div_nonneg by lia.
Qed.

(** From [2^53] on the quotient is the double's: a tie goes to the even
    mantissa, a quotient within half a gap of an integer reaches it, and
    one beyond the largest double raises. *)
Lemma int_truediv_rounds :
  int_truediv (2 ^ 53 + 1) 1 = Ok (2 ^ 53) ∧
  int_truediv (2 ^ 54 - 1) (2 ^ 54) = Ok 1 ∧
  int_truediv (- (2 ^ 53 + 3)) 1 = Ok (- (2 ^ 53 + 4)) ∧
  int_truediv (10 ^ 400) 3 = Raise OverflowError.
Proof. split_and!; vm_compute; reflexivity. Qed.

Lemma py_mod_pos (a b : Z) : 0 < b → py_mod a b = Ok (a mod b).
Proof.
  intros Hb. unfold py_mod. destruct (Z.eqb_spec b 0) as [?|_]; [lia|done].
Qed.

(** The exclusive policy of CAP: [floor((extent - S) / St)] windows along
    each axis. *)
Lemma cap_len_exclusive (bands W H S St : Z) :
  0 < St → S <= W → S <= H → W - S < 2 ^ 53 → H - S < 2 ^ 53 →
  CAP.cap_len (CAP.mkCAP [bands; W; H] S St) = Ok (((W - S) / St) * ((H - S) / St)).
Proof.
  intros HSt HW HH HWb HHb. unfold CAP.cap_len, CAP.along_x, CAP.along_y. simpl.
  rewrite !int_truediv_floor by lia. done.
Qed.

(** The inclusive policy of SpaceNet: one window more along each axis,
    and as many images as dates. *)
Lemma spacenet_len_inclusive (dates : list string) (bands W H S St : Z) :
  dates ≠ [] → 0 < St → S <= W → S <= H → W - S < 2 ^ 53 → H - S < 2 ^ 53 →
  SpaceNet7.spacenet_len (SpaceNet7.mkSpaceNet dates [bands; W; H] S St)
  = Ok (Z.of_nat (length dates) * (((W - S) / St + 1) * ((H - S) / St + 1))).
Proof.
  intros Hd HSt HW HH HWb HHb. destruct dates as [|date dates]; [done|].
  unfold SpaceNet7.spacenet_len, SpaceNet7.feature_data_at,
    SpaceNet7.x1_ceiling, SpaceNet7.y1_ceiling.
  rewrite seq_index_nonneg by (simpl length; lia). simpl.
  rewrite !int_truediv_floor by lia. done.
Qed.

(** A stack without a date has no first image to measure. *)
Lemma spacenet_len_no_date (shape : list Z) (S St : Z) :
  SpaceNet7.spacenet_len (SpaceNet7.mkSpaceNet [] shape S St) = Raise IndexError.
Proof. done. Qed.

(** C2, as the code has it. For a raster of 356 by 356, window size 256
    and stride 26: CAP (exclusive policy) counts
    [floor((356 - 256) / 26) = 3] windows along each axis and 9
    examples, there being no time axis; SpaceNet (inclusive policy)
    counts 4 windows along each axis, 16 per image, and over [T >= 1]
    dates [16 * T] examples, which is [16 * max(T, 1)]; over no date its
    [__len__] raises [IndexError]. *)
Theorem C2_window_counts_356_256_26 :
  (∀ bands,
     CAP.along_x (cap_square bands) = Ok ((356 - 256) / 26) ∧
     CAP.along_x (cap_square bands) = Ok 3 ∧
     CAP.along_y (cap_square bands) = Ok 3 ∧
     CAP.cap_len (cap_square bands) = Ok 9) ∧
  (∀ dates bands,
     let T := Z.of_nat (length dates) in
     let d := spacenet_square dates bands in
     SpaceNet7.x1_ceiling d (SpaceNet7.image_shape d) = Ok ((356 - 256) / 26 + 1) ∧
     SpaceNet7.x1_ceiling d (SpaceNet7.image_shape d) = Ok 4 ∧
     SpaceNet7.y1_ceiling d (SpaceNet7.image_shape d) = Ok 4 ∧
     (1 <= T →
        SpaceNet7.spacenet_len d = Ok (4 * 4 * T) ∧
        SpaceNet7.spacenet_len d = Ok (16 * Z.max T 1)) ∧
     (T = 0 → SpaceNet7.spacenet_len d = Raise IndexError)).
Proof.
  split.
  - intros bands. done.
  - intros dates bands T d. split_and!; try done.
    + intros HT.
      assert (dates ≠ []) as Hd by (intros ->; unfold T in HT; simpl in HT; lia).
      unfold d, spacenet_square.
      rewrite spacenet_len_inclusive by (done || lia). fold T.
      change ((356 - 256) / 26 + 1) with 4. split; f_equal; lia.
    + intros HT. unfold T in HT. destruct dates as [|date dates]; [done|].
      simpl in HT. lia.
Qed.

(** C2 as stated fails on a stack without a date: with [T = 0] the
    specified total is [16 * max(0, 1) = 16], the counts along the axes
    are 4 and 4, and [__len__] raises [IndexError] on reading the first
    image of the stack. *)
Lemma C2_no_date_counterexample :
  let dates : list string := [] in
  let T := Z.of_nat (length dates) in
  let d := spacenet_square dates 4 in
  16 * Z.max T 1 = 16 ∧
  SpaceNet7.x1_ceiling d (SpaceNet7.image_shape d) = Ok 4 ∧
  SpaceNet7.y1_ceiling d (SpaceNet7.image_shape d) = Ok 4 ∧
  SpaceNet7.spacenet_len d = Raise IndexError.
Proof. split_and!; reflexivity. Qed.

(** SpaceNet lays its tiles out as the specification words it: for an
    index inside a dataset of at most [2^53] windows, with [xc > 0]
    windows along the first axis, [__getitem__] returns the window of
    [Spec.window_of_index]. *)
Lemma spacenet_getitem_as_specified (d : SpaceNet7.AOIDatasetSpaceNet) (xc yc i : Z) :
  SpaceNet7.x1_ceiling d (SpaceNet7.image_shape d) = Ok xc →
  SpaceNet7.y1_ceiling d (SpaceNet7.image_shape d) = Ok yc →
  0 < xc →
  Z.of_nat (length (SpaceNet7.timesteps d)) * (xc * yc) <= 2 ^ 53 →
  0 <= i < Z.of_nat (length (SpaceNet7.timesteps d)) * (xc * yc) →
  SpaceNet7.spacenet_getitem d i
  = Ok (Spec.window_of_index (SpaceNet7.window_size d) (SpaceNet7.stride d)
          xc (xc * yc) i).
Proof.
  intros Hxc Hyc Hpos Hbound Hi.
  set (T := Z.of_nat (length (SpaceNet7.timesteps d))) in *.
  assert (0 <= T) as HT0 by (unfold T; lia).
  assert (0 < T) as HT by (destruct (Z.eq_dec T 0) as [HT|HT]; [rewrite HT in Hi|]; lia).
  assert (0 < xc * yc) as Hper
    by (destruct (Z.le_gt_cases (xc * yc) 0); [nia|lia]).
  assert (SpaceNet7.feature_data_at d 0 = Ok (SpaceNet7.image_shape d)) as Hsample.
  { unfold SpaceNet7.feature_data_at. rewrite seq_index_nonneg by (fold T; lia). done. }
  assert (0 <= i / (xc * yc) < T) as Hts.
  { split; [apply Z.div_pos; lia|]. apply Z.div_lt_upper_bound; lia. }
  pose proof (Z.mod_pos_bound i (xc * yc) Hper) as Hres.
  unfold SpaceNet7.spacenet_getitem, SpaceNet7.builtin_len, SpaceNet7.spacenet_len.
  rewrite Hsample. simpl. rewrite Hxc, Hyc. simpl. fold T.
  destruct (Z.ltb_spec (T * (xc * yc)) 0) as [?|_]; [lia|].
  destruct (Z.leb_spec (2 ^ 63) (T * (xc * yc))) as [?|_]; [lia|]. simpl.
  destruct (Z.geb_spec i (T * (xc * yc))) as [?|_]; [lia|].
  rewrite (int_truediv_floor i) by lia. simpl.
  unfold SpaceNet7.feature_data_at at 1.
  rewrite seq_index_nonneg by (fold T; lia). simpl.
  rewrite py_mod_pos by done. simpl.
  assert (i - i / (xc * yc) * (xc * yc) = i mod (xc * yc)) as Hresid
    by (rewrite Z.mod_eq by lia; lia).
  rewrite int_truediv_floor by lia. simpl.
  destruct (lookup_lt_is_Some_2 (SpaceNet7.timesteps d) (Z.to_nat (i / (xc * yc))))
    as [date Hdate]; [fold T in Hts |- *; lia|].
  assert (getitem (SpaceNet7.timesteps d) (i / (xc * yc)) = Ok date) as Hget.
  { rewrite <- (Z2Nat.id (i / (xc * yc))) by lia. by apply getitem_nonneg. }
  rewrite Hget. simpl.
  unfold Spec.window_of_index. done.
Qed.

(** CAP agrees with that layout when it counts as many windows along one
    axis as along the other. *)
Lemma cap_getitem_square_as_specified (d : CAP.AOIDatasetCAP) (a i : Z) :
  CAP.along_x d = Ok a → CAP.along_y d = Ok a → 0 < a → a * a <= 2 ^ 53 →
  0 <= i < a * a →
  ∃ w, CAP.cap_getitem d i = Ok w ∧
       Spec.box w
       = Spec.box (Spec.window_of_index (CAP.window_size d) (CAP.stride d) a (a * a) i).
Proof.
  intros Hx Hy Ha Hbound Hi. unfold CAP.cap_getitem. rewrite Hx, Hy. simpl.
  rewrite py_mod_pos by done. simpl.
  rewrite int_truediv_floor by lia. simpl.
  eexists. split; [done|]. unfold Spec.box, Spec.window_of_index. simpl.
  rewrite (Z.div_small i (a * a)) by lia.
  replace (i - 0 * (a * a)) with i by lia. done.
Qed.

(** C3 at a CAP image that is not square. Two windows fit along one
    axis and three along the other, six in all; index 2 gets the window
    of index 0, because the row is taken from [index / along_y] while
    the column is [index % along_x]; the specified layout puts index 2
    on the second row. *)
Theorem C3_cap_row_divides_by_along_y :
  CAP.along_x cap_oblong = Ok 2 ∧
  CAP.along_y cap_oblong = Ok 3 ∧
  CAP.cap_len cap_oblong = Ok 6 ∧
  CAP.cap_getitem cap_oblong 2 = Ok (mkWindow None 0 0 256 256) ∧
  CAP.cap_getitem cap_oblong 0 = CAP.cap_getitem cap_oblong 2 ∧
  Spec.box (Spec.window_of_index 256 26 2 6 2) = (0, 26, 256, 282).
Proof. split_and!; done. Qed.

End Windows.

Lemma C2_window_counts_356_256_26_witness :
  1 <= Z.of_nat (length ["2020-01"; "2020-02"]%string) ∧
  SpaceNet7.spacenet_len (spacenet_square ["2020-01"; "2020-02"]%string 4) = Ok 32.
Proof.
  split; [simpl; lia|].
  destruct (proj2 C2_window_counts_356_256_26 ["2020-01"; "2020-02"]%string 4)
    as (_ & _ & _ & Hlen & _).
  apply Hlen. simpl. lia.
Defined.

(** ** Completeness and compliance *)

Section Compliance.
Import TdsStacIo.

Lemma len_truediv_pos (a b : nat) :
  b ≠ 0%nat → len_truediv a b = Ok (Qmake (Z.of_nat a) (Pos.of_nat b)).
Proof. intros Hb. unfold len_truediv. by destruct (Nat.eqb_spec b 0). Qed.

Lemma len_truediv_zero (a : nat) : len_truediv a 0 = Raise ZeroDivisionError.
Proof. done. Qed.

(** A fraction over a tier that is not empty is 1 exactly when every name
    of the tier is counted. *)
Lemma fraction_one (a b : nat) :
  b ≠ 0%nat → (Qmake (Z.of_nat a) (Pos.of_nat b) == 1)%Q ↔ a = b.
Proof.
  intros Hb. unfold Qeq. simpl.
  assert (Z.pos (Pos.of_nat b) = Z.of_nat b) as ->
    by (rewrite <- positive_nat_Z, Nat2Pos.id by done; done).
  lia.
Qed.

(** [compute_compliance_level] on a validated catalog, by cases on which
    tiers are covered. *)
Lemma compute_compliance_level_cases
    (tbl : gmap string MetadataRequirementInfo) (self : DatasetSTACCatalog)
    (root : TDSRootCtlInfo) (req : MetadataRequirementInfo) :
  valid_tds self = true →
  tds_ctl_root_info self = Some root →
  tbl !! "aireo_tds_core"%string = Some req →
  let present : gset string := dom (tds_root_metadata_d root) in
  let covered (tier : gset string) := size (present ∩ tier) = size tier in
  compute_compliance_level tbl self
  = Ok (if decide (covered (recommended_metadata_set req))
        then if decide (covered (optional_metadata_set req)) then 3 else 2
        else 1).
Proof.
  intros Hvalid Hroot Hreq present covered.
  unfold compute_compliance_level, get_tds_ctl_root_info, get_tds_core_req.
  rewrite Hvalid, Hroot, Hreq. simpl. fold present.
  destruct (Nat.eqb_spec (size (present ∩ recommended_metadata_set req))
              (size (recommended_metadata_set req))) as [Hrec|Hrec];
    destruct (Nat.eqb_spec (size (present ∩ optional_metadata_set req))
                (size (optional_metadata_set req))) as [Hopt|Hopt];
    simpl; repeat case_decide; unfold covered in *; first [done|contradiction].
Qed.

(** [report_metadata_completeness] returns only when no tier is empty. *)
Lemma report_Ok_tiers_nonempty
    (tbl : gmap string MetadataRequirementInfo) (self : DatasetSTACCatalog)
    (root : TDSRootCtlInfo) (req : MetadataRequirementInfo) (r : MetadataCompleteness) :
  tds_ctl_root_info self = Some root →
  tbl !! "aireo_tds_core"%string = Some req →
  report_metadata_completeness tbl self = Ok r →
  let present : gset string := dom (tds_root_metadata_d root) in
  let fraction (tier : gset string) :=
    Qmake (Z.of_nat (size (present ∩ tier))) (Pos.of_nat (size tier)) in
  size (required_metadata_set req) ≠ 0%nat ∧
  size (recommended_metadata_set req) ≠ 0%nat ∧
  size (optional_metadata_set req) ≠ 0%nat ∧
  r = mkCompleteness (fraction (required_metadata_set req))
        (fraction (recommended_metadata_set req))
        (fraction (optional_metadata_set req)).
Proof.
  intros Hroot Hreq. unfold report_metadata_completeness,
    get_tds_ctl_root_info, get_tds_core_req.
  rewrite Hroot, Hreq. destruct (valid_tds self); [|done]. simpl.
  destruct (size (required_metadata_set req)) as [|n1] eqn:H1; [by cbn|].
  rewrite (len_truediv_pos _ (S n1)) by done. simpl.
  destruct (size (recommended_metadata_set req)) as [|n2] eqn:H2; [by cbn|].
  rewrite (len_truediv_pos _ (S n2)) by done. simpl.
  destruct (size (optional_metadata_set req)) as [|n3] eqn:H3; [by cbn|].
  rewrite (len_truediv_pos _ (S n3)) by done. simpl.
  intros [= <-]. done.
Qed.

End Compliance.

Section ComplianceTheorems.
Import TdsStacIo.

(** C4, as the code has it. On a validated catalog the report gives, for
    each of the three tiers of the requirement table, the number of keys
    of the root document that are in the tier over the size of the tier,
    provided no tier is empty; with an empty tier the division by its size
    raises [ZeroDivisionError] and there is no report. *)
Theorem C4_completeness_fractions
    (tbl : gmap string MetadataRequirementInfo) (self : DatasetSTACCatalog)
    (root : TDSRootCtlInfo) (req : MetadataRequirementInfo) :
  valid_tds self = true →
  tds_ctl_root_info self = Some root →
  tbl !! "aireo_tds_core"%string = Some req →
  let present : gset string := dom (tds_root_metadata_d root) in
  let fraction (tier : gset string) :=
    Qmake (Z.of_nat (size (present ∩ tier))) (Pos.of_nat (size tier)) in
  (size (required_metadata_set req) ≠ 0%nat →
   size (recommended_metadata_set req) ≠ 0%nat →
   size (optional_metadata_set req) ≠ 0%nat →
   report_metadata_completeness tbl self
   = Ok (mkCompleteness (fraction (required_metadata_set req))
           (fraction (recommended_metadata_set req))
           (fraction (optional_metadata_set req)))) ∧
  (size (required_metadata_set req) = 0%nat ∨
   size (recommended_metadata_set req) = 0%nat ∨
   size (optional_metadata_set req) = 0%nat →
   report_metadata_completeness tbl self = Raise ZeroDivisionError).
Proof.
  intros Hvalid Hroot Hreq present fraction.
  unfold report_metadata_completeness, get_tds_ctl_root_info, get_tds_core_req.
  rewrite Hvalid, Hroot, Hreq. simpl. fold present. split.
  - intros H1 H2 H3.
    rewrite (len_truediv_pos _ (size (required_metadata_set req))) by done. simpl.
    rewrite (len_truediv_pos _ (size (recommended_metadata_set req))) by done. simpl.
    rewrite (len_truediv_pos _ (size (optional_metadata_set req))) by done. done.
  - intros Hempty.
    destruct (size (required_metadata_set req)) as [|n1]; [done|].
    rewrite (len_truediv_pos _ (S n1)) by done. simpl.
    destruct (size (recommended_metadata_set req)) as [|n2]; [done|].
    rewrite (len_truediv_pos _ (S n2)) by done. simpl.
    destruct (size (optional_metadata_set req)) as [|n3]; [done|].
    destruct Hempty as [?|[?|?]]; done.
Qed.

(** C5. Before the catalog is validated the computation fails on its
    assertion. On a validated catalog the level is 1, 2 or 3: at least 1
    always, at least 2 exactly when every recommended name is a key of the
    root document, 3 exactly when every recommended and every optional
    name is (so it stays at 2 exactly when the recommended names are all
    there and the optional ones are not); and wherever the completeness
    report exists, these two conditions are the fractions of the report
    being 1. *)
Theorem C5_compliance_level
    (tbl : gmap string MetadataRequirementInfo) (self : DatasetSTACCatalog) :
  (valid_tds self = false →
   compute_compliance_level tbl self = Raise AssertionError) ∧
  (∀ root req,
     valid_tds self = true →
     tds_ctl_root_info self = Some root →
     tbl !! "aireo_tds_core"%string = Some req →
     let present : gset string := dom (tds_root_metadata_d root) in
     let covered (tier : gset string) := size (present ∩ tier) = size tier in
     ∃ level,
       compute_compliance_level tbl self = Ok level ∧
       (level = 1 ∨ level = 2 ∨ level = 3) ∧
       1 <= level ∧
       (2 <= level ↔ covered (recommended_metadata_set req)) ∧
       (level = 3 ↔ covered (recommended_metadata_set req)
                    ∧ covered (optional_metadata_set req)) ∧
       (level = 2 ↔ covered (recommended_metadata_set req)
                    ∧ ¬ covered (optional_metadata_set req)) ∧
       (∀ r, report_metadata_completeness tbl self = Ok r →
             (2 <= level ↔ (pct_recommended_metadata r == 1)%Q) ∧
             (level = 3 ↔ (pct_recommended_metadata r == 1)%Q
                          ∧ (pct_optional_metadata r == 1)%Q))).
Proof.
  split.
  - intros Hvalid. unfold compute_compliance_level. by rewrite Hvalid.
  - intros root req Hvalid Hroot Hreq present covered.
    rewrite (compute_compliance_level_cases tbl self root req Hvalid Hroot Hreq).
    fold present. fold covered.
    assert (∀ r, report_metadata_completeness tbl self = Ok r →
              ((pct_recommended_metadata r == 1)%Q
               ↔ covered (recommended_metadata_set req)) ∧
              ((pct_optional_metadata r == 1)%Q
               ↔ covered (optional_metadata_set req))) as Hfrac.
    { intros r Hr.
      destruct (report_Ok_tiers_nonempty tbl self root req r Hroot Hreq Hr)
        as (_ & H2 & H3 & ->).
      simpl. split; by apply fraction_one. }
    subst covered. cbv beta in *.
    repeat case_decide; eexists; (split; [reflexivity|]); split_and!;
      try (intros r Hr; destruct (Hfrac r Hr) as [H1 H2]); intuition lia.
Qed.

End ComplianceTheorems.

(** The example of the specification: keys [a] and [c] against [a], [b]
    required, [c] recommended, [d] optional. *)
Lemma C4_completeness_fractions_witness :
  TdsStacIo.report_metadata_completeness abcd_req_info_d
    (catalog_with_keys ["a"; "c"]%string)
  = Ok (TdsStacIo.mkCompleteness (1 # 2) 1 0).
Proof.
  edestruct (C4_completeness_fractions abcd_req_info_d
               (catalog_with_keys ["a"; "c"]%string)) as [Hreport _];
    [reflexivity|reflexivity|reflexivity|].
  rewrite Hreport; [reflexivity|vm_compute; discriminate..].
Defined.

(** C4 as stated fails where a tier is empty: with nothing recommended
    the report raises, it does not give 1.0 for the tier. *)
Lemma C4_empty_tier_counterexample :
  TdsStacIo.valid_tds (catalog_with_keys ["a"; "c"]%string) = true ∧
  (∃ req, no_recommended_req_info_d !! "aireo_tds_core"%string = Some req ∧
          size (TdsStacIo.recommended_metadata_set req) = 0%nat) ∧
  TdsStacIo.report_metadata_completeness no_recommended_req_info_d
    (catalog_with_keys ["a"; "c"]%string) = Raise ZeroDivisionError ∧
  ¬ ∃ r, TdsStacIo.report_metadata_completeness no_recommended_req_info_d
           (catalog_with_keys ["a"; "c"]%string) = Ok r ∧
         (TdsStacIo.pct_recommended_metadata r == 1)%Q.
Proof.
  split; [reflexivity|]. split; [eexists; split; [reflexivity|reflexivity]|].
  assert (TdsStacIo.report_metadata_completeness no_recommended_req_info_d
            (catalog_with_keys ["a"; "c"]%string) = Raise ZeroDivisionError) as Hraise
    by reflexivity.
  split; [exact Hraise|].
  intros (r & Hr & _). rewrite Hraise in Hr. discriminate Hr.
Qed.

Lemma C5_compliance_level_witness :
  TdsStacIo.compute_compliance_level abcd_req_info_d
    (catalog_with_keys ["a"; "c"]%string) = Ok 2.
Proof.
  destruct (proj2 (C5_compliance_level abcd_req_info_d
                     (catalog_with_keys ["a"; "c"]%string))
              _ _ eq_refl eq_refl eq_refl)
    as (level & Hlevel & _).
  rewrite Hlevel. vm_compute in Hlevel. exact (eq_sym Hlevel).
Defined.

(** ** Loops that may raise *)

Section Loops.
Context {A B : Type}.

Lemma foldM_app (f : A → B → result A) (a : A) (l1 l2 : list B) :
  foldM f a (l1 ++ l2) = foldM f a l1 ≫= λ a', foldM f a' l2.
Proof.
  revert a. induction l1 as [|b l1 IH]; intros a; simpl; [done|].
  destruct (f a b) as [a'|e]; simpl; [apply IH|done].
Qed.





End Loops.

(** ** Splitting a relation string *)

Section Split.






End Split.

(** ** The field-metadata maps *)

Section FieldMaps.
Import TdsStacIo.
Context `{Runtime}.

Lemma plain_link_name (link : Link) (t n : string) :
  plain_link link = true → startswith (rel link) "metadata" = true →
  unpack_rel (rel link) = Ok (t, n) → plain_name n = true.
Proof.
  intros Hplain Hmeta Hunpack. unfold plain_link in Hplain.
  by rewrite Hmeta, Hunpack in Hplain.
Qed.

Lemma lookup_field_is_field (m : AllFieldMetadata) (t n : string)
    (info : FieldProfileInfo) :
  lookup_field m t n = Some info → is_field t.
Proof.
  unfold lookup_field, is_field.
  destruct (String.eqb_spec t "features"); [by left|].
  destruct (String.eqb_spec t "references"); [by right|done].
Qed.

(** The generated assignment with a plain name, when it returns: for
    one of the two field types the record is under the name in the map
    of the type; for another attribute the maps are as they were; and no
    other entry has changed. *)
Lemma exec_set_field_metadata_Ok (m m' : AllFieldMetadata) (t n : string)
    (info : FieldProfileInfo) :
  plain_name n = true →
  exec_set_field_metadata m t n info = Ok m' →
  (is_field t → lookup_field m' t n = Some info) ∧
  (∀ t' n', (t', n') ≠ (t, n) → lookup_field m' t' n' = lookup_field m t' n') ∧
  (¬ is_field t → m' = m).
Proof.
  intros Hn. unfold exec_set_field_metadata. rewrite Hn.
  destruct (String.eqb_spec t "features") as [->|Hf].
  - intros [= <-]. split_and!.
    + intros _. unfold lookup_field. simpl. apply lookup_insert_eq.
    + intros t' n' Hne. unfold lookup_field. simpl.
      destruct (String.eqb_spec t' "features") as [->|_]; [|done].
      apply lookup_insert_ne. congruence.
    + intros Hnot. destruct Hnot. by left.
  - destruct (String.eqb_spec t "references") as [->|Hr].
    + intros [= <-]. split_and!.
      * intros _. unfold lookup_field. simpl. apply lookup_insert_eq.
      * intros t' n' Hne. unfold lookup_field. simpl.
        destruct (String.eqb_spec t' "features") as [->|_]; [done|].
        destruct (String.eqb_spec t' "references") as [->|_]; [|done].
        apply lookup_insert_ne. congruence.
      * intros Hnot. destruct Hnot. by right.
    + destruct (setitem_on_attribute t) as [[]|e]; [|done].
      cbn [mbind result_bind]. intros [= <-].
      split_and!; [by intros [?|?]|done|done].
Qed.

(** With a plain name the assignment into one of the two maps always
    returns. *)
Lemma exec_set_field_metadata_plain (m : AllFieldMetadata) (t n : string)
    (info : FieldProfileInfo) :
  plain_name n = true → is_field t →
  ∃ m', exec_set_field_metadata m t n info = Ok m'.
Proof.
  intros Hn [-> | ->]; unfold exec_set_field_metadata; rewrite Hn; simpl; eauto.
Qed.

(** With a plain name, whether the assignment returns depends neither on
    the maps nor on the record. *)
Lemma exec_set_field_metadata_alone (m m0 : AllFieldMetadata) (t n : string)
    (info info0 : FieldProfileInfo) :
  plain_name n = true →
  is_ok (exec_set_field_metadata m t n info)
  = is_ok (exec_set_field_metadata m0 t n info0).
Proof.
  intros Hn. unfold exec_set_field_metadata. rewrite Hn.
  destruct (String.eqb t "features"); [done|].
  destruct (String.eqb t "references"); [done|].
  by destruct (setitem_on_attribute t).
Qed.

(** Loops over links whose body, on a metadata link, stores a record
    [info] with [gives link info] under the pair the relation unpacks to,
    and otherwise leaves the maps alone: the two profile loaders. *)
Section LastWins.
Variable step : AllFieldMetadata → Link → result AllFieldMetadata.
Variable gives : Link → FieldProfileInfo → Prop.
Hypothesis step_shape :
  ∀ m link m', step m link = Ok m' →
    if startswith (rel link) "metadata"
    then ∃ t n info, unpack_rel (rel link) = Ok (t, n) ∧ gives link info ∧
                     exec_set_field_metadata m t n info = Ok m'
    else m' = m.

(** What a round on a link with a plain name does to the entries. *)
Lemma plain_step (m m' : AllFieldMetadata) (l : Link) :
  step m l = Ok m' → plain_link l = true →
  if startswith (rel l) "metadata"
  then ∃ t n info, unpack_rel (rel l) = Ok (t, n) ∧ gives l info ∧
         (is_field t → lookup_field m' t n = Some info) ∧
         (∀ t' n', (t', n') ≠ (t, n) → lookup_field m' t' n' = lookup_field m t' n')
  else m' = m.
Proof.
  intros Hstep Hplain. apply step_shape in Hstep.
  destruct (startswith (rel l) "metadata") eqn:Hmeta; [|done].
  destruct Hstep as (t & n & info & Hunpack & Hgives & Hset).
  pose proof (plain_link_name l t n Hplain Hmeta Hunpack) as Hn.
  destruct (exec_set_field_metadata_Ok _ _ _ _ _ Hn Hset) as (Hhere & Hother & _).
  by exists t, n, info.
Qed.

Lemma loop_keeps_entry (t n : string) (post : list Link) :
  ∀ m m', foldM step m post = Ok m' →
    Forall (λ l, plain_link l = true) post →
    (∀ l', l' ∈ post → startswith (rel l') "metadata" = true →
           unpack_rel (rel l') ≠ Ok (t, n)) →
    lookup_field m' t n = lookup_field m t n.
Proof.
  induction post as [|l post IH]; intros m m' Hrun Hplain Hlater; simpl in Hrun.
  - by injection Hrun as <-.
  - destruct (step m l) as [m1|e] eqn:Hstep; [|done]. simpl in Hrun.
    apply Forall_cons in Hplain as [Hl Hpost].
    rewrite (IH m1 m' Hrun Hpost)
      by (intros l' Hl'; apply Hlater, elem_of_cons; by right).
    pose proof (plain_step m m1 l Hstep Hl) as Hshape.
    destruct (startswith (rel l) "metadata") eqn:Hmeta; [|by subst].
    destruct Hshape as (t' & n' & info & Hunpack & _ & _ & Hother).
    apply Hother. intros [= -> ->].
    apply (Hlater l); [apply elem_of_cons; by left|done|done].
Qed.

Lemma loop_last_wins (t n : string) (pre post : list Link) (l : Link)
    (m0 m : AllFieldMetadata) :
  foldM step m0 (pre ++ l :: post) = Ok m →
  Forall (λ l, plain_link l = true) (l :: post) →
  startswith (rel l) "metadata" = true →
  unpack_rel (rel l) = Ok (t, n) → is_field t →
  (∀ l', l' ∈ post → startswith (rel l') "metadata" = true →
         unpack_rel (rel l') ≠ Ok (t, n)) →
  ∃ info, gives l info ∧ lookup_field m t n = Some info.
Proof.
  intros Hrun Hplain Hmeta Hunpack Hfield Hlater. rewrite foldM_app in Hrun.
  apply Forall_cons in Hplain as [Hl Hpost].
  destruct (foldM step m0 pre) as [m1|e]; [|done]. simpl in Hrun.
  destruct (step m1 l) as [m2|e] eqn:Hstep; [|done]. simpl in Hrun.
  rewrite (loop_keeps_entry t n post m2 m Hrun Hpost Hlater).
  pose proof (plain_step m1 m2 l Hstep Hl) as Hshape. rewrite Hmeta in Hshape.
  destruct Hshape as (t' & n' & info & Hunpack' & Hgives & Hhere & _).
  rewrite Hunpack in Hunpack'. injection Hunpack' as <- <-.
  exists info. split; [done|]. by apply Hhere.
Qed.


(** An entry of the maps at the end was there at the start or was stored
    for a metadata link. *)
Lemma loop_entries_from_links (links : list Link) :
  Forall (λ l, plain_link l = true) links →
  ∀ m0 m, foldM step m0 links = Ok m →
    ∀ t n info, lookup_field m t n = Some info →
      lookup_field m0 t n = Some info ∨
      ∃ link, link ∈ links ∧ startswith (rel link) "metadata" = true ∧
              unpack_rel (rel link) = Ok (t, n) ∧ gives link info.
Proof.
  induction links as [|l links IH]; intros Hplain m0 m Hrun t n info Hentry.
  - simpl in Hrun. injection Hrun as <-. by left.
  - simpl in Hrun. destruct (step m0 l) as [m1|e] eqn:Hstep; [|done]. simpl in Hrun.
    apply Forall_cons in Hplain as [Hl Hlinks].
    destruct (IH Hlinks m1 m Hrun t n info Hentry) as [Hm1|(link & Hlink & Hrest)].
    + pose proof (plain_step m0 m1 l Hstep Hl) as Hshape.
      destruct (startswith (rel l) "metadata") eqn:Hmeta; [|subst; by left].
      destruct Hshape as (t' & n' & info' & Hunpack & Hgives & Hhere & Hother).
      destruct (decide ((t, n) = (t', n'))) as [[= <- <-]|Hne].
      * right. exists l.
        rewrite (Hhere (lookup_field_is_field m1 t n info Hm1)) in Hm1.
        injection Hm1 as <-. split; [apply elem_of_cons; by left|done].
      * left. by rewrite <- (Hother t n Hne).
    + right. exists link. split; [apply elem_of_cons; by right|done].
Qed.

End LastWins.

End FieldMaps.

(** ** Loading a catalog *)

Section LoaderFacts.
Import TdsStacIo.
Context `{Runtime}.

Lemma g_profile_step_shape (fs : FS) (folder : Path) :
  ∀ m link m', g_profile_step fs folder m link = Ok m' →
    if startswith (rel link) "metadata"
    then ∃ t n info, unpack_rel (rel link) = Ok (t, n) ∧ g_gives fs folder link info ∧
                     exec_set_field_metadata m t n info = Ok m'
    else m' = m.
Proof.
  intros m link m'. unfold g_profile_step, g_gives.
  destruct (startswith (rel link) "metadata"); [|by intros [= <-]].
  destruct (unpack_rel (rel link)) as [[t n]|e]; [simpl|done].
  destruct (open_json cwd fs (resolve_href folder (href link))) as [d|e] eqn:Hopen;
    [simpl|done].
  destruct (hasattr_FieldSchema t); [simpl|done].
  intros Hset. exists t, n. eexists. split; [done|]. split; [|exact Hset].
  exists d. split; [first [exact Hopen|reflexivity]|reflexivity].
Qed.

Lemma aoi_profile_step_shape (fs : FS) (folder : Path) :
  ∀ m link m', aoi_profile_step fs folder m link = Ok m' →
    if startswith (rel link) "metadata"
    then ∃ t n info, unpack_rel (rel link) = Ok (t, n) ∧ aoi_gives fs folder link info ∧
                     exec_set_field_metadata m t n info = Ok m'
    else m' = m.
Proof.
  intros m link m'. unfold aoi_profile_step, aoi_gives.
  destruct (startswith (rel link) "metadata"); [|by intros [= <-]].
  destruct (unpack_rel (rel link)) as [[t n]|e]; [simpl|done].
  destruct (open_json cwd fs (resolve_href folder (href link))) as [d|e] eqn:Hopen;
    [simpl|done].
  destruct (hasattr_FieldSchema t); [simpl|done].
  destruct (parse_asset fs folder (resolve_href folder (href link)) d)
    as [[ap ai]|e] eqn:Hasset; [simpl|done].
  intros Hset. exists t, n. eexists. split; [done|]. split; [|exact Hset].
  exists d, ap, ai.
  split_and!; [first [exact Hopen|reflexivity]|first [exact Hasset|reflexivity]|reflexivity].
Qed.


Lemma parse_asset_Ok (fs : FS) (folder p : Path) (d : doc) (r : Path * AssetInfo) :
  parse_asset fs folder p d = Ok r →
  ∃ assets, get_assets d = Ok assets ∧ size assets = 1%nat.
Proof.
  unfold parse_asset. destruct (get_assets d) as [assets|e]; [simpl|done].
  destruct (Nat.eqb_spec (size assets) 1); [|done]. eauto.
Qed.




(** With a plain name, whether a round returns does not depend on the
    maps it starts from. *)
Lemma profile_steps_alone (fs : FS) (folder : Path) (m m0 : AllFieldMetadata)
    (link : Link) :
  plain_link link = true →
  is_ok (g_profile_step fs folder m link) = is_ok (g_profile_step fs folder m0 link) ∧
  is_ok (aoi_profile_step fs folder m link) = is_ok (aoi_profile_step fs folder m0 link).
Proof.
  intros Hplain. unfold g_profile_step, aoi_profile_step.
  destruct (startswith (rel link) "metadata") eqn:Hmeta; [|done].
  destruct (unpack_rel (rel link)) as [[t n]|e] eqn:Hunpack; [|done].
  pose proof (plain_link_name link t n Hplain Hmeta Hunpack) as Hn.
  cbn [mbind result_bind].
  destruct (open_json cwd fs (resolve_href folder (href link))) as [d|e]; [|done].
  cbn [mbind result_bind].
  destruct (hasattr_FieldSchema t); [|done]. cbn [negb].
  split; [by apply exec_set_field_metadata_alone|].
  destruct (parse_asset fs folder (resolve_href folder (href link)) d)
    as [[ap ai]|e]; [|done].
  cbn [mbind result_bind]. by apply exec_set_field_metadata_alone.
Qed.

(** A loop whose rounds return or not whatever the state returns exactly
    when each round does, taken alone. *)
Lemma foldM_is_ok_alone {A B : Type} (f : A → B → result A) (a0 : A) (l : list B) :
  (∀ a b, b ∈ l → is_ok (f a b) = is_ok (f a0 b)) →
  ∀ a, is_ok (foldM f a l) = forallb (λ b, is_ok (f a0 b)) l.
Proof.
  induction l as [|b l IH]; intros Halone a; simpl; [done|].
  rewrite <- (Halone a b) by (apply elem_of_cons; by left).
  destruct (f a b) as [a1|e]; simpl; [|done].
  apply IH. intros a' b' Hb'. apply Halone, elem_of_cons. by right.
Qed.


Lemma parse_g_profile_info_Ok (fs : FS) (root : TDSRootCtlInfo) (g : AllFieldMetadata) :
  parse_g_profile_info fs root = Ok g →
  ∃ links,
    get_links (tds_root_metadata_d root) = Ok links ∧
    foldM (g_profile_step fs (parent (absolute cwd (root_fn_path root))))
      (mkAllFieldMetadata ∅ ∅) links = Ok g.
Proof.
  unfold parse_g_profile_info.
  destruct (get_field_schema (tds_root_metadata_d root)); [simpl|done].
  destruct (get_links (tds_root_metadata_d root)) as [links|e]; [simpl|done].
  eauto.
Qed.

Lemma parse_aoi_profile_info_Ok (fs : FS) (aoi : AOICollectionInfo)
    (root : TDSRootCtlInfo) (m : AllFieldMetadata) :
  parse_aoi_profile_info fs aoi root = Ok m →
  ∃ links,
    get_links (aoi_collection_metadata_d aoi) = Ok links ∧
    foldM (aoi_profile_step fs (parent (absolute cwd (aoi_fn_path aoi))))
      (mkAllFieldMetadata ∅ ∅) links = Ok m.
Proof.
  unfold parse_aoi_profile_info.
  destruct (get_field_schema (tds_root_metadata_d root)); [simpl|done].
  destruct (get_links (aoi_collection_metadata_d aoi)) as [links|e]; [simpl|done].
  eauto.
Qed.






End LoaderFacts.

Section LoaderTheorems.
Import TdsStacIo.
Context `{Runtime}.



(** C8, as the code has it. In a document whose field names are all
    plain a collision is no event of its own. Whether a loader returns
    is decided link by link, each taken alone from the empty maps, so
    that a link which repeats the type and name of an earlier one fails
    no load; and of the metadata links that unpack to the same field
    type and name the last one decides the entry: the map returned by
    the global loader holds, under that name, the record of the last
    such link, and so does the map returned by the AOI loader. The
    loaders return the maps and nothing besides. *)
Theorem C8_last_link_decides :
  (∀ fs root s links,
     get_field_schema (tds_root_metadata_d root) = Ok s →
     get_links (tds_root_metadata_d root) = Ok links →
     Forall (λ l, plain_link l = true) links →
     is_ok (parse_g_profile_info fs root)
     = forallb (λ l, is_ok (g_profile_step fs
                              (parent (absolute cwd (root_fn_path root)))
                              (mkAllFieldMetadata ∅ ∅) l)) links) ∧
  (∀ fs root g pre l post t n,
     parse_g_profile_info fs root = Ok g →
     get_links (tds_root_metadata_d root) = Ok (pre ++ l :: post) →
     Forall (λ l, plain_link l = true) (pre ++ l :: post) →
     startswith (rel l) "metadata" = true →
     unpack_rel (rel l) = Ok (t, n) → is_field t →
     (∀ l', l' ∈ post → startswith (rel l') "metadata" = true →
            unpack_rel (rel l') ≠ Ok (t, n)) →
     ∃ info,
       g_gives fs (parent (absolute cwd (root_fn_path root))) l info ∧
       lookup_field g t n = Some info) ∧
  (∀ fs aoi root s links,
     get_field_schema (tds_root_metadata_d root) = Ok s →
     get_links (aoi_collection_metadata_d aoi) = Ok links →
     Forall (λ l, plain_link l = true) links →
     is_ok (parse_aoi_profile_info fs aoi root)
     = forallb (λ l, is_ok (aoi_profile_step fs
                              (parent (absolute cwd (aoi_fn_path aoi)))
                              (mkAllFieldMetadata ∅ ∅) l)) links) ∧
  (∀ fs aoi root m pre l post t n,
     parse_aoi_profile_info fs aoi root = Ok m →
     get_links (aoi_collection_metadata_d aoi) = Ok (pre ++ l :: post) →
     Forall (λ l, plain_link l = true) (pre ++ l :: post) →
     startswith (rel l) "metadata" = true →
     unpack_rel (rel l) = Ok (t, n) → is_field t →
     (∀ l', l' ∈ post → startswith (rel l') "metadata" = true →
            unpack_rel (rel l') ≠ Ok (t, n)) →
     ∃ info,
       aoi_gives fs (parent (absolute cwd (aoi_fn_path aoi))) l info ∧
       lookup_field m t n = Some info).
Proof.
  split_and!.
  - intros fs root s links Hs Hlinks Hplain. unfold parse_g_profile_info.
    rewrite Hs, Hlinks. cbn [mbind result_bind].
    apply foldM_is_ok_alone. intros a b Hb.
    rewrite Forall_forall in Hplain.
    exact (proj1 (profile_steps_alone fs _ a _ b (Hplain b Hb))).
  - intros fs root g pre l post t n Hg Hlinks Hplain Hmeta Hunpack Hfield Hlater.
    apply parse_g_profile_info_Ok in Hg as (links & Hlinks' & Hrun).
    rewrite Hlinks in Hlinks'. injection Hlinks' as <-.
    apply Forall_app in Hplain as [_ Hplain].
    exact (loop_last_wins _ _ (g_profile_step_shape fs _) t n pre post l _ g
             Hrun Hplain Hmeta Hunpack Hfield Hlater).
  - intros fs aoi root s links Hs Hlinks Hplain. unfold parse_aoi_profile_info.
    rewrite Hs, Hlinks. cbn [mbind result_bind].
    apply foldM_is_ok_alone. intros a b Hb.
    rewrite Forall_forall in Hplain.
    exact (proj2 (profile_steps_alone fs _ a _ b (Hplain b Hb))).
  - intros fs aoi root m pre l post t n Hm Hlinks Hplain Hmeta Hunpack Hfield Hlater.
    apply parse_aoi_profile_info_Ok in Hm as (links & Hlinks' & Hrun).
    rewrite Hlinks in Hlinks'. injection Hlinks' as <-.
    apply Forall_app in Hplain as [_ Hplain].
    exact (loop_last_wins _ _ (aoi_profile_step_shape fs _) t n pre post l _ m
             Hrun Hplain Hmeta Hunpack Hfield Hlater).
Qed.

End LoaderTheorems.



(** Of the two colliding links of the sample, the later one is in the map. *)
Lemma C8_last_link_decides_witness :
  ∃ g info,
    @TdsStacIo.parse_g_profile_info sample_runtime good_fs (root_info_with colliding_links)
      = Ok g ∧
    TdsStacIo.lookup_field g "features" "input1" = Some info ∧
    TdsStacIo.fn_path info = Path_of "/tds/b.json".
Proof.
  destruct (@TdsStacIo.parse_g_profile_info sample_runtime good_fs
              (root_info_with colliding_links)) as [g|e] eqn:Hg.
  - destruct (proj1 (proj2 (@C8_last_link_decides sample_runtime))
                good_fs (root_info_with colliding_links) g
                [feature_link "./a.json"] (feature_link "./b.json") []
                "features"%string "input1"%string Hg eq_refl)
      as (info & (d & _ & Hinfo) & Hlookup).
    + repeat constructor.
    + reflexivity.
    + reflexivity.
    + by left.
    + intros l' Hl'. by apply elem_of_nil in Hl'.
    + exists g, info. split; [reflexivity|]. split; [exact Hlookup|].
      rewrite Hinfo. reflexivity.
  - vm_compute in Hg. discriminate Hg.
Defined.

(** C8 as stated fails. The root document of the first tree has two
    links for the feature [input1], to [a.json] and then to [b.json]; the
    root document of the second has the link to [b.json] alone. Both loads
    return normally, with the same field-metadata maps (the entry is the
    record of [b.json]), the same AOIs, the same flags and the same field
    schema: what the caller gets after the collision is what it gets
    without it, and the loaders return nothing besides. *)
Lemma C8_silent_overwrite_counterexample :
  let collide := sample_fs (child_link :: colliding_links) [feature_link "./p.json"] one_asset in
  let alone := sample_fs (child_link :: later_link_alone) [feature_link "./p.json"] one_asset in
  TdsStacIo.unpack_rel (TdsStacIo.rel (feature_link "./a.json"))
  = TdsStacIo.unpack_rel (TdsStacIo.rel (feature_link "./b.json")) ∧
  ∃ c2 c1 r2 r1 g info,
    @TdsStacIo.from_TDSCatalog sample_runtime collide "/tds/catalog.json" = Ok c2 ∧
    @TdsStacIo.from_TDSCatalog sample_runtime alone "/tds/catalog.json" = Ok c1 ∧
    TdsStacIo.tds_ctl_root_info c2 = Some r2 ∧
    TdsStacIo.tds_ctl_root_info c1 = Some r1 ∧
    TdsStacIo.g_all_field_metadata r2 = Some g ∧
    TdsStacIo.g_all_field_metadata r1 = Some g ∧
    TdsStacIo.lookup_field g "features" "input1" = Some info ∧
    TdsStacIo.fn_path info = Path_of "/tds/b.json" ∧
    TdsStacIo.aoi_collection_info_l c2 = TdsStacIo.aoi_collection_info_l c1 ∧
    TdsStacIo.field_schema c2 = TdsStacIo.field_schema c1 ∧
    (TdsStacIo.valid_tds_root c2, TdsStacIo.valid_tds c2, TdsStacIo.valid_field_schema c2)
    = (TdsStacIo.valid_tds_root c1, TdsStacIo.valid_tds c1, TdsStacIo.valid_field_schema c1).
Proof.
  intros collide alone. split; [reflexivity|].
  do 6 eexists. split_and!; vm_compute; reflexivity.
Qed.

(** ** Writing a catalog *)

Section WriterTheorems.
Import TdsStacIo.
Context `{Runtime}.
Variable write_documents : DatasetSTACCatalog → FS → Path → string → FS * result unit.

(** [mkdir(parents=True)] on a path that exists changes nothing and
    raises. *)
Lemma mkdir_parents_exists (fs : FS) (p : Path) :
  exists_ cwd fs p = true →
  mkdir_parents cwd fs p = (fs, Raise (FileExistsError (path_str p))).
Proof.
  unfold exists_, mkdir_parents. by destruct (fs !! fs_key cwd p).
Qed.

(** On a path that does not exist and is not below a regular file, it
    makes the directory. *)
Lemma mkdir_parents_fresh (fs : FS) (p : Path) :
  exists_ cwd fs p = false →
  existsb (is_regular fs) (ancestors (fs_key cwd p)) = false →
  ∃ fs', mkdir_parents cwd fs p = (fs', Ok tt) ∧ fs' !! fs_key cwd p = Some Dir.
Proof.
  unfold exists_, mkdir_parents. intros Hnew Hanc.
  destruct (fs !! fs_key cwd p); [done|]. rewrite Hanc.
  eexists. split; [done|]. apply lookup_insert_eq.
Qed.

(** C9. When the directory that is to hold the root document exists, the
    write raises and leaves the file system as it was: the assertion
    fails on a catalog that is not valid, and otherwise making the
    directory fails with [FileExistsError]; nothing is written. *)
Theorem C9_write_refuses_existing_root (self : DatasetSTACCatalog) (fs : FS)
    (catalog_fn_w_path : string) :
  let tds_catalog_root_folder := parent (Path_of catalog_fn_w_path) in
  exists_ cwd fs tds_catalog_root_folder = true →
  ∃ e,
    write_TDS_STAC_Catalog write_documents self fs catalog_fn_w_path = (fs, Raise e) ∧
    (valid_tds self = true → e = FileExistsError (path_str tds_catalog_root_folder)) ∧
    (valid_tds self = false → e = AssertionError).
Proof.
  intros folder Hexists. unfold write_TDS_STAC_Catalog.
  destruct (valid_tds self); simpl.
  - fold folder. rewrite (mkdir_parents_exists fs folder Hexists).
    eexists. split; [done|]. split; done.
  - eexists. split; [done|]. split; done.
Qed.

(** On a valid catalog and a fresh directory, the directory is made and
    the documents are written into it. *)
Lemma write_into_fresh_root (self : DatasetSTACCatalog) (fs : FS)
    (catalog_fn_w_path : string) :
  let tds_catalog_root_folder := parent (Path_of catalog_fn_w_path) in
  valid_tds self = true →
  exists_ cwd fs tds_catalog_root_folder = false →
  existsb (is_regular fs) (ancestors (fs_key cwd tds_catalog_root_folder)) = false →
  ∃ fs',
    fs' !! fs_key cwd tds_catalog_root_folder = Some Dir ∧
    write_TDS_STAC_Catalog write_documents self fs catalog_fn_w_path
    = write_documents self fs' tds_catalog_root_folder (name (Path_of catalog_fn_w_path)).
Proof.
  intros folder Hvalid Hnew Hanc. unfold write_TDS_STAC_Catalog.
  rewrite Hvalid. simpl. fold folder.
  destruct (mkdir_parents_fresh fs folder Hnew Hanc) as (fs' & -> & Hdir).
  by exists fs'.
Qed.

End WriterTheorems.

(** Writing the sample catalog back into [/tds], which exists. *)
Lemma C9_write_refuses_existing_root_witness :
  exists_ (@TdsStacIo.cwd sample_runtime) good_fs (parent (Path_of "/tds/catalog.json")) = true ∧
  @TdsStacIo.write_TDS_STAC_Catalog sample_runtime write_nothing
    (catalog_with_keys ["a"; "c"]%string) good_fs "/tds/catalog.json"
  = (good_fs, Raise (FileExistsError "/tds")).
Proof.
  split; [reflexivity|].
  destruct (@C9_write_refuses_existing_root sample_runtime write_nothing
              (catalog_with_keys ["a"; "c"]%string) good_fs "/tds/catalog.json" eq_refl)
    as (e & Hwrite & Hvalid & _).
  rewrite Hwrite, (Hvalid eq_refl). reflexivity.
Defined.

(** * Further properties of the facade *)

Section FacadeMore.
Import Core.
Context {Example : Type}.
Local Abbreviation AOI := (AOIDataset Example).

(** X1. [get_subset] returns the examples of the given indices in the
    given order, one per index, an index given twice being answered
    twice; it returns only if [get_example] returns for every index, and
    one failing index makes the whole call raise. *)
Theorem X1_get_subset_keeps_order (self : EOTrainingDataset Example) (index_arr : list Z) :
  (∀ es, get_subset self index_arr = Ok es ↔
         Forall2 (λ i e, get_example self i = Ok e) index_arr es) ∧
  (∀ es, get_subset self index_arr = Ok es → length es = length index_arr) ∧
  (∀ i e0, i ∈ index_arr → get_example self i = Raise e0 →
           ∃ e, get_subset self index_arr = Raise e).
Proof.
  assert (∀ es, get_subset self index_arr = Ok es ↔
                Forall2 (λ i e, get_example self i = Ok e) index_arr es) as Hiff.
  { induction index_arr as [|i rest IH]; intros es; simpl.
    - split; [intros [= <-]; constructor|intros Hall; by inversion Hall].
    - destruct (get_example self i) as [e|err] eqn:Hi; simpl.
      + destruct (get_subset self rest) as [es'|err] eqn:Hrest; simpl.
        * split.
          -- intros [= <-]. constructor; [done|]. by apply IH.
          -- intros Hall. inversion Hall as [|? e1 ? es1 He1 Hes1]; subst.
             apply IH in Hes1. congruence.
        * split; [done|]. intros Hall.
          inversion Hall as [|? e1 ? es1 He1 Hes1]; subst.
          apply IH in Hes1. congruence.
      + split; [done|]. intros Hall. inversion Hall; congruence. }
  split; [exact Hiff|]. split.
  - intros es Hes. apply Hiff in Hes. symmetry. by eapply Forall2_length.
  - intros i e0 Hi Hraise.
    destruct (get_subset self index_arr) as [es|e]; [|by eauto].
    pose proof (proj1 (Hiff es) eq_refl) as Hrun.
    apply list_elem_of_lookup in Hi as [k Hk].
    destruct (Forall2_lookup_l _ _ _ _ _ Hrun Hk) as (e & _ & He). congruence.
Qed.

(** X2. On a facade built over AOI datasets with non-negative counts,
    every example of every AOI is reachable: example [j] of AOI [k], for
    [0 <= j < c_k], is what [__getitem__] returns at the global index
    [offset k + j], which is below the length; and for a global index in
    range the local index handed to the AOI dataset is always within
    [0, c_k). *)
Theorem X2_every_local_example_is_reachable (ds : list AOI) :
  nonneg_counts ds →
  sum_counts (counts ds) < 2 ^ 63 →
  ∃ tds,
    init ds = Ok tds ∧
    (∀ k d j, ds !! k = Some d → 0 <= j < get_length d →
       0 <= offset ds k + j < tds_len tds ∧
       tds_getitem tds (offset ds k + j) = aoi_getitem d j) ∧
    (∀ i, 0 <= i < tds_len tds →
       ∃ k d, ds !! k = Some d ∧ 0 <= i - offset ds k < get_length d ∧
              tds_getitem tds i = aoi_getitem d (i - offset ds k)).
Proof.
  intros Hds Hsum.
  destruct (compute_ds_length_ok ds Hds Hsum) as (tbl & Hrun & Hlen & Htbl).
  exists (mkTDS ds (sum_counts (counts ds)) tbl).
  split; [unfold init; by rewrite Hrun|]. simpl.
  assert (∀ k d i, ds !! k = Some d → offset ds k <= i < offset ds (S k) →
            tds_getitem (mkTDS ds (sum_counts (counts ds)) tbl) i
            = aoi_getitem d (i - offset ds k)) as Hget.
  { intros k d i Hd Hi. pose proof (offset_nonneg ds k Hds).
    rewrite <- (Z2Nat.id i) at 1 by lia.
    apply tds_getitem_cell with k; [|done].
    assert (k < length ds)%nat as Hk by (by eapply lookup_lt_Some).
    rewrite (Htbl k (Z.to_nat i) Hk) by (rewrite Z2Nat.id; lia).
    rewrite Z2Nat.id by lia. done. }
  split.
  - intros k d j Hd Hj.
    pose proof (offset_S ds k d Hd) as HS.
    pose proof (offset_nonneg ds k Hds).
    pose proof (offset_le_total ds (S k) Hds).
    split; [lia|].
    rewrite (Hget k d (offset ds k + j) Hd) by lia. f_equal. lia.
  - intros i Hi.
    destruct (offset_locate ds i Hi) as (k & Hk & Hik).
    destruct (lookup_lt_is_Some_2 ds k Hk) as [d Hd].
    exists k, d. split; [done|].
    pose proof (offset_S ds k d Hd) as HS.
    split; [lia|]. by apply Hget.
Qed.

End FacadeMore.

Lemma X2_every_local_example_is_reachable_witness :
  Core.nonneg_counts two_aois ∧
  Core.sum_counts (Core.counts two_aois) < 2 ^ 63 ∧
  ∃ tds, Core.init two_aois = Ok tds ∧ Core.tds_getitem tds 7 = Ok 104.
Proof.
  split; [exact two_aois_nonneg|]. split; [done|].
  destruct (X2_every_local_example_is_reachable two_aois two_aois_nonneg eq_refl)
    as (tds & Hinit & Hreach & _).
  exists tds. split; [exact Hinit|].
  exact (proj2 (Hreach 1%nat (Core.mkAOIDataset 5 (λ j, Ok (100 + j))) 4
                  eq_refl ltac:(simpl; lia))).
Defined.

(** * Further properties of the pilot datasets *)

Section WindowsMore.

Lemma int_truediv_nonzero (a b : Z) :
  b ≠ 0 → Z.abs a < 2 ^ 53 → int_truediv a b = Ok (Z.quot a b).
Proof.
  intros Hb Ha. unfold int_truediv. destruct (Z.eqb_spec b 0); [done|].
  by destruct (Z.ltb_spec (Z.abs a) (2 ^ 53)); [|lia].
Qed.

(** The counts along the axes of a SpaceNet stack whose images hold at
    least one window. *)
Lemma spacenet_ceilings (dates : list string) (bands W H S St : Z) :
  0 < St → S <= W → S <= H → W - S < 2 ^ 53 → H - S < 2 ^ 53 →
  let d := SpaceNet7.mkSpaceNet dates [bands; W; H] S St in
  SpaceNet7.x1_ceiling d (SpaceNet7.image_shape d) = Ok ((W - S) / St + 1) ∧
  SpaceNet7.y1_ceiling d (SpaceNet7.image_shape d) = Ok ((H - S) / St + 1) ∧
  0 < (W - S) / St + 1 ∧ 0 < (H - S) / St + 1.
Proof.
  intros HSt HW HH HWb HHb d. unfold SpaceNet7.x1_ceiling, SpaceNet7.y1_ceiling. simpl.
  rewrite !int_truediv_floor by lia. simpl.
  pose proof (Z.div_pos (W - S) St ltac:(lia) HSt).
  pose proof (Z.div_pos (H - S) St ltac:(lia) HSt).
  split_and!; [done|done|lia|lia].
Qed.

(** The window of an index in range, with its column and row. *)
Lemma spacenet_getitem_in_range (dates : list string) (bands W H S St i : Z) :
  0 < St → S <= W → S <= H → W - S < 2 ^ 53 → H - S < 2 ^ 53 →
  let d := SpaceNet7.mkSpaceNet dates [bands; W; H] S St in
  let T := Z.of_nat (length dates) in
  let per := ((W - S) / St + 1) * ((H - S) / St + 1) in
  T * per <= 2 ^ 53 →
  0 <= i < T * per →
  ∃ t col row,
    SpaceNet7.spacenet_getitem d i
    = Ok (mkWindow (Some t) (St * col) (St * row) (St * col + S) (St * row + S)) ∧
    0 <= t < T ∧
    0 <= St * col ∧ St * col + S <= W ∧
    0 <= St * row ∧ St * row + S <= H ∧
    i = t * per + row * ((W - S) / St + 1) + col.
Proof.
  intros HSt HW HH HWb HHb d T per Hbound Hi.
  destruct (spacenet_ceilings dates bands W H S St HSt HW HH HWb HHb)
    as (Hxc & Hyc & Hxpos & Hypos).
  fold d in Hxc, Hyc.
  pose proof (Z.mul_div_le (W - S) St HSt) as HWle.
  pose proof (Z.mul_div_le (H - S) St HSt) as HHle.
  set (xc := (W - S) / St + 1) in *. set (yc := (H - S) / St + 1) in *.
  assert (per = xc * yc) as Hper_eq by done.
  assert (0 < per) as Hper by nia.
  rewrite (spacenet_getitem_as_specified d xc yc i Hxc Hyc Hxpos Hbound Hi).
  unfold Spec.window_of_index. rewrite <- Hper_eq.
  simpl SpaceNet7.stride. simpl SpaceNet7.window_size.
  clear Hbound. clearbody per T. clear Hxc Hyc.
  set (t := i / per). set (r := i - t * per).
  assert (r = i mod per) as Hr by (unfold r, t; rewrite Z.mod_eq by lia; lia).
  pose proof (Z.mod_pos_bound i per Hper) as Hrb. rewrite <- Hr in Hrb.
  pose proof (Z.mod_pos_bound r xc Hxpos) as Hcol.
  pose proof (Z.div_pos r xc ltac:(lia) Hxpos) as Hrow0.
  assert (r / xc < yc) as Hrow by (apply Z.div_lt_upper_bound; lia).
  assert (0 <= t < T) as Ht.
  { unfold t. split; [apply Z.div_pos; lia|apply Z.div_lt_upper_bound; nia]. }
  pose proof (Z.div_mod r xc ltac:(lia)) as Hdm.
  exists t, (r mod xc), (r / xc). split; [done|]. split; [done|].
  assert (r = i - t * per) as Hrdef by done.
  clearbody t r. unfold xc, yc in *.
  split; [nia|]. split; [nia|]. split; [nia|]. split; [nia|]. lia.
Qed.

(** X3. For a SpaceNet stack whose images are at least as large as the
    window, with a positive stride, and which holds at most [2^53]
    windows (the room beside the window below [2^53] pixels), every
    index in range gets a window that lies inside the image, at offsets
    that are multiples of the stride, on a timestep of the stack. *)
Theorem X3_spacenet_window_lies_inside (dates : list string) (bands W H S St i : Z) :
  0 < St → S <= W → S <= H → W - S < 2 ^ 53 → H - S < 2 ^ 53 →
  let d := SpaceNet7.mkSpaceNet dates [bands; W; H] S St in
  let T := Z.of_nat (length dates) in
  let per := ((W - S) / St + 1) * ((H - S) / St + 1) in
  T * per <= 2 ^ 53 →
  0 <= i < T * per →
  ∃ t col row,
    SpaceNet7.spacenet_getitem d i
    = Ok (mkWindow (Some t) (St * col) (St * row) (St * col + S) (St * row + S)) ∧
    0 <= t < T ∧
    0 <= St * col ∧ St * col + S <= W ∧
    0 <= St * row ∧ St * row + S <= H.
Proof.
  intros HSt HW HH HWb HHb d T per Hbound Hi.
  destruct (spacenet_getitem_in_range dates bands W H S St i HSt HW HH HWb HHb Hbound Hi)
    as (t & col & row & Hw & Ht & Hx1 & Hx2 & Hy1 & Hy2 & _).
  exists t, col, row. done.
Qed.

(** X4. Under the same conditions two different indices in range never
    get the same timestep and window. *)
Theorem X4_spacenet_windows_are_distinct (dates : list string) (bands W H S St i j : Z) :
  0 < St → S <= W → S <= H → W - S < 2 ^ 53 → H - S < 2 ^ 53 →
  let d := SpaceNet7.mkSpaceNet dates [bands; W; H] S St in
  let T := Z.of_nat (length dates) in
  let per := ((W - S) / St + 1) * ((H - S) / St + 1) in
  T * per <= 2 ^ 53 →
  0 <= i < T * per → 0 <= j < T * per →
  SpaceNet7.spacenet_getitem d i = SpaceNet7.spacenet_getitem d j →
  i = j.
Proof.
  intros HSt HW HH HWb HHb d T per Hbound Hi Hj Heq.
  destruct (spacenet_getitem_in_range dates bands W H S St i HSt HW HH HWb HHb Hbound Hi)
    as (t1 & c1 & r1 & Hw1 & _ & _ & _ & _ & _ & Hi1).
  destruct (spacenet_getitem_in_range dates bands W H S St j HSt HW HH HWb HHb Hbound Hj)
    as (t2 & c2 & r2 & Hw2 & _ & _ & _ & _ & _ & Hj1).
  fold d in Hw1, Hw2. rewrite Hw1, Hw2 in Heq.
  injection Heq as Ht Hc Hr _ _.
  apply Z.mul_reg_l in Hc; [|lia]. apply Z.mul_reg_l in Hr; [|lia].
  subst. done.
Qed.

(** X5. [AOIDatasetSpaceNet.__getitem__] refuses an index from the
    length on, by [sys.exit] and not by an [IndexError], and on a stack
    whose [__len__] is [2^63] or more it raises the [OverflowError] of
    [len(self)] for every index; below zero it refuses nothing: on a
    stack with a date (its length below [2^63], at most [2^53] windows
    per image) a negative index above minus the count per image gets a
    window of the first image, the column taken modulo the count along
    the first axis and the row truncated toward zero, so at an offset
    that is not positive. *)
Theorem X5_spacenet_checks_the_upper_bound_only :
  (∀ d n i, SpaceNet7.builtin_len d = Ok n → n <= i →
     SpaceNet7.spacenet_getitem d i = Raise (SystemExit "index out of range")) ∧
  (∀ d n i, SpaceNet7.spacenet_len d = Ok n → 2 ^ 63 <= n →
     SpaceNet7.spacenet_getitem d i = Raise OverflowError) ∧
  (∀ dates bands W H S St i,
     0 < St → S <= W → S <= H → dates ≠ [] →
     W - S < 2 ^ 53 → H - S < 2 ^ 53 →
     let d := SpaceNet7.mkSpaceNet dates [bands; W; H] S St in
     let xc := (W - S) / St + 1 in
     let per := xc * ((H - S) / St + 1) in
     Z.of_nat (length dates) * per < 2 ^ 63 → per <= 2 ^ 53 →
     - per < i < 0 →
     SpaceNet7.spacenet_getitem d i
     = Ok (mkWindow (Some 0) (St * (i mod xc)) (St * Z.quot i xc)
             (St * (i mod xc) + S) (St * Z.quot i xc + S)) ∧
     St * Z.quot i xc <= 0).
Proof.
  split_and!.
  - intros d n i Hn Hi. unfold SpaceNet7.spacenet_getitem. rewrite Hn. simpl.
    by destruct (Z.geb_spec i n); [|lia].
  - intros d n i Hn Hbig. unfold SpaceNet7.spacenet_getitem, SpaceNet7.builtin_len.
    rewrite Hn. cbn [mbind result_bind].
    destruct (Z.ltb_spec n 0); [lia|].
    by destruct (Z.leb_spec (2 ^ 63) n); [|lia].
  - intros dates bands W H S St i HSt HW HH Hdates HWb HHb d xc per Hlen Hper53 Hi.
    destruct (spacenet_ceilings dates bands W H S St HSt HW HH HWb HHb)
      as (Hxc & Hyc & Hxpos & Hypos).
    fold d in Hxc, Hyc. fold xc in Hxc, Hxpos.
    set (yc := (H - S) / St + 1) in *.
    assert (0 < per) as Hper by (unfold per; nia).
    assert (xc <= per) as Hxc_le by (unfold per; nia).
    destruct dates as [|date dates]; [done|].
    assert (SpaceNet7.feature_data_at d 0 = Ok [bands; W; H]) as Hsample by done.
    assert (Z.quot i per = 0) as Hquot.
    { rewrite <- (Z.opp_involutive i), Z.quot_opp_l by lia.
      rewrite Z.quot_small by lia. done. }
    assert (Z.quot i xc <= 0) as Hrow.
    { rewrite <- (Z.opp_involutive i), Z.quot_opp_l by lia.
      pose proof (Z.quot_pos (- i) xc ltac:(lia) Hxpos). lia. }
    split; [|nia].
    unfold SpaceNet7.spacenet_getitem, SpaceNet7.builtin_len, SpaceNet7.spacenet_len.
    rewrite Hsample. simpl SpaceNet7.image_shape in Hxc, Hyc.
    cbn [mbind result_bind]. rewrite Hxc, Hyc. cbn [mbind result_bind].
    fold per.
    set (T := Z.of_nat (length (SpaceNet7.timesteps d))).
    assert (0 < T) as HT by (unfold T; simpl; lia).
    assert (T * per < 2 ^ 63) as Hlen' by exact Hlen.
    destruct (Z.ltb_spec (T * per) 0) as [?|_]; [nia|].
    destruct (Z.leb_spec (2 ^ 63) (T * per)) as [?|_]; [lia|]. cbn [mbind result_bind].
    destruct (Z.geb_spec i (T * per)) as [?|_]; [nia|].
    rewrite (int_truediv_nonzero i per) by lia. cbn [mbind result_bind].
    rewrite Hquot, Hsample. cbn [mbind result_bind].
    rewrite Z.mul_0_l, Z.sub_0_r.
    rewrite py_mod_pos by done. cbn [mbind result_bind].
    rewrite (int_truediv_nonzero i xc) by lia. cbn [mbind result_bind]. done.
Qed.

(** X6. [AOIDatasetCAP.__getitem__] checks no range: when both counts
    along the axes are not zero every index between [-2^53] and [2^53],
    also one from the length on or below zero, gets a window, the column
    taken modulo the first count and the row by the second; when a count
    is zero the length is zero and every index raises
    [ZeroDivisionError]. *)
Theorem X6_cap_getitem_checks_no_range (d : CAP.AOIDatasetCAP) (ax ay : Z) :
  CAP.along_x d = Ok ax → CAP.along_y d = Ok ay →
  (ax ≠ 0 → ay ≠ 0 → ∀ i, - 2 ^ 53 < i < 2 ^ 53 →
     CAP.cap_getitem d i
     = Ok (mkWindow None (CAP.stride d * (i mod ax)) (CAP.stride d * Z.quot i ay)
             (CAP.stride d * (i mod ax) + CAP.window_size d)
             (CAP.stride d * Z.quot i ay + CAP.window_size d))) ∧
  (ax = 0 ∨ ay = 0 →
     CAP.cap_len d = Ok 0 ∧ ∀ i, CAP.cap_getitem d i = Raise ZeroDivisionError).
Proof.
  intros Hx Hy. unfold CAP.cap_getitem, CAP.cap_len. rewrite Hx, Hy.
  cbn [mbind result_bind]. split.
  - intros Hax Hay i Hi. unfold py_mod.
    destruct (Z.eqb_spec ax 0); [done|]. cbn [mbind result_bind].
    rewrite int_truediv_nonzero by lia. done.
  - intros Hzero. split; [f_equal; lia|]. intros i. unfold py_mod, int_truediv.
    destruct (Z.eqb_spec ax 0); [done|]. cbn [mbind result_bind].
    destruct (Z.eqb_spec ay 0); [done|lia].
Qed.

End WindowsMore.

Lemma X3_spacenet_window_lies_inside_witness :
  0 <= 17 < Z.of_nat (length ["2020-01"; "2020-02"]%string) * (4 * 4) ∧
  SpaceNet7.spacenet_getitem (spacenet_square ["2020-01"; "2020-02"]%string 4) 17
  = Ok (mkWindow (Some 1) 26 0 282 256).
Proof.
  split; [simpl; lia|].
  destruct (X3_spacenet_window_lies_inside ["2020-01"; "2020-02"]%string 4 356 356 256 26 17)
    as (t & col & row & Hw & _);
    [lia|lia|lia|lia|lia|vm_compute; discriminate
    |vm_compute; split; [discriminate|reflexivity]|].
  unfold spacenet_square. rewrite Hw. vm_compute in Hw. exact (eq_sym Hw).
Defined.

Lemma X4_spacenet_windows_are_distinct_witness :
  SpaceNet7.spacenet_getitem (spacenet_square ["2020-01"; "2020-02"]%string 4) 17
  ≠ SpaceNet7.spacenet_getitem (spacenet_square ["2020-01"; "2020-02"]%string 4) 1.
Proof.
  intros Heq.
  assert (17 = 1) as Habs; [|discriminate Habs].
  apply (X4_spacenet_windows_are_distinct ["2020-01"; "2020-02"]%string 4 356 356 256 26);
    [lia|lia|lia|lia|lia|vm_compute; discriminate
    |vm_compute; split; [discriminate|reflexivity]
    |vm_compute; split; [discriminate|reflexivity]|exact Heq].
Defined.

Lemma X5_spacenet_checks_the_upper_bound_only_witness :
  SpaceNet7.spacenet_getitem (spacenet_square ["2020-01"; "2020-02"]%string 4) 32
  = Raise (SystemExit "index out of range") ∧
  SpaceNet7.spacenet_getitem (spacenet_square ["2020-01"; "2020-02"]%string 4) (-1)
  = Ok (mkWindow (Some 0) 78 0 334 256).
Proof.
  split.
  - apply (proj1 X5_spacenet_checks_the_upper_bound_only _ 32); [reflexivity|lia].
  - apply (proj2 (proj2 X5_spacenet_checks_the_upper_bound_only)
             ["2020-01"; "2020-02"]%string 4 356 356 256 26 (-1));
      [lia|lia|lia|discriminate|lia|lia|vm_compute; reflexivity
      |vm_compute; discriminate|vm_compute; split; reflexivity].
Defined.

Lemma X6_cap_getitem_checks_no_range_witness :
  CAP.cap_len (cap_square 4) = Ok 9 ∧
  CAP.cap_getitem (cap_square 4) 9 = Ok (mkWindow None 0 78 256 334).
Proof.
  split; [reflexivity|].
  apply (proj1 (X6_cap_getitem_checks_no_range (cap_square 4) 3 3 eq_refl eq_refl));
    [discriminate|discriminate|lia].
Defined.

(** * Further properties of the requirement table and the ratings *)

Section RatingsMore.
Import TdsStacIo.

Lemma elem_of_tier_set (ext_metadata_req_d : gmap string string) (tier name : string) :
  name ∈ tier_set ext_metadata_req_d tier ↔ ext_metadata_req_d !! name = Some tier.
Proof.
  unfold tier_set. rewrite elem_of_dom. unfold is_Some. split.
  - intros [x Hx]. apply map_lookup_filter_Some in Hx as [Hx Htier].
    simpl in Htier. by subst.
  - intros Hname. exists tier. by apply map_lookup_filter_Some.
Qed.

(** X7. The requirement table built at import gives, for every extension
    of the configuration, three sets of names: a name is in the set of a
    tier exactly when the configuration gives it that tier, so the three
    sets are pairwise disjoint. *)
Theorem X7_requirement_tiers_are_disjoint
    (all_metadata_requirement_d : gmap string (gmap string string))
    (ext_name : string) (info : MetadataRequirementInfo) :
  build_ext_to_metadata_req_info_d all_metadata_requirement_d !! ext_name = Some info →
  ∃ ext_metadata_req_d,
    all_metadata_requirement_d !! ext_name = Some ext_metadata_req_d ∧
    (∀ name, name ∈ required_metadata_set info
             ↔ ext_metadata_req_d !! name = Some "required"%string) ∧
    (∀ name, name ∈ recommended_metadata_set info
             ↔ ext_metadata_req_d !! name = Some "recommended"%string) ∧
    (∀ name, name ∈ optional_metadata_set info
             ↔ ext_metadata_req_d !! name = Some "optional"%string) ∧
    required_metadata_set info ## recommended_metadata_set info ∧
    required_metadata_set info ## optional_metadata_set info ∧
    recommended_metadata_set info ## optional_metadata_set info.
Proof.
  unfold build_ext_to_metadata_req_info_d. rewrite lookup_fmap.
  destruct (all_metadata_requirement_d !! ext_name) as [ext_d|]; [|done].
  simpl. intros [= <-]. exists ext_d. simpl.
  split; [done|]. split; [apply elem_of_tier_set|].
  split; [apply elem_of_tier_set|]. split; [apply elem_of_tier_set|].
  split_and!; intros name H1 H2;
    apply elem_of_tier_set in H1; apply elem_of_tier_set in H2; congruence.
Qed.

(** As many names of the tier are keys as the tier has names exactly when
    every name of the tier is a key. *)
Lemma covered_iff_subseteq (present tier : gset string) :
  size (present ∩ tier) = size tier ↔ tier ⊆ present.
Proof.
  split.
  - intros Hsize.
    assert (present ∩ tier ≡ tier) as Heq
      by (apply set_subseteq_size_equiv; [set_solver|lia]).
    set_solver.
  - intros Hsub. f_equal. set_solver.
Qed.

(** X8. The compliance level of a validated catalog is decided by
    inclusion: it is at least 2 exactly when every recommended name is a
    key of the root document, and 3 exactly when every recommended and
    every optional name is; the required names play no part. *)
Theorem X8_compliance_level_by_inclusion
    (tbl : gmap string MetadataRequirementInfo) (self : DatasetSTACCatalog)
    (root : TDSRootCtlInfo) (req : MetadataRequirementInfo) :
  valid_tds self = true →
  tds_ctl_root_info self = Some root →
  tbl !! "aireo_tds_core"%string = Some req →
  let present : gset string := dom (tds_root_metadata_d root) in
  ∃ level,
    compute_compliance_level tbl self = Ok level ∧
    (2 <= level ↔ recommended_metadata_set req ⊆ present) ∧
    (level = 3 ↔ recommended_metadata_set req ∪ optional_metadata_set req ⊆ present) ∧
    (level = 1 ↔ ¬ recommended_metadata_set req ⊆ present).
Proof.
  intros Hvalid Hroot Hreq present.
  rewrite (compute_compliance_level_cases tbl self root req Hvalid Hroot Hreq).
  fold present. cbv beta.
  pose proof (covered_iff_subseteq present (recommended_metadata_set req)) as Hrec.
  pose proof (covered_iff_subseteq present (optional_metadata_set req)) as Hopt.
  assert (recommended_metadata_set req ∪ optional_metadata_set req ⊆ present
          ↔ recommended_metadata_set req ⊆ present ∧ optional_metadata_set req ⊆ present)
    as Hunion by set_solver.
  repeat case_decide; eexists; (split; [reflexivity|]); split_and!; intuition lia.
Qed.

(** X9. More keys never lower the level: of two validated catalogs rated
    against the same table, the one whose root document has all the keys
    of the other has a level at least as high. *)
Theorem X9_compliance_level_is_monotone
    (tbl : gmap string MetadataRequirementInfo) (c1 c2 : DatasetSTACCatalog)
    (r1 r2 : TDSRootCtlInfo) (l1 l2 : Z) :
  tds_ctl_root_info c1 = Some r1 →
  tds_ctl_root_info c2 = Some r2 →
  dom (tds_root_metadata_d r1) ⊆@{gset string} dom (tds_root_metadata_d r2) →
  compute_compliance_level tbl c1 = Ok l1 →
  compute_compliance_level tbl c2 = Ok l2 →
  l1 <= l2.
Proof.
  intros Hr1 Hr2 Hsub Hl1 Hl2.
  assert (valid_tds c1 = true) as Hv1.
  { unfold compute_compliance_level in Hl1. by destruct (valid_tds c1). }
  assert (valid_tds c2 = true) as Hv2.
  { unfold compute_compliance_level in Hl2. by destruct (valid_tds c2). }
  assert (∃ req, tbl !! "aireo_tds_core"%string = Some req) as [req Hreq].
  { unfold compute_compliance_level, get_tds_ctl_root_info, get_tds_core_req in Hl1.
    rewrite Hv1, Hr1 in Hl1. simpl in Hl1.
    destruct (tbl !! "aireo_tds_core"%string) as [req|]; [by eauto|done]. }
  rewrite (compute_compliance_level_cases tbl c1 r1 req Hv1 Hr1 Hreq) in Hl1.
  rewrite (compute_compliance_level_cases tbl c2 r2 req Hv2 Hr2 Hreq) in Hl2.
  cbv beta in Hl1, Hl2. injection Hl1 as <-. injection Hl2 as <-.
  pose proof (covered_iff_subseteq (dom (tds_root_metadata_d r1))) as H1.
  pose proof (covered_iff_subseteq (dom (tds_root_metadata_d r2))) as H2.
  repeat case_decide; try lia;
    exfalso;
    repeat match goal with
           | H : size _ = size _ |- _ => apply H1 in H
           | H : size _ ≠ size _ |- _ => rewrite H2 in H
           end; set_solver.
Qed.

(** X10. Every fraction of a completeness report lies between 0 and 1; it
    is 1 exactly when every name of the tier is a key of the root
    document, and 0 exactly when none is. *)
Theorem X10_completeness_fractions_are_bounded
    (tbl : gmap string MetadataRequirementInfo) (self : DatasetSTACCatalog)
    (root : TDSRootCtlInfo) (req : MetadataRequirementInfo) (r : MetadataCompleteness) :
  tds_ctl_root_info self = Some root →
  tbl !! "aireo_tds_core"%string = Some req →
  report_metadata_completeness tbl self = Ok r →
  let present : gset string := dom (tds_root_metadata_d root) in
  let spec (pct : Q) (tier : gset string) :=
    (0 <= pct)%Q ∧ (pct <= 1)%Q ∧
    ((pct == 1)%Q ↔ tier ⊆ present) ∧
    ((pct == 0)%Q ↔ tier ## present) in
  spec (pct_required_metadata r) (required_metadata_set req) ∧
  spec (pct_recommended_metadata r) (recommended_metadata_set req) ∧
  spec (pct_optional_metadata r) (optional_metadata_set req).
Proof.
  intros Hroot Hreq Hr present spec.
  destruct (report_Ok_tiers_nonempty tbl self root req r Hroot Hreq Hr)
    as (H1 & H2 & H3 & ->).
  fold present. simpl.
  assert (∀ tier : gset string, size tier ≠ 0%nat →
            spec (Qmake (Z.of_nat (size (present ∩ tier))) (Pos.of_nat (size tier))) tier)
    as Hspec.
  { intros tier Htier. unfold spec.
    assert (size (present ∩ tier) <= size tier)%nat as Hle
      by (apply subseteq_size; set_solver).
    assert (Z.pos (Pos.of_nat (size tier)) = Z.of_nat (size tier)) as Hpos
      by (rewrite <- positive_nat_Z, Nat2Pos.id by done; done).
    split_and!.
    - unfold Qle. simpl. lia.
    - unfold Qle. simpl. rewrite Hpos. lia.
    - rewrite (fraction_one _ _ Htier). apply covered_iff_subseteq.
    - assert (size (present ∩ tier) = 0%nat ↔ tier ## present) as Hnone
        by (rewrite size_empty_iff; set_solver).
      rewrite <- Hnone. unfold Qeq. simpl. lia. }
  split_and!; by apply Hspec.
Qed.

End RatingsMore.

Lemma X7_requirement_tiers_are_disjoint_witness :
  ∃ info,
    abcd_req_info_d !! "aireo_tds_core"%string = Some info ∧
    TdsStacIo.required_metadata_set info ## TdsStacIo.recommended_metadata_set info.
Proof.
  eexists. split; [reflexivity|].
  destruct (X7_requirement_tiers_are_disjoint abcd_requirement_d "aireo_tds_core" _ eq_refl)
    as (ext_d & _ & _ & _ & _ & Hdisjoint & _).
  exact Hdisjoint.
Defined.

Lemma X8_compliance_level_by_inclusion_witness :
  TdsStacIo.valid_tds (catalog_with_keys ["a"; "c"]%string) = true ∧
  ∃ level,
    TdsStacIo.compute_compliance_level abcd_req_info_d (catalog_with_keys ["a"; "c"]%string)
    = Ok level ∧ 2 <= level.
Proof.
  split; [reflexivity|].
  destruct (X8_compliance_level_by_inclusion abcd_req_info_d
              (catalog_with_keys ["a"; "c"]%string) _ _ eq_refl eq_refl eq_refl)
    as (level & Hlevel & _).
  exists level. split; [exact Hlevel|].
  vm_compute in Hlevel. injection Hlevel as <-. discriminate.
Defined.

Lemma X9_compliance_level_is_monotone_witness :
  ∃ l1 l2,
    TdsStacIo.compute_compliance_level abcd_req_info_d (catalog_with_keys ["a"]%string) = Ok l1 ∧
    TdsStacIo.compute_compliance_level abcd_req_info_d (catalog_with_keys ["a"; "c"]%string) = Ok l2 ∧
    l1 <= l2.
Proof.
  exists 1, 2. split; [reflexivity|]. split; [reflexivity|].
  eapply (X9_compliance_level_is_monotone abcd_req_info_d
            (catalog_with_keys ["a"]%string) (catalog_with_keys ["a"; "c"]%string));
    [reflexivity|reflexivity| |reflexivity|reflexivity].
  simpl. intros k. rewrite !elem_of_dom. unfold is_Some.
  intros [v Hv]. destruct (decide (k = "a"%string)) as [->|Hne].
  - exists TdsStacIo.VOther. reflexivity.
  - exfalso. apply lookup_insert_Some in Hv as [[? _]|[_ Hv]]; [congruence|].
    by rewrite lookup_empty in Hv.
Defined.

Lemma X10_completeness_fractions_are_bounded_witness :
  ∃ r,
    TdsStacIo.report_metadata_completeness abcd_req_info_d
      (catalog_with_keys ["a"; "c"]%string) = Ok r ∧
    (0 <= TdsStacIo.pct_required_metadata r)%Q ∧
    (TdsStacIo.pct_required_metadata r <= 1)%Q.
Proof.
  eexists. split; [reflexivity|].
  destruct (X10_completeness_fractions_are_bounded abcd_req_info_d
              (catalog_with_keys ["a"; "c"]%string) _ _ _ eq_refl eq_refl eq_refl)
    as ((Hlo & Hhi & _) & _).
  split; [exact Hlo|exact Hhi].
Defined.

(** * Further properties of the loader *)

Section LoaderMore.
Import TdsStacIo.
Context `{Runtime}.




End LoaderMore.




Section LoopsMore.
Context {A B : Type}.


End LoopsMore.

Section LoaderEntries.
Import TdsStacIo.
Context `{Runtime}.

Lemma lookup_field_empty (t n : string) :
  lookup_field (mkAllFieldMetadata ∅ ∅) t n = None.
Proof.
  unfold lookup_field. simpl.
  destruct (String.eqb t "features"); [done|]. by destruct (String.eqb t "references").
Qed.

(** The asset a profile of an AOI is admitted with. *)
Lemma parse_asset_Ok_inv (fs : FS) (folder p : Path) (d : doc)
    (asset_path : Path) (asset_info : AssetInfo) :
  parse_asset fs folder p d = Ok (asset_path, asset_info) →
  ∃ assets name,
    get_assets d = Ok assets ∧ size assets = 1%nat ∧
    assets !! name = Some asset_info ∧
    (if is_absolute (Path_of (asset_href asset_info))
     then asset_path = Path_of (asset_href asset_info)
     else asset_path = joinpath folder (Path_of (asset_href asset_info)) ∧
          is_file cwd fs asset_path = true).
Proof.
  unfold parse_asset. destruct (get_assets d) as [assets|e]; [simpl|done].
  destruct (Nat.eqb_spec (size assets) 1) as [Hsize|]; [simpl|done].
  destruct (map_to_list assets) as [|[name a] rest] eqn:Hlist; [done|].
  assert (assets !! name = Some a) as Hname.
  { apply elem_of_map_to_list. rewrite Hlist. apply elem_of_cons. by left. }
  destruct (startswith (asset_href a) "/") eqn:Habs.
  - intros Heq. injection Heq as Hp Ha. subst asset_info asset_path.
    exists assets, name. rewrite Habs. done.
  - destruct (is_file cwd fs (joinpath folder (Path_of (asset_href a)))) eqn:Hfile; [|done].
    intros Heq. injection Heq as Hp Ha. subst asset_info asset_path.
    exists assets, name. rewrite Habs. done.
Qed.


(** X15. The loaders invent no entry: in a document whose field names
    are all plain, every record in the maps that the global loader or
    the AOI loader returns was stored for a metadata link of the
    document, one whose relation unpacks to the type and the name of the
    entry, and is the record of the profile that link points to. *)
Theorem X15_entries_come_from_links :
  (∀ fs root g links t n info,
     parse_g_profile_info fs root = Ok g →
     get_links (tds_root_metadata_d root) = Ok links →
     Forall (λ l, plain_link l = true) links →
     lookup_field g t n = Some info →
     ∃ link, link ∈ links ∧ startswith (rel link) "metadata" = true ∧
             unpack_rel (rel link) = Ok (t, n) ∧
             g_gives fs (parent (absolute cwd (root_fn_path root))) link info) ∧
  (∀ fs aoi root m links t n info,
     parse_aoi_profile_info fs aoi root = Ok m →
     get_links (aoi_collection_metadata_d aoi) = Ok links →
     Forall (λ l, plain_link l = true) links →
     lookup_field m t n = Some info →
     ∃ link, link ∈ links ∧ startswith (rel link) "metadata" = true ∧
             unpack_rel (rel link) = Ok (t, n) ∧
             aoi_gives fs (parent (absolute cwd (aoi_fn_path aoi))) link info).
Proof.
  split.
  - intros fs root g links t n info Hg Hlinks Hplain Hentry.
    apply parse_g_profile_info_Ok in Hg as (links' & Hlinks' & Hrun).
    rewrite Hlinks in Hlinks'. injection Hlinks' as <-.
    destruct (loop_entries_from_links _ _ (g_profile_step_shape fs _) links Hplain
                _ g Hrun t n info Hentry) as [Hempty|Hlink]; [|done].
    by rewrite lookup_field_empty in Hempty.
  - intros fs aoi root m links t n info Hm Hlinks Hplain Hentry.
    apply parse_aoi_profile_info_Ok in Hm as (links' & Hlinks' & Hrun).
    rewrite Hlinks in Hlinks'. injection Hlinks' as <-.
    destruct (loop_entries_from_links _ _ (aoi_profile_step_shape fs _) links Hplain
                _ m Hrun t n info Hentry) as [Hempty|Hlink]; [|done].
    by rewrite lookup_field_empty in Hempty.
Qed.

(** X16. In a document whose field names are all plain, every record of
    a global profile is stored without an asset, and every record of an
    AOI profile with exactly one: the profile document has a single
    entry in its assets map, the record holds that entry, and its asset
    path is the entry's href, taken as it is when absolute and otherwise
    joined to the directory of the AOI document, where it names a
    file. *)
Theorem X16_assets_of_admitted_profiles :
  (∀ fs root g links t n info,
     parse_g_profile_info fs root = Ok g →
     get_links (tds_root_metadata_d root) = Ok links →
     Forall (λ l, plain_link l = true) links →
     lookup_field g t n = Some info →
     data_asset_w_path info = None ∧ data_asset_info_d info = None ∧
     open_json cwd fs (fn_path info) = Ok (metadata_d info)) ∧
  (∀ fs aoi root m links t n info,
     parse_aoi_profile_info fs aoi root = Ok m →
     get_links (aoi_collection_metadata_d aoi) = Ok links →
     Forall (λ l, plain_link l = true) links →
     lookup_field m t n = Some info →
     open_json cwd fs (fn_path info) = Ok (metadata_d info) ∧
     ∃ assets name asset_info asset_path,
       get_assets (metadata_d info) = Ok assets ∧ size assets = 1%nat ∧
       assets !! name = Some asset_info ∧
       data_asset_info_d info = Some asset_info ∧
       data_asset_w_path info = Some asset_path ∧
       (if is_absolute (Path_of (asset_href asset_info))
        then asset_path = Path_of (asset_href asset_info)
        else asset_path
             = joinpath (parent (absolute cwd (aoi_fn_path aoi)))
                 (Path_of (asset_href asset_info)) ∧
             is_file cwd fs asset_path = true)).
Proof.
  split.
  - intros fs root g links t n info Hg Hlinks Hplain Hentry.
    apply parse_g_profile_info_Ok in Hg as (links' & Hlinks' & Hrun).
    rewrite Hlinks in Hlinks'. injection Hlinks' as <-.
    destruct (loop_entries_from_links _ _ (g_profile_step_shape fs _) links Hplain
                _ g Hrun t n info Hentry) as [Hempty|(link & _ & _ & _ & Hgives)];
      [by rewrite lookup_field_empty in Hempty|].
    destruct Hgives as (d & Hopen & ->). done.
  - intros fs aoi root m links t n info Hm Hlinks Hplain Hentry.
    apply parse_aoi_profile_info_Ok in Hm as (links' & Hlinks' & Hrun).
    rewrite Hlinks in Hlinks'. injection Hlinks' as <-.
    destruct (loop_entries_from_links _ _ (aoi_profile_step_shape fs _) links Hplain
                _ m Hrun t n info Hentry) as [Hempty|(link & _ & _ & _ & Hgives)];
      [by rewrite lookup_field_empty in Hempty|].
    destruct Hgives as (d & ap & ai & Hopen & Hasset & ->). simpl.
    split; [done|].
    apply parse_asset_Ok_inv in Hasset as (assets & name & Hassets & Hsize & Hname & Hpath).
    exists assets, name, ai, ap. done.
Qed.

End LoaderEntries.


Lemma X15_entries_come_from_links_witness :
  ∃ g info link,
    @TdsStacIo.parse_g_profile_info sample_runtime good_fs
      (root_info_with [child_link; feature_link "./a.json"]) = Ok g ∧
    TdsStacIo.lookup_field g "features" "input1" = Some info ∧
    link ∈ [child_link; feature_link "./a.json"] ∧
    TdsStacIo.unpack_rel (TdsStacIo.rel link) = Ok ("features"%string, "input1"%string).
Proof.
  destruct (@TdsStacIo.parse_g_profile_info sample_runtime good_fs
              (root_info_with [child_link; feature_link "./a.json"])) as [g|e] eqn:Hload;
    [|vm_compute in Hload; discriminate Hload].
  destruct (TdsStacIo.lookup_field g "features" "input1") as [info|] eqn:Hentry;
    [|vm_compute in Hload; injection Hload as <-; vm_compute in Hentry; discriminate Hentry].
  destruct (proj1 (@X15_entries_come_from_links sample_runtime) good_fs
              (root_info_with [child_link; feature_link "./a.json"]) g
              [child_link; feature_link "./a.json"] "features"%string "input1"%string info
              Hload eq_refl ltac:(repeat constructor) Hentry)
    as (link & Hin & _ & Hunpack & _).
  exists g, info, link. split_and!; [reflexivity|exact Hentry|exact Hin|exact Hunpack].
Defined.

Lemma X16_assets_of_admitted_profiles_witness :
  ∃ m info,
    @TdsStacIo.parse_aoi_profile_info sample_runtime good_fs aoi0_info
      (root_info_with [child_link; feature_link "./a.json"]) = Ok m ∧
    TdsStacIo.lookup_field m "features" "input1" = Some info ∧
    ∃ assets name asset_info asset_path,
      TdsStacIo.get_assets (TdsStacIo.metadata_d info) = Ok assets ∧ size assets = 1%nat ∧
      assets !! name = Some asset_info ∧
      TdsStacIo.data_asset_info_d info = Some asset_info ∧
      TdsStacIo.data_asset_w_path info = Some asset_path ∧
      (if is_absolute (Path_of (TdsStacIo.asset_href asset_info))
       then asset_path = Path_of (TdsStacIo.asset_href asset_info)
       else asset_path
            = joinpath (parent (absolute (@TdsStacIo.cwd sample_runtime)
                                  (TdsStacIo.aoi_fn_path aoi0_info)))
                (Path_of (TdsStacIo.asset_href asset_info)) ∧
            is_file (@TdsStacIo.cwd sample_runtime) good_fs asset_path = true).
Proof.
  destruct (@TdsStacIo.parse_aoi_profile_info sample_runtime good_fs aoi0_info
              (root_info_with [child_link; feature_link "./a.json"])) as [m|e] eqn:Hload;
    [|vm_compute in Hload; discriminate Hload].
  destruct (TdsStacIo.lookup_field m "features" "input1") as [info|] eqn:Hentry;
    [|vm_compute in Hload; injection Hload as <-; vm_compute in Hentry; discriminate Hentry].
  exists m, info. split_and!; [reflexivity|exact Hentry|].
  exact (proj2 (proj2 (@X16_assets_of_admitted_profiles sample_runtime) good_fs aoi0_info
                 (root_info_with [child_link; feature_link "./a.json"]) m
                 [feature_link "./p.json"]
                 "features"%string "input1"%string info Hload eq_refl
                 ltac:(repeat constructor) Hentry)).
Defined.

(** ** The facades of the pilot datasets *)

Section PilotFacts.
Import Core Pilot.
Context {Example : Type}.
Local Abbreviation Obj := (AOIObject Example).

Lemma py_len_inv (r : result Z) (c : Z) :
  py_len r = Ok c → r = Ok c ∧ 0 <= c < 2 ^ 63.
Proof.
  unfold py_len. destruct r as [n|e]; simpl; [|done].
  destruct (Z.ltb_spec n 0); [done|]. destruct (Z.leb_spec (2 ^ 63) n); [done|].
  intros [= ->]. split; [done|lia].
Qed.

Lemma py_len_Ok (c : Z) : 0 <= c < 2 ^ 63 → py_len (Ok c) = Ok c.
Proof.
  intros Hc. unfold py_len. simpl.
  destruct (Z.ltb_spec c 0); [lia|]. destruct (Z.leb_spec (2 ^ 63) c); [lia|done].
Qed.

Lemma lens_nonneg (objs : list Obj) (cs : list Z) :
  lens objs cs → Forall (λ c, 0 <= c) cs.
Proof.
  induction 1 as [|o c objs cs Hc _ IH]; constructor; [|done].
  apply py_len_inv in Hc. lia.
Qed.

Lemma lens_lookup (objs : list Obj) (cs : list Z) (k : nat) (o : Obj) :
  lens objs cs → objs !! k = Some o →
  ∃ c, cs !! k = Some c ∧ py_len (obj_len o) = Ok c.
Proof. intros Hlens Hk. by destruct (Forall2_lookup_l _ _ _ _ _ Hlens Hk) as (c & ? & ?); exists c. Qed.

Lemma facade_len_from (objs : list Obj) (cs : list Z) :
  lens objs cs → ∀ ctr,
  foldM (λ ctr obj, n ← py_len (obj_len obj); Ok (ctr + n)) ctr objs
  = Ok (ctr + sum_counts cs).
Proof.
  induction 1 as [|o c objs cs Hc _ IH]; intros ctr; simpl.
  - f_equal. lia.
  - rewrite Hc. simpl. rewrite IH. f_equal. lia.
Qed.

Lemma facade_len_Ok (objs : list Obj) (cs : list Z) :
  lens objs cs → facade_len objs = Ok (sum_counts cs).
Proof. intros Hlens. unfold facade_len. by rewrite (facade_len_from objs cs Hlens). Qed.

Lemma len_facade_Ok (objs : list Obj) (cs : list Z) :
  lens objs cs → sum_counts cs < 2 ^ 63 →
  py_len (facade_len objs) = Ok (sum_counts cs).
Proof.
  intros Hlens Hsum. rewrite (facade_len_Ok objs cs Hlens). apply py_len_Ok.
  split; [|done]. by apply sum_counts_nonneg, (lens_nonneg objs).
Qed.

Lemma prefix_sum_S (cs : list Z) (k : nat) (c : Z) :
  cs !! k = Some c → prefix_sum cs (S k) = prefix_sum cs k + c.
Proof.
  intros Hk. unfold prefix_sum. erewrite take_S_r by done.
  rewrite sum_counts_app. simpl. lia.
Qed.

Lemma prefix_sum_all (cs : list Z) (k : nat) :
  (length cs <= k)%nat → prefix_sum cs k = sum_counts cs.
Proof. intros Hk. unfold prefix_sum. by rewrite take_ge. Qed.

Lemma prefix_sum_mono (cs : list Z) (k k' : nat) :
  Forall (λ c, 0 <= c) cs → (k <= k')%nat → prefix_sum cs k <= prefix_sum cs k'.
Proof.
  intros Hcs Hk. unfold prefix_sum.
  replace k' with (k + (k' - k))%nat by lia.
  rewrite <- (take_drop k (take (k + (k' - k)) cs)).
  rewrite take_take, Nat.min_l by lia. rewrite sum_counts_app.
  assert (0 <= sum_counts (drop k (take (k + (k' - k)) cs))); [|lia].
  by apply sum_counts_nonneg, Forall_drop, Forall_take.
Qed.

Lemma prefix_sum_le_total (cs : list Z) (k : nat) :
  Forall (λ c, 0 <= c) cs → prefix_sum cs k <= sum_counts cs.
Proof.
  intros Hcs. rewrite <- (prefix_sum_all cs (k + length cs)) by lia.
  apply prefix_sum_mono; [done|lia].
Qed.

(** One round of the loop. *)
Lemma scan_S (fuel : nat) (objs : list Obj) (index counter AOI_index : Z) :
  scan (S fuel) objs index counter AOI_index
  = match py_len (facade_len objs) with
    | Raise e => Some (Raise e)
    | Ok n =>
        if counter <? n then
          match getitem objs AOI_index with
          | Raise e => Some (Raise e)
          | Ok aoi =>
              match py_len (obj_len aoi) with
              | Raise e => Some (Raise e)
              | Ok len_aoi =>
                  if index <? len_aoi + counter then
                    Some (ex ← obj_getitem aoi (index - counter); Ok (Some ex))
                  else scan fuel objs index (counter + len_aoi) (AOI_index + 1)
              end
          end
        else Some (Ok None)
    end.
Proof. done. Qed.

(** The loop is over once it has looked at every AOI object. *)
Lemma scan_terminates (objs : list Obj) (index : Z) :
  ∀ fuel (a : nat) counter, (length objs <= fuel + a)%nat →
    is_Some (scan (S fuel) objs index counter (Z.of_nat a)).
Proof.
  induction fuel as [|fuel IH]; intros a counter Hfuel; rewrite scan_S;
    (destruct (py_len (facade_len objs)) as [n|e]; [|done]);
    (destruct (counter <? n); [|done]).
  - rewrite (getitem_out objs) by lia. done.
  - destruct (getitem objs (Z.of_nat a)) as [aoi|e]; [|done].
    destruct (py_len (obj_len aoi)) as [len_aoi|e]; [|done].
    destruct (index <? len_aoi + counter); [done|].
    replace (Z.of_nat a + 1) with (Z.of_nat (S a)) by lia. apply IH. lia.
Qed.

(** More rounds than the loop takes change nothing. *)
Lemma scan_more (objs : list Obj) (index : Z) (r : result (option Example)) :
  ∀ fuel fuel' counter AOI_index, (fuel <= fuel')%nat →
    scan fuel objs index counter AOI_index = Some r →
    scan fuel' objs index counter AOI_index = Some r.
Proof.
  induction fuel as [|fuel IH]; intros fuel' counter AOI_index Hfuel; [done|].
  destruct fuel' as [|fuel']; [lia|]. rewrite !scan_S.
  destruct (py_len (facade_len objs)) as [n|e]; [|done].
  destruct (counter <? n); [|done].
  destruct (getitem objs AOI_index) as [aoi|e]; [|done].
  destruct (py_len (obj_len aoi)) as [len_aoi|e]; [|done].
  destruct (index <? len_aoi + counter); [done|].
  apply IH. lia.
Qed.

(** The loop from AOI [a] on, for an index that lies at or after it. *)
Lemma scan_locates (objs : list Obj) (cs : list Z) (index : Z) :
  lens objs cs → sum_counts cs < 2 ^ 63 →
  ∀ fuel (a : nat), (length objs <= fuel + a)%nat →
    prefix_sum cs a <= index < sum_counts cs →
    ∃ k o, objs !! k = Some o ∧
           prefix_sum cs k <= index < prefix_sum cs (S k) ∧
           scan (S fuel) objs index (prefix_sum cs a) (Z.of_nat a)
           = Some (ex ← obj_getitem o (index - prefix_sum cs k); Ok (Some ex)).
Proof.
  intros Hlens Hsum.
  pose proof (Forall2_length _ _ _ Hlens) as Hlen.
  assert (∀ a, prefix_sum cs a <= index < sum_counts cs → (a < length objs)%nat) as Hin.
  { intros a Ha. destruct (Nat.lt_ge_cases a (length objs)) as [|Hge]; [done|].
    rewrite prefix_sum_all in Ha by lia. lia. }
  induction fuel as [|fuel IH]; intros a Hfuel Hindex; rewrite scan_S;
    rewrite (len_facade_Ok objs cs Hlens Hsum);
    (destruct (Z.ltb_spec (prefix_sum cs a) (sum_counts cs)); [|lia]);
    pose proof (Hin a Hindex) as Ha; [lia|].
  destruct (lookup_lt_is_Some_2 objs a Ha) as [o Ho].
  rewrite (getitem_nonneg objs a o Ho).
  destruct (lens_lookup objs cs a o Hlens Ho) as (c & Hc & Hlen_o). rewrite Hlen_o.
  pose proof (prefix_sum_S cs a c Hc) as HS.
  destruct (Z.ltb_spec index (c + prefix_sum cs a)).
  - exists a, o. split_and!; [done|lia|lia|done].
  - replace (prefix_sum cs a + c) with (prefix_sum cs (S a)) by lia.
    replace (Z.of_nat a + 1) with (Z.of_nat (S a)) by lia.
    apply IH; lia.
Qed.

(** The loop for an index at or after the total: it ends without a
    [return]. *)
Lemma scan_beyond (objs : list Obj) (cs : list Z) (index : Z) :
  lens objs cs → sum_counts cs < 2 ^ 63 → sum_counts cs <= index →
  ∀ fuel (a : nat), (length objs <= fuel + a)%nat →
    scan (S fuel) objs index (prefix_sum cs a) (Z.of_nat a) = Some (Ok None).
Proof.
  intros Hlens Hsum Hindex.
  pose proof (Forall2_length _ _ _ Hlens) as Hlen.
  pose proof (lens_nonneg objs cs Hlens) as Hnonneg.
  induction fuel as [|fuel IH]; intros a Hfuel; rewrite scan_S;
    rewrite (len_facade_Ok objs cs Hlens Hsum).
  - rewrite prefix_sum_all by lia. by rewrite Z.ltb_irrefl.
  - destruct (Z.ltb_spec (prefix_sum cs a) (sum_counts cs)) as [Hlt|]; [|done].
    assert (a < length objs)%nat as Ha.
    { destruct (Nat.lt_ge_cases a (length objs)) as [|Hge]; [done|].
      rewrite prefix_sum_all in Hlt by lia. lia. }
    destruct (lookup_lt_is_Some_2 objs a Ha) as [o Ho].
    rewrite (getitem_nonneg objs a o Ho).
    destruct (lens_lookup objs cs a o Hlens Ho) as (c & Hc & Hlen_o). rewrite Hlen_o.
    pose proof (prefix_sum_S cs a c Hc) as HS.
    pose proof (prefix_sum_le_total cs (S a) Hnonneg).
    destruct (Z.ltb_spec index (c + prefix_sum cs a)); [lia|].
    replace (prefix_sum cs a + c) with (prefix_sum cs (S a)) by lia.
    replace (Z.of_nat a + 1) with (Z.of_nat (S a)) by lia.
    apply IH; lia.
Qed.

(** AOI datasets of the library answer [len] with their counts. *)
Lemma lens_of_core (ds : list (AOIDataset Example)) :
  nonneg_counts ds → sum_counts (counts ds) < 2 ^ 63 →
  lens (of_core <$> ds) (counts ds).
Proof.
  unfold nonneg_counts, counts, lens. induction 1 as [|d ds Hd Hds IH]; intros Hsum.
  - constructor.
  - rewrite !fmap_cons in *. simpl in Hsum.
    pose proof (sum_counts_nonneg (get_length <$> ds)) as Hrest.
    rewrite Forall_fmap in Hrest. specialize (Hrest Hds).
    constructor; [apply py_len_Ok; lia|apply IH; lia].
Qed.

(** X17. The facade of [SpaceNet7.py] locates an index that is in range:
    over AOI objects that answer [len] with the counts [cs], of total
    below [2^63], an index in [0, total) lies in the interval of one AOI
    [k], and [__getitem__] returns what that object returns for the
    index less the total of the counts before it. *)
Theorem X17_pilot_spacenet_scan_locates (objs : list Obj) (cs : list Z) (index : Z) :
  lens objs cs → sum_counts cs < 2 ^ 63 →
  0 <= index < sum_counts cs →
  ∃ k o, objs !! k = Some o ∧
         prefix_sum cs k <= index < prefix_sum cs (S k) ∧
         spacenet_tds_getitem objs index
         = Some (ex ← obj_getitem o (index - prefix_sum cs k); Ok (Some ex)).
Proof.
  intros Hlens Hsum Hindex. unfold spacenet_tds_getitem.
  rewrite (len_facade_Ok objs cs Hlens Hsum).
  destruct (Z.gtb_spec index (sum_counts cs)); [lia|].
  apply (scan_locates objs cs index Hlens Hsum (length objs) 0%nat); [lia|].
  unfold prefix_sum. simpl. lia.
Qed.

(** X18. On every index in range the linear scan of the pilot facade and
    the table of the library facade agree: built over the same AOI
    datasets, [EOTrainingDataset.__getitem__] of [SpaceNet7.py] returns
    what [EOTrainingDataset.__getitem__] of [core.py] returns. *)
Theorem X18_pilot_spacenet_agrees_with_core (ds : list (AOIDataset Example)) :
  nonneg_counts ds → sum_counts (counts ds) < 2 ^ 63 →
  ∃ tds, init ds = Ok tds ∧
    ∀ i, 0 <= i < tds_len tds →
      spacenet_tds_getitem (of_core <$> ds) i
      = Some (ex ← tds_getitem tds i; Ok (Some ex)).
Proof.
  intros Hds Hsum.
  destruct (compute_ds_length_ok ds Hds Hsum) as (tbl & Hrun & Hlen & Htbl).
  exists (mkTDS ds (sum_counts (counts ds)) tbl). split.
  { unfold init. rewrite Hrun. done. }
  intros i Hi. unfold tds_len in Hi. simpl in Hi.
  pose proof (lens_of_core ds Hds Hsum) as Hlens.
  unfold spacenet_tds_getitem. rewrite (len_facade_Ok _ _ Hlens Hsum).
  destruct (Z.gtb_spec i (sum_counts (counts ds))); [lia|].
  destruct (scan_locates _ _ i Hlens Hsum (length (of_core <$> ds)) 0%nat)
    as (k & o & Ho & Hk & Hscan); [lia|unfold prefix_sum; simpl; lia|].
  change (prefix_sum (counts ds) 0) with 0 in Hscan.
  change (Z.of_nat 0) with 0 in Hscan. rewrite Hscan. clear Hscan.
  rewrite list_lookup_fmap in Ho.
  destruct (ds !! k) as [d|] eqn:Hd; [|done]. injection Ho as <-.
  change (prefix_sum (counts ds) k) with (offset ds k) in *.
  change (prefix_sum (counts ds) (S k)) with (offset ds (S k)) in *.
  rewrite <- (Z2Nat.id i) at 2 by lia.
  rewrite (tds_getitem_cell ds _ tbl (Z.to_nat i) k d (i - offset ds k)); [done| |done].
  rewrite (Htbl k (Z.to_nat i)); [by rewrite Z2Nat.id by lia| |].
  - by apply lookup_lt_Some in Hd.
  - rewrite Z2Nat.id by lia. done.
Qed.

(** X19. At and beyond the ends the facade of [SpaceNet7.py] checks less
    than the library: the guard is [index > len(self)], so the index
    equal to the total passes it, matches no AOI and the call returns
    [None]; only a larger one exits with [index out of range]. A
    negative index is not wrapped: it is below the first running total
    and is handed unchanged to the first AOI object. *)
Theorem X19_pilot_spacenet_ends (objs : list Obj) (cs : list Z) (index : Z) :
  lens objs cs → sum_counts cs < 2 ^ 63 →
  (index = sum_counts cs → spacenet_tds_getitem objs index = Some (Ok None)) ∧
  (sum_counts cs < index →
     spacenet_tds_getitem objs index = Some (Raise (SystemExit "index out of range"))) ∧
  (index < 0 → 0 < sum_counts cs →
     ∃ o, objs !! 0%nat = Some o ∧
          spacenet_tds_getitem objs index
          = Some (ex ← obj_getitem o index; Ok (Some ex))) ∧
  (index < 0 → sum_counts cs = 0 → spacenet_tds_getitem objs index = Some (Ok None)).
Proof.
  intros Hlens Hsum. unfold spacenet_tds_getitem.
  rewrite (len_facade_Ok objs cs Hlens Hsum). split_and!.
  - intros ->. rewrite Z.gtb_ltb, Z.ltb_irrefl.
    apply (scan_beyond objs cs _ Hlens Hsum (Z.le_refl _) (length objs) 0%nat). lia.
  - intros Hindex. by destruct (Z.gtb_spec index (sum_counts cs)); [|lia].
  - intros Hneg Hpos. destruct (Z.gtb_spec index (sum_counts cs)); [lia|].
    rewrite scan_S, (len_facade_Ok objs cs Hlens Hsum).
    destruct (Z.ltb_spec 0 (sum_counts cs)); [|lia].
    destruct Hlens as [|o c objs cs Hc Hrest]; [simpl in Hpos; lia|].
    exists o. split; [done|].
    assert (getitem (o :: objs) 0 = Ok o) as -> by done. rewrite Hc.
    apply py_len_inv in Hc as [_ Hc].
    destruct (Z.ltb_spec index (c + 0)); [|lia]. by rewrite Z.sub_0_r.
  - intros Hneg Hzero. destruct (Z.gtb_spec index (sum_counts cs)); [lia|].
    rewrite scan_S, (len_facade_Ok objs cs Hlens Hsum), Hzero. done.
Qed.

(** X20. The lookup of [SpaceNet7.py] never loops for ever: whatever the
    AOI objects answer to [len] and to an index, the [while] loop has
    returned, raised, or ended after one round more than there are AOI
    objects, and allowing it more rounds changes nothing. *)
Theorem X20_pilot_spacenet_scan_terminates (objs : list Obj) (index : Z) :
  is_Some (spacenet_tds_getitem objs index) ∧
  ∀ fuel, (length objs < fuel)%nat →
    is_Some (scan fuel objs index 0 0) ∧
    scan fuel objs index 0 0 = scan (S (length objs)) objs index 0 0.
Proof.
  pose proof (scan_terminates objs index (length objs) 0%nat 0 ltac:(lia)) as [r Hr].
  change (Z.of_nat 0) with 0 in Hr. split.
  - unfold spacenet_tds_getitem.
    destruct (py_len (facade_len objs)) as [n|e]; [|done].
    destruct (index >? n); [done|]. by rewrite Hr.
  - intros fuel Hfuel.
    rewrite (scan_more objs index r (S (length objs)) fuel 0 0 ltac:(lia) Hr).
    by rewrite Hr.
Qed.

End PilotFacts.

Section PilotCAPFacts.
Import Core Pilot.
Context {Example : Type}.
Local Abbreviation Obj := (AOIObject Example).

(** The running totals that [__init__] of [CAP.py] stores for the counts
    [cs]. *)
Local Abbreviation totals cs := ((λ k, prefix_sum cs (S k)) <$> seq 0 (length cs)).

Lemma totals_lookup (cs : list Z) (k : nat) :
  (k < length cs)%nat → totals cs !! k = Some (prefix_sum cs (S k)).
Proof. intros Hk. rewrite list_lookup_fmap, lookup_seq_lt by done. done. Qed.

Lemma totals_lookup_inv (cs : list Z) (k : nat) (y : Z) :
  totals cs !! k = Some y → (k < length cs)%nat ∧ y = prefix_sum cs (S k).
Proof.
  intros Hk. assert (k < length cs)%nat as Hlt.
  { apply lookup_lt_Some in Hk. by rewrite length_fmap, length_seq in Hk. }
  rewrite totals_lookup in Hk by done. by injection Hk as <-.
Qed.

Lemma lengths_loop_from (objs : list Obj) (cs : list Z) :
  lens objs cs → ∀ ctr ls,
  foldM (λ '(ctr, lengths) obj,
           n ← py_len (obj_len obj);
           Ok (ctr + n, lengths ++ [ctr + n]))
        (ctr, ls) objs
  = Ok (ctr + sum_counts cs,
        ls ++ ((λ k, ctr + prefix_sum cs (S k)) <$> seq 0 (length cs))).
Proof.
  induction 1 as [|o c objs cs Hc _ IH]; intros ctr ls; simpl.
  - rewrite app_nil_r. do 2 f_equal. lia.
  - rewrite Hc. simpl. rewrite IH. rewrite <- app_assoc. simpl.
    rewrite <- fmap_S_seq, <- list_fmap_compose. unfold prefix_sum. simpl.
    do 2 f_equal; [lia|]. f_equal. f_equal; [lia|].
    apply list_fmap_ext. intros i k _. simpl. lia.
Qed.

Lemma cap_init_Ok (objs : list Obj) (cs : list Z) :
  lens objs cs → cap_init objs = Ok (mkCAPFacade objs (totals cs)).
Proof.
  intros Hlens. unfold cap_init, lengths_loop.
  rewrite (lengths_loop_from objs cs Hlens). done.
Qed.

(** Once [found] is set no round changes the state. *)
Lemma locate_found (index : Z) (items : list (Z * Z)) (loc : option Z) :
  foldl (locate_step index) (true, loc) items = (true, loc).
Proof.
  induction items as [|[idx len] items IH]; [done|]. simpl.
  destruct (len >? index), (len =? index); simpl; exact IH.
Qed.

(** Totals below the index leave the state as it is at the start. *)
Lemma locate_below (index : Z) (items : list (Z * Z)) :
  Forall (λ it, it.2 < index) items →
  foldl (locate_step index) (false, None) items = (false, None).
Proof.
  induction 1 as [|[idx len] items Hlen _ IH]; [done|]. simpl in *.
  destruct (Z.gtb_spec len index); [lia|]. destruct (Z.eqb_spec len index); [lia|].
  simpl. exact IH.
Qed.

Lemma enumerate_below (index : Z) (l : list Z) (f : nat → Z) :
  Forall (λ y, y < index) l →
  Forall (λ it : Z * Z, it.2 < index) (imap (λ i x, (f i, x)) l).
Proof.
  intros Hl. revert f. induction Hl as [|y l Hy _ IH]; intros f; simpl; [done|].
  constructor; [done|]. apply (IH (f ∘ S)).
Qed.

(** The first total at or above the index decides. *)
Lemma locate_hit (index : Z) (l : list Z) (j : nat) (x : Z) :
  l !! j = Some x → index <= x →
  (∀ j' y, (j' < j)%nat → l !! j' = Some y → y < index) →
  foldl (locate_step index) (false, None) (enumerate l)
  = locate_step index (false, None) (Z.of_nat j, x).
Proof.
  intros Hj Hx Hbefore. unfold enumerate.
  rewrite <- (take_drop_middle l j x Hj), imap_app, foldl_app.
  assert (length (take j l) = j) as Hlen.
  { rewrite length_take. apply lookup_lt_Some in Hj. lia. }
  rewrite locate_below.
  - rewrite imap_cons. cbn [foldl]. rewrite Hlen, Nat.add_0_r.
    destruct (locate_step index (false, None) (Z.of_nat j, x)) as [found loc] eqn:Hstep.
    assert (found = true) as ->; [|apply locate_found].
    cbn [locate_step] in Hstep. destruct (Z.gtb_spec x index), (Z.eqb_spec x index),
      (Z.of_nat j =? 0); cbn [andb negb] in Hstep; try lia; by injection Hstep as <- _.
  - apply enumerate_below, Forall_lookup. intros j' y Hy.
    apply lookup_take_Some in Hy as [Hy Hj']. by apply (Hbefore j' y).
Qed.

Lemma locate_miss (index : Z) (l : list Z) :
  Forall (λ y, y < index) l →
  foldl (locate_step index) (false, None) (enumerate l) = (false, None).
Proof. intros Hl. by apply locate_below, enumerate_below. Qed.

(** Either every total is below the index, or one is the first that is
    not. *)
Lemma first_total (index : Z) (l : list Z) :
  Forall (λ y, y < index) l ∨
  ∃ j x, l !! j = Some x ∧ index <= x ∧
         ∀ j' y, (j' < j)%nat → l !! j' = Some y → y < index.
Proof.
  induction l as [|y l IH]; [by left|].
  destruct (Z.lt_ge_cases y index) as [Hy|Hy].
  - destruct IH as [Hl|(j & x & Hj & Hx & Hbefore)]; [left; by constructor|].
    right. exists (S j), x. split_and!; [done|done|].
    intros [|j'] y' Hj' Hy'; simpl in Hy'; [by injection Hy' as <-|].
    apply (Hbefore j' y'); [lia|done].
  - right. exists 0%nat, y. split_and!; [done|lia|]. intros j' y' Hj'. lia.
Qed.

(** X21. The facade of [CAP.py] reads the running total at [loc] as the
    first index of AOI [loc], which it is the end of. Over AOI objects
    that answer [len] with the counts [cs]: an index below the first
    count goes to the first AOI less that count, so negative; an index
    strictly inside AOI [k+1] is served by AOI [k], with the local index
    it has in AOI [k+1]; and an index equal to a running total is served
    as example 0 of the first AOI that ends there. *)
Theorem X21_pilot_cap_serves_the_aoi_before (objs : list Obj) (cs : list Z) (index : Z) :
  lens objs cs →
  ∃ tds, cap_init objs = Ok tds ∧
    (∀ o c, objs !! 0%nat = Some o → cs !! 0%nat = Some c → index < c →
       cap_tds_getitem tds index = Returns (obj_getitem o (index - c))) ∧
    (∀ k o, objs !! k = Some o →
       prefix_sum cs (S k) < index < prefix_sum cs (S (S k)) →
       cap_tds_getitem tds index
       = Returns (obj_getitem o (index - prefix_sum cs (S k)))) ∧
    (∀ k o, objs !! k = Some o → index = prefix_sum cs (S k) →
       (∀ k', (k' < k)%nat → prefix_sum cs (S k') < index) →
       cap_tds_getitem tds index = Returns (obj_getitem o 0)).
Proof.
  intros Hlens. exists (mkCAPFacade objs (totals cs)).
  split; [by apply cap_init_Ok|].
  pose proof (Forall2_length _ _ _ Hlens) as Hlen.
  pose proof (lens_nonneg objs cs Hlens) as Hnonneg.
  unfold cap_tds_getitem. cbn [aoi_objs lengths]. split_and!.
  - intros o c Ho Hc Hindex.
    assert (0 < length cs)%nat as Hpos by (by apply lookup_lt_Some in Hc).
    pose proof (prefix_sum_S cs 0 c Hc) as HS. change (prefix_sum cs 0) with 0 in HS.
    rewrite (locate_hit index (totals cs) 0 (prefix_sum cs 1));
      [|by apply totals_lookup|lia|intros; lia].
    cbn [locate_step]. destruct (Z.gtb_spec (prefix_sum cs 1) index); [|lia].
    change (Z.of_nat 0 =? 0) with true. cbn [andb negb].
    assert (getitem objs 0 = Ok o) as -> by exact (getitem_nonneg objs 0 o Ho).
    assert (getitem (totals cs) 0 = Ok (prefix_sum cs 1)) as ->
      by exact (getitem_nonneg (totals cs) 0 _ (totals_lookup cs 0 Hpos)).
    cbn [mbind result_bind]. by rewrite HS.
  - intros k o Ho Hindex.
    assert (S k < length cs)%nat as Hk.
    { destruct (Nat.lt_ge_cases (S k) (length cs)) as [|Hge]; [done|].
      rewrite (prefix_sum_all cs (S (S k))), <- (prefix_sum_all cs (S k)) in Hindex by lia.
      lia. }
    rewrite (locate_hit index (totals cs) (S k) (prefix_sum cs (S (S k))));
      [|by apply totals_lookup|lia|].
    + cbn [locate_step]. destruct (Z.gtb_spec (prefix_sum cs (S (S k))) index); [|lia].
      destruct (Z.eqb_spec (Z.of_nat (S k)) 0); [lia|]. cbn [andb negb].
      replace (Z.of_nat (S k) - 1) with (Z.of_nat k) by lia.
      rewrite (getitem_nonneg objs k o Ho).
      rewrite (getitem_nonneg (totals cs) k _ (totals_lookup cs k ltac:(lia))).
      done.
    + intros j' y Hj' Hy. apply totals_lookup_inv in Hy as [_ ->].
      pose proof (prefix_sum_mono cs (S j') (S k) Hnonneg ltac:(lia)). lia.
  - intros k o Ho -> Hfirst.
    assert (k < length cs)%nat as Hk by (apply lookup_lt_Some in Ho; lia).
    rewrite (locate_hit _ (totals cs) k (prefix_sum cs (S k)));
      [|by apply totals_lookup|lia|].
    + cbn [locate_step]. rewrite Z.gtb_ltb, Z.ltb_irrefl, Z.eqb_refl. cbn [andb negb].
      rewrite (getitem_nonneg objs k o Ho).
      rewrite (getitem_nonneg (totals cs) k _ (totals_lookup cs k Hk)).
      simpl. by rewrite Z.sub_diag.
    + intros j' y Hj' Hy. apply totals_lookup_inv in Hy as [_ ->]. by apply Hfirst.
Qed.

(** X22. [__getitem__] of [CAP.py] has no check of the index and no
    default for [loc]: it ends in [UnboundLocalError] exactly when there
    is no AOI object or the index is above the total of the counts; for
    every other index, the total and the negative ones included, it
    goes on to an AOI object. *)
Theorem X22_pilot_cap_unbound_loc (objs : list Obj) (cs : list Z) (index : Z) :
  lens objs cs →
  ∃ tds, cap_init objs = Ok tds ∧
    (cap_tds_getitem tds index = UnboundLocalError "loc"
     ↔ objs = [] ∨ sum_counts cs < index).
Proof.
  intros Hlens. exists (mkCAPFacade objs (totals cs)).
  split; [by apply cap_init_Ok|].
  pose proof (Forall2_length _ _ _ Hlens) as Hlen.
  pose proof (lens_nonneg objs cs Hlens) as Hnonneg.
  unfold cap_tds_getitem. cbn [aoi_objs lengths].
  destruct (first_total index (totals cs)) as [Hbelow|(j & x & Hj & Hx & Hbefore)].
  - rewrite (locate_miss index _ Hbelow). split; [intros _|done].
    destruct objs as [|o objs]; [by left|right].
    simpl in Hlen. rewrite Forall_lookup in Hbelow.
    assert (length cs - 1 < length cs)%nat as Hlast by lia.
    specialize (Hbelow (length cs - 1)%nat _ (totals_lookup cs _ Hlast)).
    cbv beta in Hbelow. rewrite prefix_sum_all in Hbelow by lia. done.
  - rewrite (locate_hit index _ j x Hj Hx Hbefore).
    apply totals_lookup_inv in Hj as [Hjlt ->]. split.
    + cbn [locate_step].
      destruct (Z.gtb_spec (prefix_sum cs (S j)) index),
        (Z.eqb_spec (prefix_sum cs (S j)) index), (Z.of_nat j =? 0);
        cbn [andb negb]; try done; lia.
    + intros [->|Hindex]; [simpl in Hlen; lia|].
      pose proof (prefix_sum_le_total cs (S j) Hnonneg). lia.
Qed.

End PilotCAPFacts.

Lemma spacenet_objs_lens : Pilot.lens spacenet_objs [32; 16].
Proof.
  unfold Pilot.lens, spacenet_objs.
  constructor; [vm_compute; reflexivity|].
  constructor; [vm_compute; reflexivity|]. constructor.
Defined.

Lemma cap_objs_lens : Pilot.lens cap_objs [9; 6].
Proof.
  unfold Pilot.lens, cap_objs.
  constructor; [vm_compute; reflexivity|].
  constructor; [vm_compute; reflexivity|]. constructor.
Defined.

Lemma X17_pilot_spacenet_scan_locates_witness :
  ∃ k o, spacenet_objs !! k = Some o ∧
         Pilot.prefix_sum [32; 16] k <= 40 < Pilot.prefix_sum [32; 16] (S k) ∧
         Pilot.spacenet_tds_getitem spacenet_objs 40
         = Some (ex ← Pilot.obj_getitem o (40 - Pilot.prefix_sum [32; 16] k); Ok (Some ex)).
Proof.
  apply (X17_pilot_spacenet_scan_locates spacenet_objs [32; 16] 40 spacenet_objs_lens);
    vm_compute; [reflexivity|split; [discriminate|reflexivity]].
Defined.

Lemma X18_pilot_spacenet_agrees_with_core_witness :
  ∃ tds, Core.init two_aois = Ok tds ∧
    ∀ i, 0 <= i < Core.tds_len tds →
      Pilot.spacenet_tds_getitem (Pilot.of_core <$> two_aois) i
      = Some (ex ← Core.tds_getitem tds i; Ok (Some ex)).
Proof.
  apply (X18_pilot_spacenet_agrees_with_core two_aois two_aois_nonneg).
  vm_compute. reflexivity.
Defined.

Lemma X19_pilot_spacenet_ends_witness :
  Pilot.spacenet_tds_getitem spacenet_objs 48 = Some (Ok None) ∧
  Pilot.spacenet_tds_getitem spacenet_objs 49
  = Some (Raise (SystemExit "index out of range")).
Proof.
  destruct (X19_pilot_spacenet_ends spacenet_objs [32; 16] 48 spacenet_objs_lens)
    as (Hend & _); [vm_compute; reflexivity|].
  destruct (X19_pilot_spacenet_ends spacenet_objs [32; 16] 49 spacenet_objs_lens)
    as (_ & Hout & _); [vm_compute; reflexivity|].
  split; [apply Hend; reflexivity|apply Hout; vm_compute; reflexivity].
Defined.

Lemma X20_pilot_spacenet_scan_terminates_witness :
  is_Some (Pilot.scan 7 spacenet_objs 40 0 0) ∧
  Pilot.scan 7 spacenet_objs 40 0 0 = Pilot.scan 3 spacenet_objs 40 0 0.
Proof.
  apply (proj2 (X20_pilot_spacenet_scan_terminates spacenet_objs 40) 7%nat).
  simpl. lia.
Defined.

Lemma X21_pilot_cap_serves_the_aoi_before_witness :
  ∃ tds, Pilot.cap_init cap_objs = Ok tds ∧
    Pilot.cap_tds_getitem tds 11
    = Pilot.Returns (CAP.cap_getitem (cap_square 4) (11 - Pilot.prefix_sum [9; 6] 1)).
Proof.
  destruct (X21_pilot_cap_serves_the_aoi_before cap_objs [9; 6] 11 cap_objs_lens)
    as (tds & Hinit & _ & Hinside & _).
  exists tds. split; [exact Hinit|].
  apply (Hinside 0%nat (Pilot.of_cap (cap_square 4)) eq_refl).
  vm_compute. split; reflexivity.
Defined.

Lemma X22_pilot_cap_unbound_loc_witness :
  ∃ tds, Pilot.cap_init cap_objs = Ok tds ∧
    Pilot.cap_tds_getitem tds 16 = Pilot.UnboundLocalError "loc".
Proof.
  destruct (X22_pilot_cap_unbound_loc cap_objs [9; 6] 16 cap_objs_lens)
    as (tds & Hinit & Hiff).
  exists tds. split; [exact Hinit|]. apply Hiff. right. vm_compute. reflexivity.
Defined.
